(** * MetadataRepository: the TUF role-metadata maintenance engine

    A shallow embedding of [repo_worker/tuf/repository.py] and the
    properties of its update-sign-persist protocol.

    Conventions.
    - Python integers are [Z]; a [datetime] is the number of microseconds
      since the epoch and a [timedelta] a number of microseconds, both [Z].
    - A method that mutates its [role] argument in place returns the
      mutated document.
    - Every method is a computation in the monad [M]: it reads and writes
      the [World] (the fields of [self], the storage backend and the clock)
      and either returns a value or raises a Python exception.  What was
      written before an exception stays written. *)

From Stdlib Require Import ZArith String Ascii List Lia.
From stdpp Require Import base option list gmap strings pretty.

Local Open Scope Z_scope.
Local Open Scope string_scope.

(** ** Data model (the classes of [tuf.api.metadata] that the code uses) *)

(** [MetaFile(version=..)]; [length] and [hashes] are optional. *)
Record MetaFile := mkMetaFile {
  mf_version : Z;
  mf_length : option Z;
  mf_hashes : option (list (string * string))
}.

(** The call [MetaFile(version=v)] of the source. *)
Definition MetaFile_of_version (v : Z) : MetaFile :=
  {| mf_version := v; mf_length := None; mf_hashes := None |}.

Record TargetFile := mkTargetFile {
  tf_path : string;
  tf_length : Z;
  tf_hashes : list (string * string)
}.

(** A succinct hash-bin delegation, seen through the two methods the code
    calls on it: the bin responsible for a path, and the list of all bins. *)
Record SuccinctRoles := mkSuccinctRoles {
  get_role_for_target : string -> string;
  get_roles : list string
}.

Record Delegations := mkDelegations {
  succinct_roles : option SuccinctRoles
}.

(** The role-specific part of a signed document. *)
Inductive Payload :=
| RootP
| TimestampP (snapshot_meta : MetaFile)
| SnapshotP (meta : gmap string MetaFile)
| TargetsP (targets : gmap string TargetFile) (delegations : option Delegations).

Record Signed := mkSigned {
  version : Z;
  expires : Z;
  payload : Payload
}.

Record Key := mkKey {
  keyid : string;
  keyval : string
}.

(** A signature is kept symbolically: the key that made it and the signed
    part it was made over. *)
Record Signature := mkSignature {
  sig_keyid : string;
  sig_key : Key;
  sig_over : Signed
}.

(** [Metadata.signatures] is a Python dict keyed by keyid; it keeps its
    insertion order. *)
Record Metadata := mkMetadata {
  signed : Signed;
  signatures : list (string * Signature)
}.

(** ** Insertion-ordered dictionaries *)

Section odict.
Context {V : Type}.

Fixpoint odict_get (k : string) (d : list (string * V)) : option V :=
  match d with
  | [] => None
  | (k', v) :: d' => if decide (k = k') then Some v else odict_get k d'
  end.

(** [d[k] = v]: an existing key keeps its position. *)
Fixpoint odict_set (k : string) (v : V) (d : list (string * V)) : list (string * V) :=
  match d with
  | [] => [(k, v)]
  | (k', v') :: d' =>
      if decide (k = k') then (k, v) :: d' else (k', v') :: odict_set k v d'
  end.
End odict.

(** ** Python values under [!=]

    [publish_targets_metas] compares an entry of [snapshot.signed.meta], a
    [MetaFile] object, with [bins_role.signed.version], an [int].  Python
    equality between objects of these two classes is never true. *)

Inductive pyobj :=
| PyInt (z : Z)
| PyMetaFile (m : MetaFile).

Definition MetaFile_eqb (a b : MetaFile) : bool :=
  bool_decide (mf_version a = mf_version b)
  && bool_decide (mf_length a = mf_length b)
  && bool_decide (mf_hashes a = mf_hashes b).

Definition py_ne (a b : pyobj) : bool :=
  match a, b with
  | PyInt x, PyInt y => negb (x =? y)%Z
  | PyMetaFile x, PyMetaFile y => negb (MetaFile_eqb x y)
  | _, _ => true
  end.

(** ** The world and the monad *)

Inductive exn :=
| StorageError
| KeyError (key : string)
| AttributeError
| TypeError
| ValueError.

(** [self] and its collaborators.  [_storage_backend] maps a filename to the
    document stored under it; [_key_storage_backend] gives the keys of a role
    name; [_settings] gives the integer value of an option, if it is set;
    [clock] lists the successive readings of [datetime.now()] and [ticks]
    counts the readings made so far. *)
Record World := mkWorld {
  _storage_backend : gmap string Metadata;
  _key_storage_backend : string -> list Key;
  _settings : string -> option Z;
  _hours_before_expire : Z;
  clock : nat -> Z;
  ticks : nat
}.

Inductive outcome (A : Type) :=
| Ok (a : A)
| Raise (e : exn).
Arguments Ok {A} a.
Arguments Raise {A} e.

Definition M (A : Type) : Type := World -> outcome A * World.

Definition ret {A} (a : A) : M A := fun w => (Ok a, w).

Definition raise {A} (e : exn) : M A := fun w => (Raise e, w).

Definition bind {A B} (m : M A) (f : A -> M B) : M B :=
  fun w =>
    match m w with
    | (Ok a, w') => f a w'
    | (Raise e, w') => (Raise e, w')
    end.

(** [try: m  except StorageError: h] *)
Definition try_except_StorageError {A} (m : M A) (h : M A) : M A :=
  fun w =>
    match m w with
    | (Raise StorageError, w') => h w'
    | r => r
    end.

Declare Scope repo_scope.
Delimit Scope repo_scope with repo.
Notation "x <- c ;; k" := (bind c (fun x => k))
  (at level 100, c at next level, right associativity) : repo_scope.
Notation "c ;;; k" := (bind c (fun _ => k))
  (at level 100, right associativity) : repo_scope.
Local Open Scope repo_scope.

(** [for x in xs: acc = body(x, acc)] *)
Fixpoint for_each {A B} (body : A -> B -> M B) (xs : list A) (acc : B) : M B :=
  match xs with
  | [] => ret acc
  | x :: xs' => acc' <- body x acc ;; for_each body xs' acc'
  end.

(** ** Time *)

Definition microseconds_per_second : Z := 1000000.

(** [timedelta(days=d)] and [timedelta(hours=h)] *)
Definition timedelta_days (d : Z) : Z := d * (86400 * microseconds_per_second).
Definition timedelta_hours (h : Z) : Z := h * (3600 * microseconds_per_second).

(** [t.replace(microsecond=0)] *)
Definition replace_microsecond_0 (t : Z) : Z := t - t mod microseconds_per_second.

(** The world after one more reading of the clock. *)
Definition tick (w : World) : World :=
  {| _storage_backend := _storage_backend w;
     _key_storage_backend := _key_storage_backend w;
     _settings := _settings w;
     _hours_before_expire := _hours_before_expire w;
     clock := clock w;
     ticks := S (ticks w) |}.

(** [datetime.now()]: the next reading of the clock. *)
Definition datetime_now : M Z :=
  fun w => (Ok (clock w (ticks w)), tick w).

(** ** Constants of the module *)

Definition BIN : string := "bin".
Definition BINS : string := "bins".
Definition Timestamp_type : string := "timestamp".
Definition Snapshot_type : string := "snapshot".

(** ** The storage backend *)

Definition versioned_name (v : Z) (role_name : string) : string :=
  pretty v +:+ "." +:+ role_name +:+ ".json".

(** The value of a decimal digit, from its character code. *)
Definition digit_of (c : ascii) : option N :=
  let code := N_of_ascii c in
  if ((48 <=? code) && (code <=? 57))%N then Some (code - 48)%N else None.

(** The number written in decimal before the first dot of [s]. *)
Fixpoint parse_N_prefix (s : string) (acc : N) : option N :=
  match s with
  | EmptyString => None
  | String c s' =>
      if decide (c = "."%char) then Some acc
      else match digit_of c with
           | Some d => parse_N_prefix s' (10 * acc + d)%N
           | None => None
           end
  end.

Definition parse_version_prefix (s : string) : option Z :=
  match s with
  | String "-" s' => (fun n => - Z.of_N n) <$> parse_N_prefix s' 0
  | _ => Z.of_N <$> parse_N_prefix s 0
  end.

(** The versions [v] of [role_name] in store: the files named
    [<v>.<role_name>.json]. *)
Definition stored_versions (store : gmap string Metadata) (role_name : string) : list Z :=
  omap (fun '(filename, _) =>
          match parse_version_prefix filename with
          | Some v => if decide (filename = versioned_name v role_name) then Some v else None
          | None => None
          end)
       (map_to_list store).

Definition latest_version (store : gmap string Metadata) (role_name : string) : option Z :=
  foldr (fun v o => Some (match o with Some u => Z.max u v | None => v end))
        None (stored_versions store role_name).

(** Modelled from the spec: the storage service's [get], which is not part
    of [repository.py].  Given a role name it translates it to a filename
    and finds the latest version: Timestamp is the single file
    [timestamp.json]; any other role is stored under version-prefixed
    filenames [<v>.<role_name>.json], and the one with the greatest [v] is
    the latest.  [None] stands for the storage error of a role with no
    file. *)
Definition storage_get (store : gmap string Metadata) (role_name : string) : option Metadata :=
  if decide (role_name = "timestamp") then store !! "timestamp.json"
  else match latest_version store role_name with
       | Some v => store !! versioned_name v role_name
       | None => None
       end.

Definition set_storage (w : World) (store : gmap string Metadata) : World :=
  {| _storage_backend := store;
     _key_storage_backend := _key_storage_backend w;
     _settings := _settings w;
     _hours_before_expire := _hours_before_expire w;
     clock := clock w;
     ticks := ticks w |}.

(** [Metadata.from_file(role_name, None, self._storage_backend)] *)
Definition Metadata_from_file (role_name : string) : M Metadata :=
  fun w =>
    match storage_get (_storage_backend w) role_name with
    | Some md => (Ok md, w)
    | None => (Raise StorageError, w)
    end.

(** [role.to_file(filename, JSONSerializer(), self._storage_backend)] *)
Definition Metadata_to_file (role : Metadata) (filename : string) : M unit :=
  fun w => (Ok tt, set_storage w (<[filename := role]> (_storage_backend w))).

(** [self._key_storage_backend.get(role_name)] *)
Definition key_storage_get (role_name : string) : M (list Key) :=
  fun w => (Ok (_key_storage_backend w role_name), w).

(** [int(self._settings.get_fresh(name))]; [int(None)] is a [TypeError]. *)
Definition settings_get_fresh_int (name : string) : M Z :=
  fun w =>
    match _settings w name with
    | Some z => (Ok z, w)
    | None => (Raise TypeError, w)
    end.

(** [self._hours_before_expire] *)
Definition self_hours_before_expire : M Z :=
  fun w => (Ok (_hours_before_expire w), w).

(** ** Attribute access on documents *)

Definition set_version (role : Metadata) (v : Z) : Metadata :=
  {| signed := {| version := v; expires := expires (signed role);
                  payload := payload (signed role) |};
     signatures := signatures role |}.

Definition set_expires (role : Metadata) (e : Z) : Metadata :=
  {| signed := {| version := version (signed role); expires := e;
                  payload := payload (signed role) |};
     signatures := signatures role |}.

Definition set_payload (role : Metadata) (p : Payload) : Metadata :=
  {| signed := {| version := version (signed role);
                  expires := expires (signed role); payload := p |};
     signatures := signatures role |}.

(** [role.signed.snapshot_meta = m].  On a document that is not a Timestamp
    the assignment creates an attribute that is no field of the document:
    what is later written to the store is unchanged. *)
Definition set_snapshot_meta (role : Metadata) (m : MetaFile) : Metadata :=
  match payload (signed role) with
  | TimestampP _ => set_payload role (TimestampP m)
  | _ => role
  end.

(** [role.signed.meta] *)
Definition get_meta (role : Metadata) : M (gmap string MetaFile) :=
  match payload (signed role) with
  | SnapshotP meta => ret meta
  | _ => raise AttributeError
  end.

(** [role.signed.meta[key]] *)
Definition meta_getitem (role : Metadata) (key : string) : M MetaFile :=
  meta <- get_meta role ;;
  match meta !! key with
  | Some m => ret m
  | None => raise (KeyError key)
  end.

(** [role.signed.meta[key] = m] *)
Definition meta_setitem (role : Metadata) (key : string) (m : MetaFile) : M Metadata :=
  meta <- get_meta role ;;
  ret (set_payload role (SnapshotP (<[key := m]> meta))).

(** [role.signed.targets[target_file.path] = target_file] *)
Definition targets_setitem (role : Metadata) (target_file : TargetFile) : M Metadata :=
  match payload (signed role) with
  | TargetsP targets delegations =>
      ret (set_payload role (TargetsP (<[tf_path target_file := target_file]> targets) delegations))
  | _ => raise AttributeError
  end.

(** [role.signed.delegations.succinct_roles] *)
Definition get_succinct_roles (role : Metadata) : M (option SuccinctRoles) :=
  match payload (signed role) with
  | TargetsP _ (Some delegations) => ret (succinct_roles delegations)
  | _ => raise AttributeError
  end.

(** A method call on [bin_succinct_roles], which may be [None]. *)
Definition call_succinct {A} (sr : option SuccinctRoles) (method : SuccinctRoles -> A) : M A :=
  match sr with
  | Some r => ret (method r)
  | None => raise AttributeError
  end.

(** ** The methods of [MetadataRepository] *)

(** [__init__]: the freshness window defaults to one hour. *)
Definition MetadataRepository_init (storage_service : gmap string Metadata)
    (keyvault_service : string -> list Key) (settings : string -> option Z)
    (clk : nat -> Z) : World :=
  {| _storage_backend := storage_service;
     _key_storage_backend := keyvault_service;
     _settings := settings;
     _hours_before_expire := default 1 (settings "HOURS_BEFORE_EXPIRE");
     clock := clk;
     ticks := 0 |}.

Definition _load (role_name : string) : M Metadata :=
  Metadata_from_file role_name.

(** [role.sign(SSlibSigner(key), append=True)] *)
Definition Metadata_sign (role : Metadata) (key : Key) : Metadata :=
  {| signed := signed role;
     signatures :=
       odict_set (keyid key)
         {| sig_keyid := keyid key; sig_key := key; sig_over := signed role |}
         (signatures role) |}.

(** [role.signatures.clear()] *)
Definition signatures_clear (role : Metadata) : Metadata :=
  {| signed := signed role; signatures := [] |}.

Definition _sign (role : Metadata) (role_name : string) : M Metadata :=
  let role := signatures_clear role in
  keys <- key_storage_get role_name ;;
  for_each (fun key role => ret (Metadata_sign role key)) keys role.

(** The local variable [filename] of [_persist] when [to_file] is called. *)
Definition persist_filename (role : Metadata) (role_name : string) : string :=
  let filename := role_name +:+ ".json" in
  if decide (role_name <> Timestamp_type) then
    if bool_decide (String.prefix (pretty (version (signed role)) +:+ ".") filename = false)
    then pretty (version (signed role)) +:+ "." +:+ filename
    else filename
  else filename.

Definition _persist (role : Metadata) (role_name : string) : M unit :=
  Metadata_to_file role (persist_filename role role_name).

Definition _bump_expiry (role : Metadata) (expiry_id : string) : M Metadata :=
  now <- datetime_now ;;
  days <- settings_get_fresh_int (expiry_id +:+ "_EXPIRATION") ;;
  ret (set_expires role (replace_microsecond_0 now + timedelta_days days)).

Definition _bump_version (role : Metadata) : M Metadata :=
  ret (set_version role (version (signed role) + 1)).

Definition _update_timestamp (snapshot_version : Z) : M Metadata :=
  timestamp <- _load Timestamp_type ;;
  let timestamp := set_snapshot_meta timestamp (MetaFile_of_version snapshot_version) in
  timestamp <- _bump_version timestamp ;;
  timestamp <- _bump_expiry timestamp Timestamp_type ;;
  timestamp <- _sign timestamp Timestamp_type ;;
  _persist timestamp Timestamp_type ;;;
  ret timestamp.

Definition _update_snapshot (targets_meta : list (string * Z)) : M Z :=
  snapshot <- _load Snapshot_type ;;
  snapshot <- for_each
    (fun '(name, version) snapshot =>
       meta_setitem snapshot (name +:+ ".json") (MetaFile_of_version version))
    targets_meta snapshot ;;
  snapshot <- _bump_expiry snapshot Snapshot_type ;;
  snapshot <- _bump_version snapshot ;;
  snapshot <- _sign snapshot Snapshot_type ;;
  _persist snapshot Snapshot_type ;;;
  ret (version (signed snapshot)).

Definition add_initial_metadata (metadata : list (string * Metadata)) : M bool :=
  for_each (fun '(role_name, data) (_ : unit) =>
              Metadata_to_file data (role_name +:+ ".json"))
           metadata tt ;;;
  ret true.

(** An entry of the [targets] argument of [add_targets]:
    [{"path": .., "info": {"length": .., "hashes": ..}}]. *)
Record TargetInfo := mkTargetInfo {
  info_length : Z;
  info_hashes : list (string * string)
}.

Record Target := mkTarget {
  target_path : string;
  target_info : TargetInfo
}.

(** The object [TargetFile(length, hashes, path)] of a batch entry. *)
Definition target_file_of (target : Target) : TargetFile :=
  {| tf_path := target_path target;
     tf_length := info_length (target_info target);
     tf_hashes := info_hashes (target_info target) |}.

(** [TargetFile.__init__] validates its arguments, the length first:
    [if length <= 0: raise ValueError], then [if not hashes: raise
    ValueError]. *)
Definition TargetFile_init (length : Z) (hashes : list (string * string))
    (path : string) : M TargetFile :=
  if (length <=? 0)%Z then raise ValueError
  else if bool_decide (hashes = []) then raise ValueError
  else ret {| tf_path := path; tf_length := length; tf_hashes := hashes |}.

(** [TargetFile.from_dict(info, path)]: the constructor on the [length] and
    the [hashes] of [info]. *)
Definition TargetFile_from_dict (info : TargetInfo) (path : string) : M TargetFile :=
  TargetFile_init (info_length info) (info_hashes info) path.

(** The first loop of [add_targets]: one step of the grouping by bin. *)
Definition group_target (bin_succinct_roles : option SuccinctRoles) (target : Target)
    (bin_target_groups : list (string * list TargetFile)) : M (list (string * list TargetFile)) :=
  bins_name <- call_succinct bin_succinct_roles
                 (fun r => get_role_for_target r (target_path target)) ;;
  let bin_target_groups :=
    match odict_get bins_name bin_target_groups with
    | None => odict_set bins_name [] bin_target_groups
    | Some _ => bin_target_groups
    end in
  target_file <- TargetFile_from_dict (target_info target) (target_path target) ;;
  ret (odict_set bins_name
         (default [] (odict_get bins_name bin_target_groups) ++ [target_file])%list
         bin_target_groups).

(** The second loop of [add_targets]: the cycle of one bin. *)
Definition add_targets_bin (group : string * list TargetFile)
    (targets_meta : list (string * Z)) : M (list (string * Z)) :=
  let '(bins_name, target_files) := group in
  bins_role <- _load bins_name ;;
  bins_role <- for_each (fun target_file bins_role => targets_setitem bins_role target_file)
                 target_files bins_role ;;
  bins_role <- _bump_expiry bins_role BINS ;;
  bins_role <- _bump_version bins_role ;;
  bins_role <- _sign bins_role BINS ;;
  _persist bins_role bins_name ;;;
  ret (targets_meta ++ [(bins_name, version (signed bins_role))])%list.

Definition add_targets (targets : list Target) : M (list (string * Z)) :=
  bin <- _load BIN ;;
  bin_succinct_roles <- get_succinct_roles bin ;;
  bin_target_groups <- for_each (group_target bin_succinct_roles) targets [] ;;
  for_each add_targets_bin bin_target_groups [].

(** The loop of [publish_targets_metas]. *)
Definition publish_targets_metas_bin (snapshot : Metadata) (bins_name : string)
    (targets_meta : list (string * Z)) : M (list (string * Z)) :=
  bins_role <- _load bins_name ;;
  recorded <- meta_getitem snapshot (bins_name +:+ ".json") ;;
  if py_ne (PyMetaFile recorded) (PyInt (version (signed bins_role)))
  then ret (targets_meta ++ [(bins_name, version (signed bins_role))])%list
  else ret targets_meta.

Definition publish_targets_metas (bins_names : list string) : M unit :=
  snapshot <- _load Snapshot_type ;;
  targets_meta <- for_each (publish_targets_metas_bin snapshot) bins_names [] ;;
  if bool_decide (length targets_meta <> 0%nat) then
    snapshot_version <- _update_snapshot targets_meta ;;
    _update_timestamp snapshot_version ;;;
    ret tt
  else ret tt.

(** The loop of [bump_bins_roles]. *)
Definition bump_bins_roles_bin (bins_name : string)
    (targets_meta : list (string * Z)) : M (list (string * Z)) :=
  bins_role <- _load bins_name ;;
  now <- datetime_now ;;
  hours <- self_hours_before_expire ;;
  if (expires (signed bins_role) - now <? timedelta_hours hours)%Z then
    bins_role <- _bump_expiry bins_role BINS ;;
    bins_role <- _bump_version bins_role ;;
    bins_role <- _sign bins_role BINS ;;
    _persist bins_role bins_name ;;;
    ret (targets_meta ++ [(bins_name, version (signed bins_role))])%list
  else ret targets_meta.

Definition bump_bins_roles : M bool :=
  loaded <- try_except_StorageError (bin <- _load BIN ;; ret (Some bin)) (ret None) ;;
  match loaded with
  | None => ret false
  | Some bin =>
      bin_succinct_roles <- get_succinct_roles bin ;;
      bins_names <- call_succinct bin_succinct_roles get_roles ;;
      targets_meta <- for_each bump_bins_roles_bin bins_names [] ;;
      (if (0 <? length targets_meta)%nat then
         snapshot_version <- _update_snapshot targets_meta ;;
         _update_timestamp snapshot_version ;;;
         ret tt
       else ret tt) ;;;
      ret true
  end.

Definition bump_snapshot : M bool :=
  loaded <- try_except_StorageError
              (snapshot <- _load Snapshot_type ;; ret (Some snapshot)) (ret None) ;;
  match loaded with
  | None => ret false
  | Some snapshot =>
      now <- datetime_now ;;
      hours <- self_hours_before_expire ;;
      (if (expires (signed snapshot) - now <? timedelta_hours hours)%Z then
         snapshot_version <- _update_snapshot [] ;;
         _update_timestamp snapshot_version ;;;
         ret tt
       else ret tt) ;;;
      ret true
  end.

(** ** A small repository to run the methods on *)

Module Demo.

Definition key1 : Key := {| keyid := "k1"; keyval := "material-1" |}.
Definition key2 : Key := {| keyid := "k2"; keyval := "material-2" |}.

Definition keyvault (role_name : string) : list Key :=
  if decide (role_name = "bins") then [key1; key2]
  else if decide (role_name = "snapshot") then [key1]
  else if decide (role_name = "timestamp") then [key2]
  else [].

Definition settings (name : string) : option Z :=
  if decide (name = "bins_EXPIRATION") then Some 1
  else if decide (name = "snapshot_EXPIRATION") then Some 1
  else if decide (name = "timestamp_EXPIRATION") then Some 1
  else None.

Definition doc (v e : Z) (p : Payload) : Metadata :=
  {| signed := {| version := v; expires := e; payload := p |}; signatures := [] |}.

Definition succinct (names : list string) (pick : string -> string) : Payload :=
  TargetsP ∅ (Some {| succinct_roles :=
    Some {| get_role_for_target := pick; get_roles := names |} |}).

(** Paths starting with [a] go to bin [bin-0], the others to [bin-1]. *)
Definition pick (path : string) : string :=
  if String.prefix "a" path then "bin-0" else "bin-1".

Definition hour : Z := timedelta_hours 1.

(** Two bins at version 3 recorded in Snapshot at version 3; every
    document expires 30 minutes after time 0. *)
Definition bin_doc : Metadata :=
  doc 1 (100 * hour) (succinct ["bin-0"; "bin-1"] pick).
Definition bins_doc : Metadata := doc 3 (hour / 2) (TargetsP ∅ None).
Definition snapshot_doc : Metadata :=
  doc 5 (hour / 2)
    (SnapshotP (list_to_map [("bin-0.json", MetaFile_of_version 3);
                             ("bin-1.json", MetaFile_of_version 3)])).
Definition timestamp_doc : Metadata :=
  doc 7 (hour / 2) (TimestampP (MetaFile_of_version 5)).

Definition store : gmap string Metadata :=
  list_to_map
    [ ("1.bin.json", bin_doc);
      ("3.bin-0.json", bins_doc);
      ("3.bin-1.json", bins_doc);
      ("5.snapshot.json", snapshot_doc);
      ("timestamp.json", timestamp_doc) ].

Definition world : World :=
  MetadataRepository_init store keyvault settings (fun _ => 0).

(** A bin named [2], at version 2. *)
Definition bin_two : Metadata := doc 2 (100 * hour) (TargetsP ∅ None).

(** Version 2 of a bin named [2.x-0]. *)
Definition bin_2x_0 : Metadata := doc 2 (100 * hour) (TargetsP ∅ None).


(** A batch of two targets: [a1] belongs to [bin-0], [b1] to [bin-1]. *)
Definition batch : list Target :=
  [ {| target_path := "a1";
       target_info := {| info_length := 1; info_hashes := [("sha256", "0a")] |} |};
    {| target_path := "b1";
       target_info := {| info_length := 2; info_hashes := [("sha256", "0b")] |} |} ].

(** A repository whose bins carry the name prefix [2.x]: bins [2.x-0] and
    [2.x-1], both at version 1; the document of [2.x-0] expires 30 minutes
    after time 0. *)
Definition store_2x : gmap string Metadata :=
  list_to_map
    [ ("1.bin.json",
        doc 1 (100 * hour) (succinct ["2.x-0"; "2.x-1"] (fun _ => "2.x-0")));
      ("1.2.x-0.json", doc 1 (hour / 2) (TargetsP ∅ None));
      ("1.2.x-1.json", doc 1 (100 * hour) (TargetsP ∅ None));
      ("5.snapshot.json", doc 5 (100 * hour) (SnapshotP ∅));
      ("timestamp.json", doc 7 (100 * hour) (TimestampP (MetaFile_of_version 5))) ].

Definition world_2x : World :=
  MetadataRepository_init store_2x keyvault settings (fun _ => 0).

(** A repository in which [5.bin-0.json] holds a document that carries
    version 3. *)
Definition world_misfiled : World :=
  MetadataRepository_init
    (<["5.bin-0.json" := bins_doc]> (delete "3.bin-0.json" store))
    keyvault settings (fun _ => 0).

(** A repository that was never initialised: no file at all. *)
Definition empty_world : World :=
  MetadataRepository_init ∅ keyvault settings (fun _ => 0).

(** The first version of the bin named [2], and the repository it was
    bootstrapped into under the name [2]. *)
Definition bin_two_initial : Metadata := doc 1 (100 * hour) (TargetsP ∅ None).

Definition world_bin_two : World :=
  snd (add_initial_metadata [("2", bin_two_initial)] empty_world).

End Demo.

(** ** Closed forms used in the statements *)

(** The document [_sign] produces from [role] with the keys [keys]. *)
Definition sign_with (keys : list Key) (role : Metadata) : Metadata :=
  fold_left Metadata_sign keys (signatures_clear role).

(** The pair of bumps of one cycle, in either order. *)
Definition bump_pair (role : Metadata) (now days : Z) : Metadata :=
  set_version (set_expires role (replace_microsecond_0 now + timedelta_days days))
              (version (signed role) + 1).

(** The [meta] dictionary after the loop of [_update_snapshot]. *)
Definition record_targets_meta (targets_meta : list (string * Z))
    (meta : gmap string MetaFile) : gmap string MetaFile :=
  fold_left (fun m '(name, version) => <[name +:+ ".json" := MetaFile_of_version version]> m)
            targets_meta meta.

(** The [targets] dictionary after the inner loop of [add_targets]. *)
Definition upsert_targets (target_files : list TargetFile)
    (targets : gmap string TargetFile) : gmap string TargetFile :=
  fold_left (fun t target_file => <[tf_path target_file := target_file]> t)
            target_files targets.

(** The documents the cycles write. *)
Definition bumped_timestamp (w : World) (timestamp : Metadata) (snapshot_version days : Z) : Metadata :=
  sign_with (_key_storage_backend w Timestamp_type)
    (bump_pair (set_snapshot_meta timestamp (MetaFile_of_version snapshot_version))
               (clock w (ticks w)) days).

Definition bumped_snapshot (w : World) (snapshot : Metadata) (meta : gmap string MetaFile)
    (targets_meta : list (string * Z)) (days : Z) : Metadata :=
  sign_with (_key_storage_backend w Snapshot_type)
    (bump_pair (set_payload snapshot (SnapshotP (record_targets_meta targets_meta meta)))
               (clock w (ticks w)) days).

Definition bumped_bin (w : World) (bins_role : Metadata) (now days : Z) : Metadata :=
  sign_with (_key_storage_backend w BINS) (bump_pair bins_role now days).

(** [new] is [old] after one pair of bumps at time [now], for a role class
    whose configured interval is [days]. *)
Definition bumped_from (old new : Metadata) (now days : Z) : Prop :=
  version (signed new) = version (signed old) + 1
  /\ expires (signed new) = replace_microsecond_0 now + timedelta_days days.

(** The dictionary [bin_target_groups] after one more target. *)
Definition group_step (roles : SuccinctRoles)
    (bin_target_groups : list (string * list TargetFile)) (target : Target)
    : list (string * list TargetFile) :=
  let bins_name := get_role_for_target roles (target_path target) in
  let bin_target_groups :=
    match odict_get bins_name bin_target_groups with
    | None => odict_set bins_name [] bin_target_groups
    | Some _ => bin_target_groups
    end in
  odict_set bins_name
    (default [] (odict_get bins_name bin_target_groups)
     ++ [target_file_of target])%list
    bin_target_groups.

(** The groups [add_targets] builds from [targets]. *)
Definition group_targets (roles : SuccinctRoles) (targets : list Target)
    : list (string * list TargetFile) :=
  fold_left (group_step roles) targets [].

(** [store'] is [store] after one propagation: a Snapshot one version above
    the loaded one was written under its version-prefixed name, then
    [timestamp.json] was written again.  When it held a Timestamp document,
    the new one is a Timestamp whose [snapshot_meta.version] is the version
    of that Snapshot; a document of another type has no such field and keeps
    its payload. *)
Definition propagated (store store' : gmap string Metadata) : Prop :=
  exists old snapshot old_timestamp timestamp,
    storage_get store Snapshot_type = Some old
    /\ version (signed snapshot) = version (signed old) + 1
    /\ store !! "timestamp.json" = Some old_timestamp
    /\ store' = <["timestamp.json" := timestamp]>
                 (<[versioned_name (version (signed snapshot)) Snapshot_type := snapshot]> store)
    /\ match payload (signed old_timestamp) with
       | TimestampP _ =>
           exists snapshot_meta,
             payload (signed timestamp) = TimestampP snapshot_meta
             /\ mf_version snapshot_meta = version (signed snapshot)
       | other => payload (signed timestamp) = other
       end.

(** ** The vocabulary of the expiry sweeps *)

(** What the methods never change: keys, settings, freshness window, clock. *)
Definition config_of (w : World)
    : (string -> list Key) * (string -> option Z) * Z * (nat -> Z) :=
  (_key_storage_backend w, _settings w, _hours_before_expire w, clock w).

(** At time [now], [md] is not within the freshness window [threshold]. *)
Definition fresh (threshold now : Z) (md : Metadata) : Prop :=
  threshold <= expires (signed md) - now.

(** Loading [role_name] gives no document that a sweep would bump. *)
Definition settled (threshold now : Z) (store : gmap string Metadata)
    (role_name : string) : Prop :=
  forall md, storage_get store role_name = Some md -> fresh threshold now md.

(** A sweep over [bins_names] stops at a bin that does not load before it
    meets one within the window. *)
Fixpoint quiet (threshold now : Z) (store : gmap string Metadata)
    (bins_names : list string) : Prop :=
  match bins_names with
  | [] => True
  | bins_name :: rest =>
      storage_get store bins_name = None
      \/ (settled threshold now store bins_name /\ quiet threshold now store rest)
  end.

(** [store'] is [store] with one more file, of role [role_name], holding a
    document that is not within the window. *)
Definition role_write (threshold now : Z) (role_name : string)
    (store store' : gmap string Metadata) : Prop :=
  exists filename md,
    store' = <[filename := md]> store
    /\ fresh threshold now md
    /\ ((role_name = "timestamp" /\ filename = "timestamp.json")
        \/ (role_name <> "timestamp" /\ exists v, filename = versioned_name v role_name)).

(** Relative to the store [store0] the sweep started from, each bin either is
    settled or loads as it did at the start. *)
Definition sweep_invariant (threshold now : Z) (bins_names : list string)
    (store0 store : gmap string Metadata) : Prop :=
  forall role_name, role_name ∈ bins_names ->
    settled threshold now store role_name
    \/ (storage_get store role_name = storage_get store0 role_name
        /\ latest_version store role_name = latest_version store0 role_name).

(** Loading [role_name] gives a document with payload [p]. *)
Definition loads_like (store : gmap string Metadata) (role_name : string)
    (p : Payload) : Prop :=
  exists md, storage_get store role_name = Some md /\ payload (signed md) = p.

(** The world after [n] more readings of the clock and nothing else. *)
Fixpoint ticks_later (n : nat) (w : World) : World :=
  match n with
  | O => w
  | S n' => ticks_later n' (tick w)
  end.

(** The hypotheses of the idempotence of the bins sweep. *)

(** No time passes: every reading of the clock gives [now]. *)
Definition no_time_passes (w : World) (now : Z) : Prop :=
  forall n, clock w n = now.

(** Each configured expiration interval strictly exceeds the freshness
    window. *)
Definition intervals_exceed_window (w : World) : Prop :=
  forall expiry_id days,
    _settings w (expiry_id +:+ "_EXPIRATION") = Some days ->
    timedelta_hours (_hours_before_expire w) < timedelta_days days.

(** Each bin that loads is stored under the version its document carries,
    and [_persist] will prefix its next version. *)
Definition bins_stored_by_version (store : gmap string Metadata)
    (bins_names : list string) : Prop :=
  forall bins_name md,
    bins_name ∈ bins_names -> bins_name <> "timestamp" ->
    storage_get store bins_name = Some md ->
    latest_version store bins_name = Some (version (signed md))
    /\ String.prefix (pretty (version (signed md) + 1) +:+ ".") (bins_name +:+ ".json")
       = false.

(** ** More closed forms and repositories, for the remaining behaviour *)

(** The range of [datetime], the years 1 to 9999, in microseconds since the
    epoch, and the greatest number of days of a [timedelta]. *)
Definition datetime_min : Z := -62135596800000000.
Definition datetime_max : Z := 253402300799999999.
Definition timedelta_max_days : Z := 999999999.

(** The expiry [now.replace(microsecond=0) + timedelta(days=days)] exists:
    the interval is a [timedelta] and the sum a [datetime].  Out of this
    range Python raises [OverflowError] and nothing is bumped; [_bump_expiry]
    above takes the sum on [Z] and is the code's behaviour within the range
    only. *)
Definition expiry_in_range (now days : Z) : Prop :=
  (- timedelta_max_days <= days <= timedelta_max_days)
  /\ (datetime_min <= now - now mod 1000000 + days * 86400000000 <= datetime_max).

(** The entry passes the checks of [TargetFile.__init__]. *)
Definition valid_target (target : Target) : Prop :=
  0 < info_length (target_info target) /\ info_hashes (target_info target) <> [].

(** The version last given for the entry [key] in [targets_meta], if any. *)
Definition last_recorded (key : string) (targets_meta : list (string * Z)) : option Z :=
  fold_left (fun o '(name, version) =>
               if decide (name +:+ ".json" = key) then Some version else o)
            targets_meta None.



(** The version of the document that loading [role_name] gives. *)
Definition stored_version (store : gmap string Metadata) (role_name : string) : option Z :=
  version ∘ signed <$> storage_get store role_name.

(** The targets of [targets] that [roles] assigns to [bins_name], as target
    files, in the order of the batch. *)
Definition targets_of_bin (roles : SuccinctRoles) (bins_name : string)
    (targets : list Target) : list TargetFile :=
  target_file_of
  <$> filter (fun target => get_role_for_target roles (target_path target) = bins_name)
             targets.

(** [w'] has the keys, settings, window and clock of [w], and every file of
    [w]'s store is still a file of [w']'s. *)
Definition keeps_files (w w' : World) : Prop :=
  config_of w' = config_of w
  /\ (ticks w <= ticks w')%nat
  /\ forall filename,
       is_Some (_storage_backend w !! filename) ->
       is_Some (_storage_backend w' !! filename).

(** A computation that, whatever its outcome, keeps the files. *)
Definition file_keeping {A} (m : M A) : Prop :=
  forall w r w', m w = (r, w') -> keeps_files w w'.

Module Scenario.

(** The repository of [Demo] some time after a full renewal: every document
    expires 100 hours after time 0. *)
Definition renewed_store : gmap string Metadata :=
  list_to_map
    [ ("1.bin.json", Demo.bin_doc);
      ("4.bin-0.json", Demo.doc 4 (100 * Demo.hour) (TargetsP ∅ None));
      ("4.bin-1.json", Demo.doc 4 (100 * Demo.hour) (TargetsP ∅ None));
      ("6.snapshot.json",
        Demo.doc 6 (100 * Demo.hour)
          (SnapshotP (list_to_map [("bin-0.json", MetaFile_of_version 4);
                                   ("bin-1.json", MetaFile_of_version 4)])));
      ("timestamp.json", Demo.doc 8 (100 * Demo.hour) (TimestampP (MetaFile_of_version 6))) ].

Definition renewed_world : World :=
  MetadataRepository_init renewed_store Demo.keyvault Demo.settings (fun _ => 0).

(** The repository of [Demo] with [timestamp.json] lost. *)
Definition world_without_timestamp : World :=
  MetadataRepository_init (delete "timestamp.json" Demo.store)
    Demo.keyvault Demo.settings (fun _ => 0).

(** The repository of [Demo] with [bin-1] lost. *)
Definition world_without_bin_1 : World :=
  MetadataRepository_init (delete "3.bin-1.json" Demo.store)
    Demo.keyvault Demo.settings (fun _ => 0).

(** The repository of [Demo] with no expiration interval configured. *)
Definition world_without_intervals : World :=
  MetadataRepository_init Demo.store Demo.keyvault (fun _ => None) (fun _ => 0).

(** The repository of [Demo] with a clock that reads 1.234567 seconds after
    time 0. *)
Definition world_past_second : World :=
  MetadataRepository_init Demo.store Demo.keyvault Demo.settings (fun _ => 1234567).

(** A batch whose second target has no hashes. *)
Definition batch_without_hashes : list Target :=
  [ {| target_path := "a1";
       target_info := {| info_length := 1; info_hashes := [("sha256", "0a")] |} |};
    {| target_path := "b1"; target_info := {| info_length := 2; info_hashes := [] |} |};
    {| target_path := "a2";
       target_info := {| info_length := 3; info_hashes := [("sha256", "0c")] |} |} ].

End Scenario.

(** * Properties *)

(** ** Strings and decimal numerals *)

Lemma string_prefix_app (p s : string) : String.prefix p (p +:+ s) = true.
Proof.
  induction p as [|c p IH]; simpl.
  - by destruct s.
  - destruct (ascii_dec c c); [exact IH | congruence].
Qed.

Lemma string_length_app (s t : string) :
  String.length (s +:+ t) = (String.length s + String.length t)%nat.
Proof. induction s as [|c s IH]; simpl; [done | f_equal; exact IH]. Qed.

Lemma string_app_cons (c : ascii) (s t : string) :
  String c s +:+ t = String c (s +:+ t).
Proof. reflexivity. Qed.

Lemma string_app_assoc (s t u : string) : (s +:+ t) +:+ u = s +:+ (t +:+ u).
Proof.
  induction s as [|c s IH]; [done|].
  rewrite !string_app_cons. f_equal. exact IH.
Qed.

Lemma string_app_inv_tail (s s' t : string) : s +:+ t = s' +:+ t -> s = s'.
Proof.
  revert s'. induction s as [|c s IH]; intros [|c' s'] H.
  - done.
  - apply (f_equal String.length) in H.
    rewrite !string_length_app in H. simpl in H. lia.
  - apply (f_equal String.length) in H.
    rewrite !string_length_app in H. simpl in H. lia.
  - rewrite !string_app_cons in H. injection H as -> H. f_equal. by apply IH.
Qed.

Lemma digit_of_pretty_N_char (d : N) :
  (d < 10)%N -> digit_of (pretty_N_char d) = Some d /\ pretty_N_char d <> "."%char.
Proof.
  intros Hd.
  assert (d = 0 \/ d = 1 \/ d = 2 \/ d = 3 \/ d = 4 \/ d = 5 \/ d = 6
          \/ d = 7 \/ d = 8 \/ d = 9)%N as Hcases by lia.
  repeat (destruct Hcases as [-> | Hcases]; [by split |]).
  subst d. by split.
Qed.

Lemma pretty_N_go_app (x : N) (s t : string) :
  pretty_N_go x s +:+ t = pretty_N_go x (s +:+ t).
Proof.
  revert s. induction (N.lt_wf_0 x) as [x _ IH]; intros s.
  destruct (decide (x = 0%N)) as [-> | Hx].
  - by rewrite !pretty_N_go_0.
  - rewrite !(pretty_N_go_step x) by lia.
    rewrite IH; [done | apply N.div_lt; lia].
Qed.

Lemma parse_pretty_N_go (x : N) (s : string) :
  parse_N_prefix (pretty_N_go x s) 0 = parse_N_prefix s x.
Proof.
  revert s. induction (N.lt_wf_0 x) as [x _ IH]; intros s.
  destruct (decide (x = 0%N)) as [-> | Hx].
  - by rewrite pretty_N_go_0.
  - rewrite pretty_N_go_step by lia.
    rewrite IH by (apply N.div_lt; lia). simpl.
    destruct (digit_of_pretty_N_char (x `mod` 10)%N) as [-> Hdot].
    { apply N.mod_lt. lia. }
    rewrite decide_False by done.
    f_equal. rewrite (N.div_mod x 10) at 3 by lia. lia.
Qed.

Lemma pretty_pos_app (p : positive) (t : string) :
  pretty p +:+ t = pretty_N_go (N.pos p) t.
Proof.
  unfold pretty, pretty_positive, pretty, pretty_N.
  rewrite decide_False by done. apply pretty_N_go_app.
Qed.

(** A name that starts with a version and a dot is read back as that
    version. *)
Lemma parse_version_prefix_app (v : Z) (rest : string) :
  parse_version_prefix (pretty v +:+ "." +:+ rest) = Some v.
Proof.
  destruct v as [|p|p].
  - reflexivity.
  - change (pretty (Z.pos p)) with (pretty p). rewrite pretty_pos_app.
    unfold parse_version_prefix.
    set (t := "." +:+ rest).
    assert (forall s', pretty_N_go (N.pos p) t <> String "-" s') as Hnd.
    { intros s'. apply (pretty_N_go_ne_dash (N.pos p) t s'). by subst t. }
    assert (parse_N_prefix (pretty_N_go (N.pos p) t) 0 = Some (N.pos p)) as Hp.
    { rewrite parse_pretty_N_go. by subst t. }
    destruct (pretty_N_go (N.pos p) t) as [|c s']; [done|].
    destruct (decide (c = "-"%char)) as [-> | Hc].
    + by destruct (Hnd s').
    + assert (forall (X : Type) (a b : X),
                 match c with "-"%char => a | _ => b end = b) as Hm.
      { intros X a b.
        destruct c as [[] [] [] [] [] [] [] []]; try reflexivity. by destruct Hc. }
      rewrite Hm, Hp. reflexivity.
  - change (pretty (Z.neg p)) with ("-" +:+ pretty p).
    rewrite string_app_assoc, pretty_pos_app.
    change (parse_version_prefix ("-" +:+ ?s))
      with ((fun n => - Z.of_N n) <$> parse_N_prefix s 0).
    rewrite parse_pretty_N_go. reflexivity.
Qed.

Lemma parse_versioned_name (v : Z) (role_name : string) :
  parse_version_prefix (versioned_name v role_name) = Some v.
Proof. apply parse_version_prefix_app. Qed.

Lemma string_prefix_inv (p s : string) :
  String.prefix p s = true -> exists rest, s = p +:+ rest.
Proof.
  revert s. induction p as [|c p IH]; intros s H.
  - by exists s.
  - destruct s as [|c' s]; simpl in H; [done|].
    destruct (ascii_dec c c') as [<- | ?]; [|done].
    destruct (IH s H) as [rest ->]. by exists rest.
Qed.

(** What [startswith] finds is what the storage reads. *)
Lemma string_prefix_version (v : Z) (s : string) :
  String.prefix (pretty v +:+ ".") s = true -> parse_version_prefix s = Some v.
Proof.
  intros H. apply string_prefix_inv in H as [rest ->].
  rewrite string_app_assoc. apply parse_version_prefix_app.
Qed.

Lemma versioned_name_inj (v v' : Z) (r r' : string) :
  versioned_name v r = versioned_name v' r' -> v = v' /\ r = r'.
Proof.
  intros H.
  assert (v = v') as <-.
  { pose proof (parse_versioned_name v r) as H1.
    rewrite H, parse_versioned_name in H1. congruence. }
  split; [done|].
  unfold versioned_name in H.
  apply (inj (String.app _)) in H. apply (inj (String.app _)) in H.
  by apply string_app_inv_tail in H.
Qed.

Lemma versioned_name_not_timestamp (v : Z) (r : string) :
  versioned_name v r <> "timestamp.json".
Proof.
  intros H. pose proof (parse_versioned_name v r) as H1.
  rewrite H in H1. discriminate.
Qed.

Lemma versioned_name_longer (v : Z) (r : string) :
  versioned_name v r <> r +:+ ".json".
Proof.
  intros H. apply (f_equal String.length) in H.
  unfold versioned_name in H. rewrite !string_length_app in H. simpl in H. lia.
Qed.

(** ** Running computations *)

Lemma bind_ok {A B} (m : M A) (f : A -> M B) (w w' : World) (a : A) :
  m w = (Ok a, w') -> bind m f w = f a w'.
Proof. intros H. unfold bind. by rewrite H. Qed.

Lemma bind_raise {A B} (m : M A) (f : A -> M B) (w w' : World) (e : exn) :
  m w = (Raise e, w') -> bind m f w = (Raise e, w').
Proof. intros H. unfold bind. by rewrite H. Qed.

Lemma bind_inv {A B} (m : M A) (f : A -> M B) (w w' : World) (b : B) :
  bind m f w = (Ok b, w') ->
  exists a w1, m w = (Ok a, w1) /\ f a w1 = (Ok b, w').
Proof.
  unfold bind. destruct (m w) as [[a|e] w1]; [|done].
  intros H. by exists a, w1.
Qed.

Lemma for_each_pure {A B} (f : B -> A -> B) (xs : list A) (acc : B) (w : World) :
  for_each (fun x acc => ret (f acc x)) xs acc w = (Ok (fold_left f xs acc), w).
Proof. revert acc. induction xs as [|x xs IH]; intros acc; [done | apply IH]. Qed.

Lemma for_each_app {A B} (body : A -> B -> M B) (xs ys : list A) (acc : B) (w : World) :
  for_each body (xs ++ ys)%list acc w
  = (acc' <- for_each body xs acc ;; for_each body ys acc') w.
Proof.
  revert acc w. induction xs as [|x xs IH]; intros acc w.
  - reflexivity.
  - change (for_each body ((x :: xs) ++ ys)%list acc w)
      with (bind (body x acc) (for_each body (xs ++ ys)%list) w).
    change (for_each body (x :: xs) acc)
      with (bind (body x acc) (for_each body xs)).
    unfold bind.
    destruct (body x acc w) as [[acc'|e] w']; [|done].
    rewrite IH. reflexivity.
Qed.

Lemma load_ok (role_name : string) (w : World) (md : Metadata) :
  storage_get (_storage_backend w) role_name = Some md ->
  _load role_name w = (Ok md, w).
Proof. intros H. unfold _load, Metadata_from_file. by rewrite H. Qed.

Lemma load_missing (role_name : string) (w : World) :
  storage_get (_storage_backend w) role_name = None ->
  _load role_name w = (Raise StorageError, w).
Proof. intros H. unfold _load, Metadata_from_file. by rewrite H. Qed.

Lemma sign_run (role : Metadata) (role_name : string) (w : World) :
  _sign role role_name w = (Ok (sign_with (_key_storage_backend w role_name) role), w).
Proof. unfold _sign, sign_with, key_storage_get, bind. apply for_each_pure. Qed.

Lemma bump_expiry_run (role : Metadata) (expiry_id : string) (w : World) (days : Z) :
  _settings w (expiry_id +:+ "_EXPIRATION") = Some days ->
  _bump_expiry role expiry_id w
  = (Ok (set_expires role
           (replace_microsecond_0 (clock w (ticks w)) + timedelta_days days)),
     tick w).
Proof.
  intros H. unfold _bump_expiry, bind, datetime_now, settings_get_fresh_int.
  simpl. by rewrite H.
Qed.

(** ** The filename chosen by [_persist] *)

Lemma persist_filename_spec (role : Metadata) (role_name : string) :
  persist_filename role role_name
  = if decide (role_name = Timestamp_type) then "timestamp.json"
    else if String.prefix (pretty (version (signed role)) +:+ ".") (role_name +:+ ".json")
         then role_name +:+ ".json"
         else versioned_name (version (signed role)) role_name.
Proof.
  unfold persist_filename, versioned_name.
  destruct (decide (role_name = Timestamp_type)) as [-> | Hne].
  - by rewrite decide_False by (intros H; by apply H).
  - rewrite decide_True by done.
    destruct (String.prefix _ _); by simpl.
Qed.

(** A role whose name is not read as a version is always stored under its
    version-prefixed name. *)
Lemma persist_filename_versioned (role : Metadata) (role_name : string) :
  role_name <> Timestamp_type ->
  parse_version_prefix (role_name +:+ ".json") <> Some (version (signed role)) ->
  persist_filename role role_name = versioned_name (version (signed role)) role_name.
Proof.
  intros Hne Hparse. rewrite persist_filename_spec, decide_False by done.
  destruct (String.prefix _ _) eqn:Hp; [|done].
  by apply string_prefix_version in Hp.
Qed.

(** C9, as the code has it: [_persist] writes the Timestamp role under its
    fixed filename [timestamp.json], with no version prefix; it writes every
    other role under [<version>.<role_name>.json], except that it keeps
    [<role_name>.json] as it is exactly when that already starts with
    [<version>.]; in both cases the filename of a role other than Timestamp
    starts with the document's current version and a dot. *)
Theorem persist_filename_by_role (role : Metadata) (role_name : string) (w : World) :
  let v := version (signed role) in
  let already := String.prefix (pretty v +:+ ".") (role_name +:+ ".json") in
  exists filename,
    _persist role role_name w
    = (Ok tt, set_storage w (<[filename := role]> (_storage_backend w)))
    /\ filename
       = (if decide (role_name = "timestamp") then "timestamp.json"
          else if already then role_name +:+ ".json"
          else pretty v +:+ "." +:+ role_name +:+ ".json")
    /\ (if decide (role_name = "timestamp") then True
        else String.prefix (pretty v +:+ ".") filename = true).
Proof.
  intros v already. exists (persist_filename role role_name). split; [reflexivity|].
  rewrite persist_filename_spec. unfold Timestamp_type.
  destruct (decide (role_name = "timestamp")) as [Heq | Hne]; [done|].
  fold v. fold already. destruct already eqn:Hp.
  - split; [done | exact Hp].
  - split; [reflexivity|].
    unfold versioned_name. rewrite <- string_app_assoc. apply string_prefix_app.
Qed.

(** C9, as stated, fails: the bin named [2.x-0] at version 2 is written to
    [2.x-0.json] and the bin named [2] at version 2 to [2.json]; neither
    filename is given the version prefix, and no [2.2.x-0.json] or
    [2.2.json] is written. *)
Lemma persist_filename_not_prefixed :
  persist_filename Demo.bin_2x_0 "2.x-0" = "2.x-0.json"
  /\ versioned_name (version (signed Demo.bin_2x_0)) "2.x-0" = "2.2.x-0.json"
  /\ _storage_backend (snd (_persist Demo.bin_2x_0 "2.x-0" Demo.empty_world))
       !! "2.2.x-0.json" = None
  /\ _storage_backend (snd (_persist Demo.bin_2x_0 "2.x-0" Demo.empty_world))
       !! "2.x-0.json" = Some Demo.bin_2x_0
  /\ persist_filename Demo.bin_two "2" = "2.json"
  /\ versioned_name (version (signed Demo.bin_two)) "2" = "2.2.json"
  /\ _storage_backend (snd (_persist Demo.bin_two "2" Demo.empty_world)) !! "2.2.json" = None
  /\ _storage_backend (snd (_persist Demo.bin_two "2" Demo.empty_world)) !! "2.json"
     = Some Demo.bin_two.
Proof. repeat split; vm_compute; reflexivity. Qed.

(** C10: for a role other than Timestamp, [_persist] adds the version prefix
    exactly when [<role_name>.json] does not already start with
    [<version>.]; when it does start so (a bin named [2] at version 2), the
    document is written to [<role_name>.json], replacing what was stored
    there, and no file [<version>.<role_name>.json] is created. *)
Theorem persist_name_already_versioned (role : Metadata) (role_name : string) (w : World) :
  role_name <> Timestamp_type ->
  let v := version (signed role) in
  let already := String.prefix (pretty v +:+ ".") (role_name +:+ ".json") in
  let store := _storage_backend w in
  let store' := _storage_backend (snd (_persist role role_name w)) in
  (persist_filename role role_name = versioned_name v role_name <-> already = false)
  /\ (already = true ->
      persist_filename role role_name = role_name +:+ ".json"
      /\ store' = <[role_name +:+ ".json" := role]> store
      /\ store' !! (role_name +:+ ".json") = Some role
      /\ store' !! versioned_name v role_name = store !! versioned_name v role_name).
Proof.
  intros Hne v already store store'.
  assert (persist_filename role role_name
          = if already then role_name +:+ ".json" else versioned_name v role_name) as Hfn.
  { rewrite persist_filename_spec, decide_False by done. reflexivity. }
  split.
  - rewrite Hfn. destruct already; split; try done.
    intros H. symmetry in H. by apply versioned_name_longer in H.
  - intros Hal. rewrite Hal in Hfn.
    assert (store' = <[role_name +:+ ".json" := role]> store) as Hst.
    { subst store' store. unfold _persist, Metadata_to_file. simpl. by rewrite Hfn. }
    repeat split; [done | done | |].
    + rewrite Hst. apply lookup_insert_eq.
    + rewrite Hst. apply lookup_insert_ne. intros H. symmetry in H.
      by apply versioned_name_longer in H.
Qed.

Lemma persist_name_already_versioned_witness :
  _storage_backend Demo.world_bin_two !! "2.json" = Some Demo.bin_two_initial
  /\ persist_filename Demo.bin_two "2" = "2.json"
  /\ _storage_backend (snd (_persist Demo.bin_two "2" Demo.world_bin_two)) !! "2.json"
     = Some Demo.bin_two
  /\ _storage_backend (snd (_persist Demo.bin_two "2" Demo.world_bin_two)) !! "2.2.json"
     = None.
Proof.
  destruct (persist_name_already_versioned Demo.bin_two "2" Demo.world_bin_two) as [_ H].
  { discriminate. }
  destruct H as (H1 & _ & H3 & H4); [reflexivity|].
  split; [vm_compute; reflexivity|].
  split; [exact H1|]. split; [exact H3|].
  etransitivity; [exact H4|]. vm_compute. reflexivity.
Defined.

(** ** Signing *)

Section odict_facts.
Context {V : Type}.
Implicit Types (d : list (string * V)) (k : string) (v : V).

Lemma odict_get_set_eq k v d : odict_get k (odict_set k v d) = Some v.
Proof.
  induction d as [|[k' v'] d IH]; simpl.
  - by rewrite decide_True.
  - destruct (decide (k = k')) as [<- | Hne]; simpl.
    + by rewrite decide_True.
    + by rewrite decide_False.
Qed.

Lemma odict_get_set_ne k k' v d :
  k <> k' -> odict_get k' (odict_set k v d) = odict_get k' d.
Proof.
  intros Hne. induction d as [|[k0 v0] d IH]; simpl.
  - by rewrite decide_False.
  - destruct (decide (k = k0)) as [<- | Hne0]; simpl.
    + by rewrite !decide_False.
    + by rewrite IH.
Qed.

Lemma elem_of_odict_set k v d (e : string * V) :
  e ∈ odict_set k v d -> e = (k, v) \/ e ∈ d.
Proof.
  induction d as [|[k' v'] d IH]; simpl.
  - intros ->%list_elem_of_singleton. by left.
  - destruct (decide (k = k')) as [<- | Hne].
    + intros [-> | He]%elem_of_cons; [by left|].
      right. by apply elem_of_cons; right.
    + intros [-> | He]%elem_of_cons.
      * right. by apply elem_of_cons; left.
      * destruct (IH He) as [-> | Hin]; [by left|].
        right. by apply elem_of_cons; right.
Qed.

Lemma odict_set_keys_in k v d : k ∈ d.*1 -> (odict_set k v d).*1 = d.*1.
Proof.
  induction d as [|[k' v'] d IH]; intros Hin.
  - by apply not_elem_of_nil in Hin.
  - simpl. destruct (decide (k = k')) as [<- | Hne]; [done|].
    simpl. f_equal. apply IH.
    change (k ∈ k' :: d.*1) in Hin. by apply elem_of_cons in Hin as [? | ?].
Qed.

Lemma odict_set_keys_notin k v d :
  k ∉ d.*1 -> (odict_set k v d).*1 = (d.*1 ++ [k])%list.
Proof.
  induction d as [|[k' v'] d IH]; intros Hnin; [done|].
  change (k ∉ k' :: d.*1) in Hnin. apply not_elem_of_cons in Hnin as [Hne Hnin].
  simpl. rewrite decide_False by done. simpl. f_equal. by apply IH.
Qed.

Lemma odict_set_NoDup k v d : NoDup d.*1 -> NoDup (odict_set k v d).*1.
Proof.
  intros Hd. destruct (decide (k ∈ d.*1)) as [Hin | Hnin].
  - by rewrite odict_set_keys_in.
  - rewrite odict_set_keys_notin by done.
    apply NoDup_app. split; [done|]. split.
    + by intros x Hx ->%list_elem_of_singleton.
    + apply NoDup_singleton.
Qed.

(** In a dictionary, the entry found under a key is the only one. *)
Lemma odict_get_unique k v d :
  NoDup d.*1 -> odict_get k d = Some v ->
  filter (fun e => e.1 = k) d = [(k, v)].
Proof.
  induction d as [|[k' v'] d IH]; simpl; [done|].
  intros [Hnin Hd]%NoDup_cons Hget.
  destruct (decide (k = k')) as [<- | Hne].
  - injection Hget as ->. rewrite filter_cons_True by done. f_equal.
    destruct (filter (fun e => e.1 = k) d) as [|[k1 v1] l] eqn:Hf; [done|].
    assert ((k1, v1) ∈ filter (fun e : string * V => e.1 = k) d) as Hin.
    { rewrite Hf. by apply elem_of_cons; left. }
    apply list_elem_of_filter in Hin as [Hk Hin]. simpl in Hk. subst k1.
    destruct Hnin. apply list_elem_of_fmap. by exists (k, v1).
  - rewrite filter_cons_False by (simpl; congruence). by apply IH.
Qed.
End odict_facts.

Lemma sign_fold_signed (keys : list Key) (r : Metadata) :
  signed (fold_left Metadata_sign keys r) = signed r.
Proof.
  revert r. induction keys as [|k ks IH]; intros r; [done|].
  simpl. apply (IH (Metadata_sign r k)).
Qed.

Lemma sign_fold_NoDup (keys : list Key) (r : Metadata) :
  NoDup (signatures r).*1 -> NoDup (signatures (fold_left Metadata_sign keys r)).*1.
Proof.
  revert r. induction keys as [|k ks IH]; intros r Hr; [done|].
  apply IH. by apply odict_set_NoDup.
Qed.

Lemma sign_fold_entries (keys : list Key) (r : Metadata) (e : string * Signature) :
  e ∈ signatures (fold_left Metadata_sign keys r) ->
  e ∈ signatures r
  \/ exists key, key ∈ keys
       /\ e = (keyid key, {| sig_keyid := keyid key; sig_key := key; sig_over := signed r |}).
Proof.
  revert r. induction keys as [|k ks IH]; intros r He; [by left|].
  destruct (IH _ He) as [Hin | (key & Hkey & ->)].
  - apply elem_of_odict_set in Hin as [-> | Hin]; [|by left].
    right. exists k. split; [by apply elem_of_cons; left | done].
  - right. exists key. split; [by apply elem_of_cons; right | done].
Qed.

Lemma sign_fold_get (keys : list Key) (r : Metadata) (kid : string) :
  (exists key, key ∈ keys /\ keyid key = kid
     /\ odict_get kid (signatures (fold_left Metadata_sign keys r))
        = Some {| sig_keyid := kid; sig_key := key; sig_over := signed r |})
  \/ ((forall key, key ∈ keys -> keyid key <> kid)
      /\ odict_get kid (signatures (fold_left Metadata_sign keys r))
         = odict_get kid (signatures r)).
Proof.
  revert r. induction keys as [|k ks IH]; intros r.
  - right. split; [|done]. intros key Hin. by apply not_elem_of_nil in Hin.
  - destruct (IH (Metadata_sign r k)) as [(key & Hin & Hid & Hget) | [Hnone Hget]].
    + left. exists key. split; [by apply elem_of_cons; right|]. by split.
    + simpl in Hget. destruct (decide (keyid k = kid)) as [Hk | Hk].
      * left. exists k. split; [by apply elem_of_cons; left|]. split; [done|].
        simpl. rewrite Hget, Hk. by rewrite odict_get_set_eq.
      * right. split.
        -- intros key [-> | Hin]%elem_of_cons; [done | by apply Hnone].
        -- simpl. rewrite Hget. by apply odict_get_set_ne.
Qed.

Lemma odict_set_fresh_key {V : Type} (k : string) (v : V) (d : list (string * V)) :
  k ∉ d.*1 -> odict_set k v d = (d ++ [(k, v)])%list.
Proof.
  induction d as [|[k' v'] d IH]; intros Hnin; [done|].
  change (k ∉ k' :: d.*1) in Hnin. apply not_elem_of_cons in Hnin as [Hne Hnin].
  simpl. rewrite decide_False by done. f_equal. by apply IH.
Qed.

(** Keys with distinct ids sign in their order. *)
Lemma sign_fold_distinct (keys : list Key) (r : Metadata) :
  NoDup (keyid <$> keys) ->
  (forall key, key ∈ keys -> keyid key ∉ (signatures r).*1) ->
  signatures (fold_left Metadata_sign keys r)
  = (signatures r
     ++ ((fun key => (keyid key,
                      {| sig_keyid := keyid key; sig_key := key; sig_over := signed r |}))
         <$> keys))%list.
Proof.
  revert r. induction keys as [|k ks IH]; intros r Hnd Hnew.
  - simpl. by rewrite app_nil_r.
  - change (keyid <$> k :: ks) with (keyid k :: (keyid <$> ks)) in Hnd.
    apply NoDup_cons in Hnd as [Hk Hnd]. simpl.
    rewrite (IH (Metadata_sign r k) Hnd).
    + simpl. rewrite odict_set_fresh_key by (apply Hnew, elem_of_cons; by left).
      by rewrite <- app_assoc.
    + intros key Hkey. simpl.
      rewrite odict_set_fresh_key by (apply Hnew, elem_of_cons; by left).
      rewrite fmap_app. intros [Hin | Hin]%elem_of_app.
      * apply (Hnew key); [by apply elem_of_cons; right | done].
      * apply list_elem_of_singleton in Hin. simpl in Hin.
        apply Hk. rewrite <- Hin. apply list_elem_of_fmap. by exists key.
Qed.

(** C8: [_sign] discards the document's previous signatures, whatever they
    were, and leaves exactly one signature per key returned for the role
    name, each made over the document's current signed part; with no key
    the document comes out unsigned, and the [_persist] that follows in
    every caller still writes it. *)
Theorem sign_replaces_signatures (role : Metadata) (role_name : string) (w : World) :
  let keys := _key_storage_backend w role_name in
  exists role',
    _sign role role_name w = (Ok role', w)
    /\ signed role' = signed role
    /\ (forall old,
          _sign {| signed := signed role; signatures := old |} role_name w
          = (Ok role', w))
    /\ (forall kid sg, (kid, sg) ∈ signatures role' ->
          sig_key sg ∈ keys /\ keyid (sig_key sg) = kid
          /\ sig_keyid sg = kid /\ sig_over sg = signed role)
    /\ (forall key, key ∈ keys ->
          exists sg, filter (fun e => e.1 = keyid key) (signatures role')
                     = [(keyid key, sg)])
    /\ (NoDup (keyid <$> keys) ->
        signatures role'
        = (fun key => (keyid key,
                       {| sig_keyid := keyid key; sig_key := key;
                          sig_over := signed role |})) <$> keys)
    /\ (keys = [] -> signatures role' = [])
    /\ (forall name,
          (signed_role <- _sign role role_name ;; _persist signed_role name) w
          = (Ok tt, set_storage w
                      (<[persist_filename role' name := role']> (_storage_backend w)))).
Proof.
  intros keys. exists (sign_with keys role).
  split; [apply sign_run|].
  split; [unfold sign_with; by rewrite sign_fold_signed|].
  split; [intros old; exact (sign_run _ _ _)|].
  split.
  { intros kid sg Hin. unfold sign_with in Hin.
    apply sign_fold_entries in Hin as [Hin | (key & Hkey & Heq)].
    - by apply not_elem_of_nil in Hin.
    - injection Heq as -> ->. by simpl. }
  split.
  { intros key Hkey.
    destruct (sign_fold_get keys (signatures_clear role) (keyid key))
      as [(key' & _ & _ & Hget) | [Hnone _]].
    - eexists. apply odict_get_unique; [|exact Hget].
      apply sign_fold_NoDup. simpl. apply NoDup_nil_2.
    - by destruct (Hnone key Hkey). }
  split.
  { intros Hnd. unfold sign_with. rewrite sign_fold_distinct; [done | done |].
    intros key _. apply not_elem_of_nil. }
  split.
  { intros Hk. unfold sign_with. by rewrite Hk. }
  intros name. erewrite bind_ok by apply sign_run. reflexivity.
Qed.

Lemma sign_replaces_signatures_witness :
  exists role',
    _sign Demo.bin_two "root" Demo.world = (Ok role', Demo.world)
    /\ signatures role' = [].
Proof.
  destruct (sign_replaces_signatures Demo.bin_two "root" Demo.world)
    as (role' & Hrun & _ & _ & _ & _ & _ & Hnone & _).
  exists role'. split; [exact Hrun|]. apply Hnone. reflexivity.
Defined.

(** ** The cycles, run *)

Lemma snapshot_filename (role : Metadata) :
  persist_filename role Snapshot_type = versioned_name (version (signed role)) Snapshot_type.
Proof. by apply persist_filename_versioned. Qed.

Lemma sign_with_signed (keys : list Key) (role : Metadata) :
  signed (sign_with keys role) = signed role.
Proof. unfold sign_with. by rewrite sign_fold_signed. Qed.

Lemma persist_filename_sign_with (keys : list Key) (role : Metadata) (role_name : string) :
  persist_filename (sign_with keys role) role_name = persist_filename role role_name.
Proof. unfold persist_filename. by rewrite sign_with_signed. Qed.

Lemma update_timestamp_run (snapshot_version : Z) (w : World) (timestamp : Metadata) (days : Z) :
  storage_get (_storage_backend w) Timestamp_type = Some timestamp ->
  _settings w "timestamp_EXPIRATION" = Some days ->
  _update_timestamp snapshot_version w
  = (Ok (bumped_timestamp w timestamp snapshot_version days),
     set_storage (tick w)
       (<["timestamp.json" := bumped_timestamp w timestamp snapshot_version days]>
          (_storage_backend w))).
Proof.
  intros Hload Hdays. unfold _update_timestamp.
  erewrite bind_ok by (by apply load_ok).
  erewrite bind_ok by reflexivity.
  erewrite bind_ok by (by apply bump_expiry_run).
  erewrite bind_ok by apply sign_run.
  reflexivity.
Qed.

Lemma record_targets_meta_run (targets_meta : list (string * Z)) (snapshot : Metadata)
    (meta : gmap string MetaFile) (w : World) :
  payload (signed snapshot) = SnapshotP meta ->
  for_each (fun '(name, version) snapshot =>
              meta_setitem snapshot (name +:+ ".json") (MetaFile_of_version version))
           targets_meta snapshot w
  = (Ok (set_payload snapshot (SnapshotP (record_targets_meta targets_meta meta))), w).
Proof.
  revert snapshot meta. induction targets_meta as [|[name v] tm IH]; intros snapshot meta Hp.
  - simpl. unfold ret. destruct snapshot as [[? ? ?] ?]. simpl in Hp. by subst.
  - simpl. unfold bind, meta_setitem, get_meta, bind. rewrite Hp. simpl.
    rewrite (IH _ (<[name +:+ ".json" := MetaFile_of_version v]> meta)) by done.
    reflexivity.
Qed.

Lemma update_snapshot_run (targets_meta : list (string * Z)) (w : World)
    (snapshot : Metadata) (meta : gmap string MetaFile) (days : Z) :
  storage_get (_storage_backend w) Snapshot_type = Some snapshot ->
  payload (signed snapshot) = SnapshotP meta ->
  _settings w "snapshot_EXPIRATION" = Some days ->
  _update_snapshot targets_meta w
  = (Ok (version (signed snapshot) + 1),
     set_storage (tick w)
       (<[versioned_name (version (signed snapshot) + 1) Snapshot_type
          := bumped_snapshot w snapshot meta targets_meta days]>
          (_storage_backend w))).
Proof.
  intros Hload Hp Hdays. unfold _update_snapshot.
  erewrite bind_ok by (by apply load_ok).
  erewrite bind_ok by (by apply record_targets_meta_run).
  erewrite bind_ok by (by apply bump_expiry_run).
  erewrite bind_ok by reflexivity.
  erewrite bind_ok by apply sign_run.
  unfold _persist. rewrite snapshot_filename, sign_with_signed.
  reflexivity.
Qed.

Lemma update_snapshot_nil_run (w : World) (snapshot : Metadata) (days : Z) :
  storage_get (_storage_backend w) Snapshot_type = Some snapshot ->
  _settings w "snapshot_EXPIRATION" = Some days ->
  _update_snapshot [] w
  = (Ok (version (signed snapshot) + 1),
     set_storage (tick w)
       (<[versioned_name (version (signed snapshot) + 1) Snapshot_type
          := sign_with (_key_storage_backend w Snapshot_type)
               (bump_pair snapshot (clock w (ticks w)) days)]>
          (_storage_backend w))).
Proof.
  intros Hload Hdays. unfold _update_snapshot.
  erewrite bind_ok by (by apply load_ok).
  erewrite bind_ok by reflexivity.
  erewrite bind_ok by (by apply bump_expiry_run).
  erewrite bind_ok by reflexivity.
  erewrite bind_ok by apply sign_run.
  unfold _persist. rewrite snapshot_filename, sign_with_signed.
  reflexivity.
Qed.

Lemma bump_bins_roles_bin_due (bins_name : string) (targets_meta : list (string * Z))
    (w : World) (bins_role : Metadata) (days : Z) :
  storage_get (_storage_backend w) bins_name = Some bins_role ->
  expires (signed bins_role) - clock w (ticks w) < timedelta_hours (_hours_before_expire w) ->
  _settings w "bins_EXPIRATION" = Some days ->
  let bumped := bumped_bin w bins_role (clock w (S (ticks w))) days in
  bump_bins_roles_bin bins_name targets_meta w
  = (Ok (targets_meta ++ [(bins_name, version (signed bins_role) + 1)])%list,
     set_storage (tick (tick w))
       (<[persist_filename bumped bins_name := bumped]> (_storage_backend w))).
Proof.
  intros Hload Hdue Hdays bumped. unfold bump_bins_roles_bin.
  erewrite bind_ok by (by apply load_ok).
  erewrite bind_ok by reflexivity.
  erewrite bind_ok by reflexivity.
  change (_hours_before_expire (tick w)) with (_hours_before_expire w).
  apply Z.ltb_lt in Hdue. rewrite Hdue.
  erewrite bind_ok by (by apply bump_expiry_run).
  erewrite bind_ok by reflexivity.
  erewrite bind_ok by apply sign_run.
  unfold _persist, bind, Metadata_to_file, ret. simpl.
  rewrite sign_with_signed. reflexivity.
Qed.

Lemma bump_bins_roles_bin_fresh (bins_name : string) (targets_meta : list (string * Z))
    (w : World) (bins_role : Metadata) :
  storage_get (_storage_backend w) bins_name = Some bins_role ->
  timedelta_hours (_hours_before_expire w) <= expires (signed bins_role) - clock w (ticks w) ->
  bump_bins_roles_bin bins_name targets_meta w = (Ok targets_meta, tick w).
Proof.
  intros Hload Hfresh. unfold bump_bins_roles_bin.
  erewrite bind_ok by (by apply load_ok).
  erewrite bind_ok by reflexivity.
  erewrite bind_ok by reflexivity.
  change (_hours_before_expire (tick w)) with (_hours_before_expire w).
  apply Z.ltb_ge in Hfresh. rewrite Hfresh. reflexivity.
Qed.

Lemma upsert_targets_run (target_files : list TargetFile) (bins_role : Metadata)
    (targets : gmap string TargetFile) (delegations : option Delegations) (w : World) :
  payload (signed bins_role) = TargetsP targets delegations ->
  for_each (fun target_file bins_role => targets_setitem bins_role target_file)
           target_files bins_role w
  = (Ok (set_payload bins_role (TargetsP (upsert_targets target_files targets) delegations)), w).
Proof.
  revert bins_role targets. induction target_files as [|tf tfs IH]; intros bins_role targets Hp.
  - simpl. unfold ret. destruct bins_role as [[? ? ?] ?]. simpl in Hp. by subst.
  - simpl. unfold bind, targets_setitem. rewrite Hp. simpl.
    rewrite (IH _ (<[tf_path tf := tf]> targets)) by done.
    reflexivity.
Qed.

Lemma add_targets_bin_run (bins_name : string) (target_files : list TargetFile)
    (targets_meta : list (string * Z)) (w : World) (bins_role : Metadata)
    (targets : gmap string TargetFile) (delegations : option Delegations) (days : Z) :
  storage_get (_storage_backend w) bins_name = Some bins_role ->
  payload (signed bins_role) = TargetsP targets delegations ->
  _settings w "bins_EXPIRATION" = Some days ->
  let bumped :=
    bumped_bin w
      (set_payload bins_role (TargetsP (upsert_targets target_files targets) delegations))
      (clock w (ticks w)) days in
  add_targets_bin (bins_name, target_files) targets_meta w
  = (Ok (targets_meta ++ [(bins_name, version (signed bins_role) + 1)])%list,
     set_storage (tick w)
       (<[persist_filename bumped bins_name := bumped]> (_storage_backend w))).
Proof.
  intros Hload Hp Hdays bumped. unfold add_targets_bin.
  erewrite bind_ok by (by apply load_ok).
  erewrite bind_ok by (by apply upsert_targets_run).
  erewrite bind_ok by (by apply bump_expiry_run).
  erewrite bind_ok by reflexivity.
  erewrite bind_ok by apply sign_run.
  unfold _persist, bind, Metadata_to_file, ret. simpl.
  rewrite sign_with_signed. reflexivity.
Qed.

(** C5: when loading the [bin] document fails with a storage error,
    [bump_bins_roles] returns [False] without raising and leaves the world
    as it found it: no document is modified or written. *)
Theorem bump_bins_roles_bin_not_found (w : World) :
  fst (_load BIN w) = Raise StorageError ->
  bump_bins_roles w = (Ok false, w).
Proof.
  intros H. unfold bump_bins_roles, bind, try_except_StorageError, bind.
  unfold _load, Metadata_from_file in *.
  destruct (storage_get (_storage_backend w) BIN); [done | reflexivity].
Qed.

Lemma bump_bins_roles_bin_not_found_witness :
  bump_bins_roles Demo.empty_world = (Ok false, Demo.empty_world).
Proof. apply bump_bins_roles_bin_not_found. reflexivity. Defined.

Lemma bumped_from_sign_bump (keys : list Key) (old role : Metadata) (now days : Z) :
  version (signed role) = version (signed old) ->
  bumped_from old (sign_with keys (bump_pair role now days)) now days.
Proof. intros Hv. unfold bumped_from. rewrite sign_with_signed. simpl. by rewrite Hv. Qed.

Lemma set_snapshot_meta_version (role : Metadata) (m : MetaFile) :
  version (signed (set_snapshot_meta role m)) = version (signed role).
Proof. unfold set_snapshot_meta. by destruct (payload (signed role)). Qed.

Lemma renewed_expiry (now days : Z) :
  replace_microsecond_0 now + timedelta_days days
  = now - now mod 1000000 + days * 86400000000.
Proof.
  unfold replace_microsecond_0, timedelta_days, microseconds_per_second. lia.
Qed.

Lemma bumped_from_explicit (old new : Metadata) (now days : Z) :
  bumped_from old new now days ->
  version (signed new) = version (signed old) + 1
  /\ expires (signed new) = now - now mod 1000000 + days * 86400000000.
Proof. intros [Hv He]. by rewrite <- renewed_expiry. Qed.

(** C3: in every cycle the loaded document gets one pair of bumps: the new
    version is the old one plus 1, on unbounded integers, and the new expiry
    is the clock reading cut to the second (its microseconds dropped) plus
    the interval configured for the role class, 86400 seconds a day.  Both
    bin cycles read the one [bins] interval whatever the bin's name;
    Snapshot and Timestamp read their own.  Stated where the new expiry is
    a [datetime]; out of that range the code raises and bumps nothing. *)
Theorem bump_pair_per_role_class (w : World) (role : Metadata) (days : Z) :
  let now := clock w (ticks w) in
  let later := clock w (S (ticks w)) in
  expiry_in_range now days ->
  expiry_in_range later days ->
  (exists bumped,
     _bump_version role w = (Ok bumped, w)
     /\ version (signed bumped) = version (signed role) + 1
     /\ expires (signed bumped) = expires (signed role)
     /\ payload (signed bumped) = payload (signed role))
  /\ (forall expiry_id,
        _settings w (expiry_id +:+ "_EXPIRATION") = Some days ->
        exists bumped,
          _bump_expiry role expiry_id w = (Ok bumped, tick w)
          /\ expires (signed bumped) = now - now mod 1000000 + days * 86400000000
          /\ version (signed bumped) = version (signed role)
          /\ payload (signed bumped) = payload (signed role))
  /\ (forall bins_name targets_meta,
        storage_get (_storage_backend w) bins_name = Some role ->
        expires (signed role) - now < timedelta_hours (_hours_before_expire w) ->
        _settings w "bins_EXPIRATION" = Some days ->
        exists bumped w',
          bump_bins_roles_bin bins_name targets_meta w
          = (Ok (targets_meta ++ [(bins_name, version (signed role) + 1)])%list, w')
          /\ _storage_backend w' !! persist_filename bumped bins_name = Some bumped
          /\ version (signed bumped) = version (signed role) + 1
          /\ expires (signed bumped) = later - later mod 1000000 + days * 86400000000)
  /\ (forall bins_name target_files targets_meta targets delegations,
        storage_get (_storage_backend w) bins_name = Some role ->
        payload (signed role) = TargetsP targets delegations ->
        _settings w "bins_EXPIRATION" = Some days ->
        exists bumped w',
          add_targets_bin (bins_name, target_files) targets_meta w
          = (Ok (targets_meta ++ [(bins_name, version (signed role) + 1)])%list, w')
          /\ _storage_backend w' !! persist_filename bumped bins_name = Some bumped
          /\ version (signed bumped) = version (signed role) + 1
          /\ expires (signed bumped) = now - now mod 1000000 + days * 86400000000)
  /\ (forall targets_meta meta,
        storage_get (_storage_backend w) Snapshot_type = Some role ->
        payload (signed role) = SnapshotP meta ->
        _settings w "snapshot_EXPIRATION" = Some days ->
        exists bumped w',
          _update_snapshot targets_meta w = (Ok (version (signed role) + 1), w')
          /\ _storage_backend w' !! persist_filename bumped Snapshot_type = Some bumped
          /\ version (signed bumped) = version (signed role) + 1
          /\ expires (signed bumped) = now - now mod 1000000 + days * 86400000000)
  /\ (forall snapshot_version,
        storage_get (_storage_backend w) Timestamp_type = Some role ->
        _settings w "timestamp_EXPIRATION" = Some days ->
        exists bumped w',
          _update_timestamp snapshot_version w = (Ok bumped, w')
          /\ _storage_backend w' !! persist_filename bumped Timestamp_type = Some bumped
          /\ version (signed bumped) = version (signed role) + 1
          /\ expires (signed bumped) = now - now mod 1000000 + days * 86400000000).
Proof.
  intros now later _ _.
  split; [by eexists|].
  split.
  { intros expiry_id Hdays. eexists. split; [by apply bump_expiry_run|].
    split; [apply renewed_expiry | done]. }
  split.
  { intros bins_name tm Hload Hdue Hdays. do 2 eexists.
    split; [by apply bump_bins_roles_bin_due|].
    split; [apply lookup_insert_eq|].
    by apply bumped_from_explicit, bumped_from_sign_bump. }
  split.
  { intros bins_name tfs tm targets delegations Hload Hp Hdays. do 2 eexists.
    split; [by eapply add_targets_bin_run|].
    split; [apply lookup_insert_eq|].
    by apply bumped_from_explicit, bumped_from_sign_bump. }
  split.
  { intros tm meta Hload Hp Hdays.
    exists (bumped_snapshot w role meta tm days). eexists.
    split; [by eapply update_snapshot_run|].
    split; [|by apply bumped_from_explicit, bumped_from_sign_bump].
    unfold bumped_snapshot. rewrite snapshot_filename, sign_with_signed.
    apply lookup_insert_eq. }
  intros sv Hload Hdays. do 2 eexists.
  split; [by eapply update_timestamp_run|].
  split; [apply lookup_insert_eq|].
  apply bumped_from_explicit, bumped_from_sign_bump, set_snapshot_meta_version.
Qed.

Lemma bump_pair_per_role_class_witness :
  (exists bumped w',
     bump_bins_roles_bin "bin-0" [] Scenario.world_past_second = (Ok [("bin-0", 4)], w')
     /\ _storage_backend w' !! "4.bin-0.json" = Some bumped
     /\ version (signed bumped) = 4
     /\ expires (signed bumped) = 86401000000)
  /\ (exists bumped w',
        _update_snapshot [] Scenario.world_past_second = (Ok 6, w')
        /\ _storage_backend w' !! "6.snapshot.json" = Some bumped
        /\ version (signed bumped) = 6
        /\ expires (signed bumped) = 86401000000).
Proof.
  assert (expiry_in_range 1234567 1) as Hrange.
  { unfold expiry_in_range, timedelta_max_days, datetime_min, datetime_max.
    split; split; vm_compute; discriminate. }
  split.
  - destruct (bump_pair_per_role_class Scenario.world_past_second Demo.bins_doc 1
                Hrange Hrange) as (_ & _ & Hbins & _).
    destruct (Hbins "bin-0" []) as (bumped & w' & Hrun & Hfile & Hv & He).
    + vm_compute. reflexivity.
    + vm_compute. reflexivity.
    + reflexivity.
    + exists bumped, w'. split; [exact Hrun|].
      rewrite persist_filename_spec, Hv in Hfile.
      split; [exact Hfile|]. split; [exact Hv | exact He].
  - destruct (bump_pair_per_role_class Scenario.world_past_second Demo.snapshot_doc 1
                Hrange Hrange) as (_ & _ & _ & _ & Hsnapshot & _).
    destruct (Hsnapshot [] (list_to_map [("bin-0.json", MetaFile_of_version 3);
                                         ("bin-1.json", MetaFile_of_version 3)]))
      as (bumped & w' & Hrun & Hfile & Hv & He).
    + vm_compute. reflexivity.
    + reflexivity.
    + reflexivity.
    + exists bumped, w'. split; [exact Hrun|].
      rewrite persist_filename_spec, Hv in Hfile.
      split; [exact Hfile|]. split; [exact Hv | exact He].
Defined.

(** ** Propagation to Snapshot and Timestamp *)

Lemma storage_get_timestamp (store : gmap string Metadata) :
  storage_get store Timestamp_type = store !! "timestamp.json".
Proof. reflexivity. Qed.

Lemma record_targets_meta_inv (targets_meta : list (string * Z)) (snapshot : Metadata)
    (w w' : World) (r : outcome Metadata) :
  for_each (fun '(name, version) snapshot =>
              meta_setitem snapshot (name +:+ ".json") (MetaFile_of_version version))
           targets_meta snapshot w = (r, w') ->
  w' = w
  /\ forall snapshot', r = Ok snapshot' ->
       version (signed snapshot') = version (signed snapshot)
       /\ expires (signed snapshot') = expires (signed snapshot).
Proof.
  revert snapshot. induction targets_meta as [|[name v] tm IH]; intros snapshot H.
  - injection H as <- <-. split; [done|]. by intros ? [= <-].
  - simpl in H. unfold bind, meta_setitem, get_meta, bind in H.
    destruct (payload (signed snapshot)) as [| |meta|]; simpl in H.
    1-2,4: (injection H as <- <-; split; [done | intros ? ?; discriminate]).
    apply IH in H as [-> H]. split; [done|]. intros s' Hs'. by apply H.
Qed.

Lemma load_inv (role_name : string) (w w' : World) (md : Metadata) :
  _load role_name w = (Ok md, w') ->
  storage_get (_storage_backend w) role_name = Some md /\ w' = w.
Proof.
  unfold _load, Metadata_from_file.
  destruct (storage_get (_storage_backend w) role_name); [|done].
  by intros [= <- <-].
Qed.

Lemma bump_expiry_inv (role role' : Metadata) (expiry_id : string) (w w' : World) :
  _bump_expiry role expiry_id w = (Ok role', w') ->
  exists days,
    _settings w (expiry_id +:+ "_EXPIRATION") = Some days
    /\ role' = set_expires role
                (replace_microsecond_0 (clock w (ticks w)) + timedelta_days days)
    /\ w' = tick w.
Proof.
  unfold _bump_expiry, bind, datetime_now, settings_get_fresh_int. simpl.
  destruct (_settings w _) as [days|]; [|done].
  intros [= <- <-]. by exists days.
Qed.

Lemma update_snapshot_inv (targets_meta : list (string * Z)) (w w' : World) (v : Z) :
  _update_snapshot targets_meta w = (Ok v, w') ->
  exists old snapshot,
    storage_get (_storage_backend w) Snapshot_type = Some old
    /\ v = version (signed old) + 1
    /\ version (signed snapshot) = v
    /\ w' = set_storage (tick w)
              (<[versioned_name v Snapshot_type := snapshot]> (_storage_backend w)).
Proof.
  unfold _update_snapshot. intros H.
  apply bind_inv in H as (old & w1 & [Hold ->]%load_inv & H).
  apply bind_inv in H as (s1 & w1 & Hloop & H).
  apply record_targets_meta_inv in Hloop as [-> Hs1].
  destruct (Hs1 s1 eq_refl) as [Hv1 _].
  apply bind_inv in H as (s2 & w2 & (days & _ & -> & ->)%bump_expiry_inv & H).
  apply bind_inv in H as (s3 & w3 & [= <- <-] & H).
  rewrite (bind_ok _ _ _ _ _ (sign_run _ _ _)) in H.
  unfold _persist in H. rewrite persist_filename_sign_with, snapshot_filename in H.
  injection H as <- <-. eexists old, _. split; [done|].
  split; [rewrite sign_with_signed; cbn; lia|].
  split; [reflexivity|]. rewrite sign_with_signed. reflexivity.
Qed.

Lemma update_timestamp_inv (snapshot_version : Z) (w w' : World) (timestamp' : Metadata) :
  _update_timestamp snapshot_version w = (Ok timestamp', w') ->
  exists timestamp days,
    _storage_backend w !! "timestamp.json" = Some timestamp
    /\ timestamp' = bumped_timestamp w timestamp snapshot_version days
    /\ w' = set_storage (tick w) (<["timestamp.json" := timestamp']> (_storage_backend w)).
Proof.
  unfold _update_timestamp. intros H.
  apply bind_inv in H as (ts & w1 & [Hts ->]%load_inv & H).
  apply bind_inv in H as (s1 & w1 & [= <- <-] & H).
  apply bind_inv in H as (s2 & w2 & (days & _ & -> & ->)%bump_expiry_inv & H).
  rewrite (bind_ok _ _ _ _ _ (sign_run _ _ _)) in H.
  injection H as <- <-. by exists ts, days.
Qed.

Lemma bumped_timestamp_payload (w : World) (timestamp : Metadata) (v days : Z) :
  payload (signed (bumped_timestamp w timestamp v days))
  = match payload (signed timestamp) with
    | TimestampP _ => TimestampP {| mf_version := v; mf_length := None; mf_hashes := None |}
    | other => other
    end.
Proof.
  unfold bumped_timestamp. rewrite sign_with_signed.
  unfold set_snapshot_meta.
  destruct (payload (signed timestamp)) eqn:Hp; simpl; by rewrite ?Hp.
Qed.

(** The nested call [_update_timestamp(_update_snapshot(targets_meta))]. *)
Lemma update_timestamp_of_update_snapshot (targets_meta : list (string * Z))
    (w w' : World) (timestamp : Metadata) :
  (snapshot_version <- _update_snapshot targets_meta ;;
   _update_timestamp snapshot_version) w = (Ok timestamp, w') ->
  propagated (_storage_backend w) (_storage_backend w').
Proof.
  unfold bind at 1. intros H.
  destruct (_update_snapshot targets_meta w) as [[v|e] w1] eqn:Hs; [|done].
  apply update_snapshot_inv in Hs as (old & snapshot & Hold & Hv & Hsv & ->).
  apply update_timestamp_inv in H as (ts & days & Hts & Hts' & ->).
  simpl in Hts. rewrite lookup_insert_ne in Hts by apply versioned_name_not_timestamp.
  exists old, snapshot, ts, timestamp. split; [done|]. split; [lia|].
  split; [done|]. split; [by rewrite Hsv|].
  rewrite Hts', Hsv, bumped_timestamp_payload.
  destruct (payload (signed ts)); try done. by eexists.
Qed.

Lemma for_each_world {A B} (body : A -> B -> M B) (xs : list A) (acc : B)
    (w w' : World) (r : outcome B) :
  (forall x acc r w', body x acc w = (r, w') -> w' = w) ->
  for_each body xs acc w = (r, w') -> w' = w.
Proof.
  intros Hbody. revert acc. induction xs as [|x xs IH]; intros acc H.
  - by injection H as <- <-.
  - simpl in H. unfold bind in H.
    destruct (body x acc w) as [[acc'|e] w1] eqn:Hx.
    + apply Hbody in Hx as ->. by apply IH in H.
    + apply Hbody in Hx as ->. by injection H as <- <-.
Qed.

Lemma publish_bin_world (snapshot : Metadata) (bins_name : string)
    (acc : list (string * Z)) (w w' : World) (r : outcome (list (string * Z))) :
  publish_targets_metas_bin snapshot bins_name acc w = (r, w') -> w' = w.
Proof.
  unfold publish_targets_metas_bin, bind at 1, _load, Metadata_from_file.
  destruct (storage_get (_storage_backend w) bins_name) as [bins_role|];
    [|by intros [= <- <-]].
  unfold bind, meta_getitem, get_meta, bind.
  destruct (payload (signed snapshot)) as [| |meta|]; simpl;
    try by intros [= <- <-].
  destruct (meta !! (bins_name +:+ ".json")) as [m|]; simpl;
    by intros [= <- <-].
Qed.

Lemma publish_loop_world (snapshot : Metadata) (bins_names : list string)
    (acc : list (string * Z)) (w w' : World) (r : outcome (list (string * Z))) :
  for_each (publish_targets_metas_bin snapshot) bins_names acc w = (r, w') -> w' = w.
Proof. apply for_each_world. intros ? ? ? ?. apply publish_bin_world. Qed.

(** The tail shared by the three entry points. *)
Lemma propagate_inv (targets_meta : list (string * Z)) (w w' : World) :
  (snapshot_version <- _update_snapshot targets_meta ;;
   _update_timestamp snapshot_version ;;; ret tt) w = (Ok tt, w') ->
  exists timestamp,
    (snapshot_version <- _update_snapshot targets_meta ;;
     _update_timestamp snapshot_version) w = (Ok timestamp, w').
Proof.
  intros H.
  apply bind_inv in H as (v & w2 & Hs & H).
  apply bind_inv in H as (timestamp & w3 & Ht & [= <-]).
  exists timestamp. by rewrite (bind_ok _ _ _ _ _ Hs).
Qed.

Lemma propagate_tail_inv {A} (targets_meta : list (string * Z)) (a : A) (w w' : World) :
  ((snapshot_version <- _update_snapshot targets_meta ;;
    _update_timestamp snapshot_version ;;; ret tt) ;;; ret a) w = (Ok a, w') ->
  exists timestamp,
    (snapshot_version <- _update_snapshot targets_meta ;;
     _update_timestamp snapshot_version) w = (Ok timestamp, w').
Proof.
  intros H. apply bind_inv in H as ([] & w1 & H & [= <-]).
  by apply propagate_inv.
Qed.

(** C2: after a propagation that succeeded, started by
    [publish_targets_metas] with a non-empty changed-set, by
    [bump_bins_roles] that bumped a bin, or by [bump_snapshot] within the
    freshness window, the store holds the Snapshot just written, one
    version above the loaded one, and the Timestamp just written, whose
    [snapshot_meta.version] is that Snapshot's version. *)
Theorem timestamp_records_snapshot_version (w w' : World) :
  (forall bins_names snapshot targets_meta w0,
      storage_get (_storage_backend w) Snapshot_type = Some snapshot ->
      for_each (publish_targets_metas_bin snapshot) bins_names [] w
      = (Ok targets_meta, w0) ->
      targets_meta <> [] ->
      publish_targets_metas bins_names w = (Ok tt, w') ->
      propagated (_storage_backend w) (_storage_backend w'))
  /\ (forall bin targets roles targets_meta w0,
        storage_get (_storage_backend w) BIN = Some bin ->
        payload (signed bin)
        = TargetsP targets (Some {| succinct_roles := Some roles |}) ->
        for_each bump_bins_roles_bin (get_roles roles) [] w = (Ok targets_meta, w0) ->
        targets_meta <> [] ->
        bump_bins_roles w = (Ok true, w') ->
        propagated (_storage_backend w0) (_storage_backend w'))
  /\ (forall snapshot,
        storage_get (_storage_backend w) Snapshot_type = Some snapshot ->
        expires (signed snapshot) - clock w (ticks w)
          < timedelta_hours (_hours_before_expire w) ->
        bump_snapshot w = (Ok true, w') ->
        propagated (_storage_backend w) (_storage_backend w')).
Proof.
  split; [|split].
  - intros names snapshot tm w0 Hload Hloop Hne Hrun.
    pose proof (publish_loop_world _ _ _ _ _ _ Hloop) as ->.
    unfold publish_targets_metas in Hrun.
    rewrite (bind_ok _ _ _ _ _ (load_ok _ _ _ Hload)) in Hrun.
    rewrite (bind_ok _ _ _ _ _ Hloop) in Hrun.
    destruct tm as [|x tm]; [done|]. simpl in Hrun.
    apply propagate_inv in Hrun as [timestamp Hrun].
    by eapply update_timestamp_of_update_snapshot.
  - intros bin targets roles tm w0 Hload Hp Hloop Hne Hrun.
    unfold bump_bins_roles in Hrun.
    erewrite bind_ok in Hrun; cycle 1.
    { unfold try_except_StorageError.
      by rewrite (bind_ok _ _ _ _ _ (load_ok _ _ _ Hload)). }
    unfold get_succinct_roles in Hrun. rewrite Hp in Hrun.
    erewrite bind_ok in Hrun by reflexivity.
    erewrite bind_ok in Hrun by reflexivity.
    rewrite (bind_ok _ _ _ _ _ Hloop) in Hrun.
    destruct tm as [|x tm]; [done|]. simpl in Hrun.
    apply propagate_tail_inv in Hrun as [timestamp Hrun].
    by eapply update_timestamp_of_update_snapshot.
  - intros snapshot Hload Hdue Hrun.
    unfold bump_snapshot in Hrun.
    erewrite bind_ok in Hrun; cycle 1.
    { unfold try_except_StorageError.
      by rewrite (bind_ok _ _ _ _ _ (load_ok _ _ _ Hload)). }
    cbv beta iota in Hrun.
    erewrite bind_ok in Hrun by reflexivity.
    erewrite bind_ok in Hrun by reflexivity.
    change (_hours_before_expire (tick w)) with (_hours_before_expire w) in Hrun.
    apply Z.ltb_lt in Hdue. rewrite Hdue in Hrun.
    apply propagate_tail_inv in Hrun as [timestamp Hrun].
    by apply update_timestamp_of_update_snapshot in Hrun.
Qed.

Lemma timestamp_records_snapshot_version_witness :
  propagated (_storage_backend Demo.world)
             (_storage_backend (snd (publish_targets_metas ["bin-0"] Demo.world)))
  /\ propagated
       (_storage_backend (snd (for_each bump_bins_roles_bin ["bin-0"; "bin-1"] [] Demo.world)))
       (_storage_backend (snd (bump_bins_roles Demo.world)))
  /\ propagated (_storage_backend Demo.world)
                (_storage_backend (snd (bump_snapshot Demo.world))).
Proof.
  assert (storage_get (_storage_backend Demo.world) Snapshot_type = Some Demo.snapshot_doc)
    as Hsnapshot by (vm_compute; reflexivity).
  assert (storage_get (_storage_backend Demo.world) BIN = Some Demo.bin_doc)
    as Hbin by (vm_compute; reflexivity).
  split; [|split].
  - destruct (timestamp_records_snapshot_version Demo.world
                (snd (publish_targets_metas ["bin-0"] Demo.world))) as (H & _ & _).
    apply (H ["bin-0"] Demo.snapshot_doc [("bin-0", 3)] Demo.world Hsnapshot).
    + vm_compute. reflexivity.
    + discriminate.
    + vm_compute. reflexivity.
  - destruct (timestamp_records_snapshot_version Demo.world
                (snd (bump_bins_roles Demo.world))) as (_ & H & _).
    apply (H Demo.bin_doc ∅
             {| get_role_for_target := Demo.pick; get_roles := ["bin-0"; "bin-1"] |}
             [("bin-0", 4); ("bin-1", 4)]
             (snd (for_each bump_bins_roles_bin ["bin-0"; "bin-1"] [] Demo.world))
             Hbin eq_refl).
    + vm_compute. reflexivity.
    + discriminate.
    + vm_compute. reflexivity.
  - destruct (timestamp_records_snapshot_version Demo.world (snd (bump_snapshot Demo.world)))
      as (_ & _ & H).
    apply (H Demo.snapshot_doc Hsnapshot).
    + vm_compute. reflexivity.
    + vm_compute. reflexivity.
Defined.

(** ** The snapshot sweep *)

(** C6, as the code has it: when [bump_snapshot] finds Snapshot within the
    freshness window, the two expiration intervals are configured and
    [timestamp.json] holds a Timestamp document, it writes a Snapshot one
    version up with a renewed expiry and the payload, hence the [meta]
    dictionary, of the one it loaded, and then a Timestamp one version up,
    with a renewed expiry, whose [snapshot_meta] is the version of the new
    Snapshot and nothing else, although no bin changed. *)
Theorem bump_snapshot_within_window (w : World) (snapshot timestamp : Metadata)
    (recorded : MetaFile) (snapshot_days timestamp_days : Z) :
  storage_get (_storage_backend w) Snapshot_type = Some snapshot ->
  expires (signed snapshot) - clock w (ticks w)
    < timedelta_hours (_hours_before_expire w) ->
  _settings w "snapshot_EXPIRATION" = Some snapshot_days ->
  _settings w "timestamp_EXPIRATION" = Some timestamp_days ->
  _storage_backend w !! "timestamp.json" = Some timestamp ->
  payload (signed timestamp) = TimestampP recorded ->
  exists snapshot' timestamp' w',
    bump_snapshot w = (Ok true, w')
    /\ _storage_backend w'
       = <["timestamp.json" := timestamp']>
           (<[versioned_name (version (signed snapshot) + 1) Snapshot_type := snapshot']>
              (_storage_backend w))
    /\ payload (signed snapshot') = payload (signed snapshot)
    /\ version (signed snapshot') = version (signed snapshot) + 1
    /\ (let now := clock w (S (ticks w)) in
        expires (signed snapshot') = now - now mod 1000000 + snapshot_days * 86400000000)
    /\ version (signed timestamp') = version (signed timestamp) + 1
    /\ (let now := clock w (S (S (ticks w))) in
        expires (signed timestamp') = now - now mod 1000000 + timestamp_days * 86400000000)
    /\ payload (signed timestamp')
       = TimestampP {| mf_version := version (signed snapshot) + 1;
                       mf_length := None; mf_hashes := None |}.
Proof.
  intros Hload Hdue Hsd Htd Hts Htp.
  set (w1 := tick w).
  set (snapshot' := sign_with (_key_storage_backend w Snapshot_type)
                      (bump_pair snapshot (clock w (S (ticks w))) snapshot_days)).
  set (store1 := <[versioned_name (version (signed snapshot) + 1) Snapshot_type := snapshot']>
                   (_storage_backend w)).
  set (w2 := set_storage (tick w1) store1).
  set (timestamp' := bumped_timestamp w2 timestamp
                       (version (signed snapshot) + 1) timestamp_days).
  exists snapshot', timestamp', (set_storage (tick w2) (<["timestamp.json" := timestamp']> store1)).
  split.
  { unfold bump_snapshot.
    erewrite bind_ok; cycle 1.
    { unfold try_except_StorageError.
      by rewrite (bind_ok _ _ _ _ _ (load_ok _ _ _ Hload)). }
    cbv beta iota.
    erewrite bind_ok by reflexivity.
    erewrite bind_ok by reflexivity.
    change (_hours_before_expire (tick w)) with (_hours_before_expire w).
    apply Z.ltb_lt in Hdue. rewrite Hdue.
    erewrite bind_ok; [reflexivity|].
    erewrite bind_ok; cycle 1.
    { by apply (update_snapshot_nil_run w1 snapshot snapshot_days). }
    erewrite bind_ok; [reflexivity|].
    apply (update_timestamp_run _ w2 timestamp timestamp_days); [|done].
    rewrite storage_get_timestamp. subst w2 store1. simpl.
    rewrite lookup_insert_ne by apply versioned_name_not_timestamp. done. }
  split; [done|].
  split; [subst snapshot'; by rewrite sign_with_signed|].
  assert (bumped_from snapshot snapshot' (clock w (S (ticks w))) snapshot_days) as Hs
    by (by apply bumped_from_sign_bump).
  assert (bumped_from timestamp timestamp' (clock w (S (S (ticks w)))) timestamp_days) as Ht
    by apply bumped_from_sign_bump, set_snapshot_meta_version.
  apply bumped_from_explicit in Hs as [Hsv Hse], Ht as [Htv Hte].
  split; [done|]. split; [done|]. split; [done|]. split; [done|].
  subst timestamp'. by rewrite bumped_timestamp_payload, Htp.
Qed.

Lemma bump_snapshot_within_window_witness :
  exists snapshot' timestamp' w',
    bump_snapshot Demo.world = (Ok true, w')
    /\ _storage_backend w'
       = <["timestamp.json" := timestamp']>
           (<["6.snapshot.json" := snapshot']> (_storage_backend Demo.world))
    /\ payload (signed snapshot') = payload (signed Demo.snapshot_doc)
    /\ version (signed snapshot') = 6
    /\ version (signed timestamp') = 8
    /\ payload (signed timestamp')
       = TimestampP {| mf_version := 6; mf_length := None; mf_hashes := None |}.
Proof.
  destruct (bump_snapshot_within_window Demo.world Demo.snapshot_doc Demo.timestamp_doc
              (MetaFile_of_version 5) 1 1)
    as (s' & t' & w' & Hrun & Hstore & Hp & Hv & _ & Hv' & _ & Htp).
  - vm_compute. reflexivity.
  - vm_compute. reflexivity.
  - reflexivity.
  - reflexivity.
  - vm_compute. reflexivity.
  - reflexivity.
  - exists s', t', w'. repeat split; try done.
Defined.

(** C6, as stated, fails: Snapshot is within the freshness window and
    [timestamp.json] is missing; [bump_snapshot] writes the Snapshot of
    version 6 and raises the storage error of the Timestamp load, so nothing
    cascades to Timestamp and no result is returned. *)
Lemma bump_snapshot_no_cascade :
  (exists snapshot,
     storage_get (_storage_backend Scenario.world_without_timestamp) Snapshot_type
     = Some snapshot
     /\ version (signed snapshot) = 5
     /\ expires (signed snapshot) - clock Scenario.world_without_timestamp 0
        < timedelta_hours (_hours_before_expire Scenario.world_without_timestamp))
  /\ fst (bump_snapshot Scenario.world_without_timestamp) = Raise StorageError
  /\ (version ∘ signed
      <$> _storage_backend (snd (bump_snapshot Scenario.world_without_timestamp))
            !! "6.snapshot.json") = Some 6
  /\ _storage_backend (snd (bump_snapshot Scenario.world_without_timestamp))
       !! "timestamp.json" = None.
Proof.
  split.
  - exists Demo.snapshot_doc. repeat split; vm_compute; reflexivity.
  - repeat split; vm_compute; reflexivity.
Qed.

(** ** Publishing bins *)

(** The comparison of [publish_targets_metas] holds for every bin that is
    loaded and recorded: the recorded entry is a [MetaFile], the stored
    version an [int]. *)
Lemma publish_targets_metas_bin_included (snapshot : Metadata) (bins_name : string)
    (targets_meta : list (string * Z)) (w : World) (bins_role : Metadata)
    (meta : gmap string MetaFile) (recorded : MetaFile) :
  storage_get (_storage_backend w) bins_name = Some bins_role ->
  payload (signed snapshot) = SnapshotP meta ->
  meta !! (bins_name +:+ ".json") = Some recorded ->
  publish_targets_metas_bin snapshot bins_name targets_meta w
  = (Ok (targets_meta ++ [(bins_name, version (signed bins_role))])%list, w).
Proof.
  intros Hload Hp Hrec. unfold publish_targets_metas_bin.
  erewrite bind_ok by (by apply load_ok).
  unfold meta_getitem, get_meta. rewrite Hp.
  unfold bind, ret. by rewrite Hrec.
Qed.

(** C1, at the failing input: bin [bin-0] is stored at version 3 and
    Snapshot records version 3 for it, yet [publish_targets_metas] puts it
    in the changed-set and writes a new Snapshot (version 6) and a new
    Timestamp (version 8). *)
Theorem publish_targets_metas_unchanged_bin :
  storage_get (_storage_backend Demo.world) "bin-0" = Some Demo.bins_doc
  /\ version (signed Demo.bins_doc) = 3
  /\ meta_getitem Demo.snapshot_doc "bin-0.json" Demo.world
     = (Ok (MetaFile_of_version 3), Demo.world)
  /\ publish_targets_metas_bin Demo.snapshot_doc "bin-0" [] Demo.world
     = (Ok [("bin-0", 3)], Demo.world)
  /\ fst (publish_targets_metas ["bin-0"] Demo.world) = Ok tt
  /\ _storage_backend Demo.world !! "6.snapshot.json" = None
  /\ (version ∘ signed <$>
        _storage_backend (snd (publish_targets_metas ["bin-0"] Demo.world))
          !! "6.snapshot.json") = Some 6
  /\ (version ∘ signed <$> _storage_backend Demo.world !! "timestamp.json") = Some 7
  /\ (version ∘ signed <$>
        _storage_backend (snd (publish_targets_metas ["bin-0"] Demo.world))
          !! "timestamp.json") = Some 8.
Proof. repeat split; vm_compute; reflexivity. Qed.

(** ** Batch ingest *)

Lemma from_dict_valid (target : Target) (w : World) :
  valid_target target ->
  TargetFile_from_dict (target_info target) (target_path target) w
  = (Ok (target_file_of target), w).
Proof.
  intros [Hlength Hhashes]. unfold TargetFile_from_dict, TargetFile_init.
  rewrite (proj2 (Z.leb_gt _ _)) by lia.
  by rewrite bool_decide_eq_false_2.
Qed.

Lemma from_dict_invalid (target : Target) (w : World) :
  ~ valid_target target ->
  TargetFile_from_dict (target_info target) (target_path target) w
  = (Raise ValueError, w).
Proof.
  intros Hinvalid. unfold TargetFile_from_dict, TargetFile_init.
  destruct (Z.leb_spec (info_length (target_info target)) 0) as [Hle | Hlt]; [done|].
  case_bool_decide as Hhashes; [done|]. by destruct Hinvalid.
Qed.

Lemma group_targets_run (roles : SuccinctRoles) (targets : list Target)
    (acc : list (string * list TargetFile)) (w : World) :
  Forall valid_target targets ->
  for_each (group_target (Some roles)) targets acc w
  = (Ok (fold_left (group_step roles) targets acc), w).
Proof.
  intros Hvalid. revert acc.
  induction Hvalid as [|t ts Ht _ IH]; intros acc; [done|].
  simpl. erewrite bind_ok; [apply IH|].
  unfold group_target.
  erewrite bind_ok by reflexivity.
  erewrite bind_ok by (by apply from_dict_valid).
  reflexivity.
Qed.

(** The grouping loop stops at the first entry that [TargetFile] refuses. *)
Lemma group_targets_raise (roles : SuccinctRoles) (before after : list Target)
    (target : Target) (acc : list (string * list TargetFile)) (w : World) :
  Forall valid_target before -> ~ valid_target target ->
  for_each (group_target (Some roles)) (before ++ target :: after)%list acc w
  = (Raise ValueError, w).
Proof.
  intros Hbefore Hinvalid.
  rewrite for_each_app, (bind_ok _ _ _ _ _ (group_targets_run _ _ _ _ Hbefore)).
  simpl. apply bind_raise. unfold group_target.
  erewrite bind_ok by reflexivity.
  by apply bind_raise, from_dict_invalid.
Qed.

(** ** The storage backend: latest versions *)

Lemma elem_of_stored_versions (store : gmap string Metadata) (role_name : string) (v : Z) :
  v ∈ stored_versions store role_name <-> is_Some (store !! versioned_name v role_name).
Proof.
  unfold stored_versions. rewrite list_elem_of_omap. split.
  - intros ([filename md] & Hin & Hf). apply elem_of_map_to_list in Hin.
    destruct (parse_version_prefix filename) as [v'|]; [|done].
    destruct (decide (filename = versioned_name v' role_name)) as [-> | ?]; [|done].
    injection Hf as <-. by exists md.
  - intros [md Hmd]. exists (versioned_name v role_name, md).
    split; [by apply elem_of_map_to_list|].
    rewrite parse_versioned_name. by rewrite decide_True.
Qed.

Lemma foldr_max_spec (l : list Z) (v : Z) :
  foldr (fun v o => Some (match o with Some u => Z.max u v | None => v end)) None l = Some v
  <-> v ∈ l /\ forall u, u ∈ l -> u <= v.
Proof.
  revert v. induction l as [|x l IH]; intros v; simpl.
  - split; [done|]. intros [Hin _]. by apply not_elem_of_nil in Hin.
  - destruct (foldr _ None l) as [m|] eqn:Hm.
    + destruct (proj1 (IH m) eq_refl) as [Hmin Hmax]. split.
      * intros [= <-]. split.
        -- destruct (Z.max_spec m x) as [[_ ->] | [_ ->]];
             [by apply elem_of_cons; left | by apply elem_of_cons; right].
        -- intros u [-> | Hu]%elem_of_cons; [lia|]. specialize (Hmax u Hu). lia.
      * intros [Hv Hle]. f_equal.
        assert (x <= v) by (apply Hle, elem_of_cons; by left).
        assert (m <= v) by (apply Hle, elem_of_cons; by right).
        apply elem_of_cons in Hv as [-> | Hv]; [lia|].
        specialize (Hmax v Hv). lia.
    + assert (l = []) as ->.
      { destruct l as [|y l]; [done|]. simpl in Hm. discriminate. }
      split.
      * intros [= <-]. split; [by apply elem_of_cons; left|].
        intros u [-> | Hu]%elem_of_cons; [lia | by apply not_elem_of_nil in Hu].
      * intros [[-> | Hv]%elem_of_cons _]; [done | by apply not_elem_of_nil in Hv].
Qed.

Lemma latest_version_Some (store : gmap string Metadata) (role_name : string) (v : Z) :
  latest_version store role_name = Some v
  <-> is_Some (store !! versioned_name v role_name)
      /\ forall u, is_Some (store !! versioned_name u role_name) -> u <= v.
Proof.
  unfold latest_version. rewrite foldr_max_spec, elem_of_stored_versions.
  split; intros [Hv Hmax]; (split; [done|]); intros u Hu; apply Hmax;
    by apply elem_of_stored_versions.
Qed.

Lemma latest_version_None (store : gmap string Metadata) (role_name : string) :
  latest_version store role_name = None
  <-> forall u, store !! versioned_name u role_name = None.
Proof.
  split.
  - intros Hnone u. destruct (store !! versioned_name u role_name) as [md|] eqn:Hu; [|done].
    assert (u ∈ stored_versions store role_name) as Hin.
    { apply elem_of_stored_versions. by exists md. }
    unfold latest_version in Hnone.
    destruct (stored_versions store role_name) as [|x l]; [|done].
    by apply not_elem_of_nil in Hin.
  - intros Hall. destruct (latest_version store role_name) as [v|] eqn:Hv; [|done].
    apply latest_version_Some in Hv as [[md Hmd] _]. by rewrite Hall in Hmd.
Qed.

(** Two stores with the same files of a role have the same latest version
    of it. *)
Lemma latest_version_ext (store store' : gmap string Metadata) (role_name : string) :
  (forall u, is_Some (store' !! versioned_name u role_name)
             <-> is_Some (store !! versioned_name u role_name)) ->
  latest_version store' role_name = latest_version store role_name.
Proof.
  intros Hsame. destruct (latest_version store role_name) as [v|] eqn:Hv.
  - apply latest_version_Some in Hv as [Hv Hmax]. apply latest_version_Some.
    split; [by apply Hsame|]. intros u Hu. by apply Hmax, Hsame.
  - apply latest_version_None. intros u.
    pose proof (proj1 (latest_version_None _ _) Hv u) as Hu.
    destruct (store' !! versioned_name u role_name) eqn:Hu'; [|done].
    assert (is_Some (store !! versioned_name u role_name)) as [? ?]
      by (apply Hsame; eauto). congruence.
Qed.

(** A file that is no version of [role_name] does not change what loading
    [role_name] gives. *)
Lemma storage_get_insert_other (store : gmap string Metadata) (filename : string)
    (md : Metadata) (role_name : string) :
  (forall u, filename <> versioned_name u role_name) ->
  (role_name = "timestamp" -> filename <> "timestamp.json") ->
  storage_get (<[filename := md]> store) role_name = storage_get store role_name
  /\ latest_version (<[filename := md]> store) role_name = latest_version store role_name.
Proof.
  intros Hother Hts.
  assert (latest_version (<[filename := md]> store) role_name
          = latest_version store role_name) as Hlatest.
  { apply latest_version_ext. intros u. by rewrite lookup_insert_ne. }
  split; [|done]. unfold storage_get. rewrite Hlatest.
  destruct (decide (role_name = "timestamp")) as [Heq | Hne].
  - by rewrite lookup_insert_ne by auto.
  - destruct (latest_version store role_name); [|done].
    by rewrite lookup_insert_ne.
Qed.

(** Whatever file is written, loading a role gives the document written or
    the document it gave before. *)
Lemma storage_get_insert (store : gmap string Metadata) (filename : string)
    (md x : Metadata) (role_name : string) :
  storage_get (<[filename := md]> store) role_name = Some x ->
  x = md \/ storage_get store role_name = Some x.
Proof.
  unfold storage_get. destruct (decide (role_name = "timestamp")) as [Heq | Hne].
  - destruct (decide (filename = "timestamp.json")) as [-> | Hfn].
    + rewrite lookup_insert_eq. intros [= <-]. by left.
    + rewrite lookup_insert_ne by done. by right.
  - destruct (latest_version (<[filename := md]> store) role_name) as [v|] eqn:Hv; [|done].
    destruct (decide (filename = versioned_name v role_name)) as [-> | Hfn].
    + rewrite lookup_insert_eq. intros [= <-]. by left.
    + rewrite lookup_insert_ne by done. intros Hx. right.
      assert (latest_version store role_name = Some v) as ->; [|done].
      apply latest_version_Some in Hv as [_ Hmax]. apply latest_version_Some.
      split; [by exists x|]. intros u [y Hu]. apply Hmax.
      destruct (decide (filename = versioned_name u role_name)) as [-> | Hne'].
      * rewrite lookup_insert_eq. by eexists.
      * rewrite lookup_insert_ne by done. by eexists.
Qed.

(** Writing the version after the latest one makes it the latest. *)
Lemma storage_get_insert_next (store : gmap string Metadata) (md : Metadata)
    (role_name : string) (v : Z) :
  role_name <> "timestamp" ->
  latest_version store role_name = Some v ->
  storage_get (<[versioned_name (v + 1) role_name := md]> store) role_name = Some md.
Proof.
  intros Hne Hv. unfold storage_get. rewrite decide_False by done.
  assert (latest_version (<[versioned_name (v + 1) role_name := md]> store) role_name
          = Some (v + 1)) as ->.
  { apply latest_version_Some in Hv as [_ Hmax]. apply latest_version_Some. split.
    - rewrite lookup_insert_eq. by eexists.
    - intros u Hu.
      destruct (decide (versioned_name (v + 1) role_name = versioned_name u role_name))
        as [Heq | Hneq].
      + apply versioned_name_inj in Heq as [<- _]. lia.
      + rewrite lookup_insert_ne in Hu by done. specialize (Hmax u Hu). lia. }
  apply lookup_insert_eq.
Qed.

(** ** The bins sweep, twice *)

Lemma bind_any {A B} (m : M A) (f : A -> M B) (w w' : World) (r : outcome B) :
  bind m f w = (r, w') ->
  (exists e, m w = (Raise e, w') /\ r = Raise e)
  \/ (exists a w1, m w = (Ok a, w1) /\ f a w1 = (r, w')).
Proof.
  unfold bind. destruct (m w) as [[a|e] w1].
  - intros H. right. by exists a, w1.
  - intros [= <- <-]. left. by exists e.
Qed.

Lemma load_any (role_name : string) (w w' : World) (r : outcome Metadata) :
  _load role_name w = (r, w') ->
  w' = w
  /\ ((r = Raise StorageError /\ storage_get (_storage_backend w) role_name = None)
      \/ exists md, r = Ok md /\ storage_get (_storage_backend w) role_name = Some md).
Proof.
  unfold _load, Metadata_from_file.
  destruct (storage_get (_storage_backend w) role_name) as [md|]; intros [= <- <-].
  - split; [done|]. right. by exists md.
  - split; [done|]. by left.
Qed.

Lemma bump_expiry_any (role : Metadata) (expiry_id : string) (w w' : World)
    (r : outcome Metadata) :
  _bump_expiry role expiry_id w = (r, w') ->
  w' = tick w
  /\ (r = Raise TypeError
      \/ exists days,
           _settings w (expiry_id +:+ "_EXPIRATION") = Some days
           /\ r = Ok (set_expires role
                        (replace_microsecond_0 (clock w (ticks w)) + timedelta_days days))).
Proof.
  unfold _bump_expiry, bind, datetime_now, settings_get_fresh_int. simpl.
  destruct (_settings w _) as [days|]; intros [= <- <-].
  - split; [done|]. right. by exists days.
  - split; [done|]. by left.
Qed.

(** A renewed expiry is out of the window when the interval exceeds it. *)
Lemma fresh_renewed (hours days now : Z) (md : Metadata) :
  timedelta_hours hours < timedelta_days days ->
  expires (signed md) = replace_microsecond_0 now + timedelta_days days ->
  fresh (timedelta_hours hours) now md.
Proof.
  unfold fresh, timedelta_hours, timedelta_days, replace_microsecond_0,
    microseconds_per_second.
  intros Hlt ->. pose proof (Z.mod_pos_bound now 1000000). lia.
Qed.

Lemma role_write_other (threshold now : Z) (role_name other : string)
    (store store' : gmap string Metadata) :
  role_write threshold now role_name store store' ->
  other <> role_name ->
  storage_get store' other = storage_get store other
  /\ latest_version store' other = latest_version store other.
Proof.
  intros (filename & md & -> & _ & Hname) Hne.
  apply storage_get_insert_other.
  - intros u ->. destruct Hname as [[_ Hts] | [_ [v Hv]]].
    + by apply versioned_name_not_timestamp in Hts.
    + apply versioned_name_inj in Hv as [_ ->]. done.
  - intros -> ->. destruct Hname as [[-> _] | [_ [v Hv]]]; [done|].
    symmetry in Hv. by apply versioned_name_not_timestamp in Hv.
Qed.

Lemma role_write_settled (threshold now : Z) (role_name other : string)
    (store store' : gmap string Metadata) :
  role_write threshold now role_name store store' ->
  settled threshold now store other ->
  settled threshold now store' other.
Proof.
  intros (filename & md & -> & Hfresh & _) Hsettled x Hx.
  apply storage_get_insert in Hx as [-> | Hx]; [done | by apply Hsettled].
Qed.

Lemma config_of_inv (w w' : World) :
  config_of w' = config_of w ->
  _key_storage_backend w' = _key_storage_backend w
  /\ _settings w' = _settings w
  /\ _hours_before_expire w' = _hours_before_expire w
  /\ clock w' = clock w.
Proof. unfold config_of. by intros [= -> -> -> ->]. Qed.

Lemma no_time_passes_config (w w' : World) (now : Z) :
  config_of w' = config_of w -> no_time_passes w now -> no_time_passes w' now.
Proof.
  intros (_ & _ & _ & Hc)%config_of_inv H n. unfold no_time_passes in H.
  by rewrite Hc.
Qed.

Lemma intervals_exceed_window_config (w w' : World) :
  config_of w' = config_of w -> intervals_exceed_window w -> intervals_exceed_window w'.
Proof.
  intros (_ & Hs & Hh & _)%config_of_inv H expiry_id days.
  rewrite Hs, Hh. apply H.
Qed.

Lemma update_snapshot_effect (targets_meta : list (string * Z)) (w w' : World)
    (r : outcome Z) (now : Z) :
  no_time_passes w now -> intervals_exceed_window w ->
  _update_snapshot targets_meta w = (r, w') ->
  config_of w' = config_of w
  /\ (_storage_backend w' = _storage_backend w
      \/ role_write (timedelta_hours (_hours_before_expire w)) now Snapshot_type
           (_storage_backend w) (_storage_backend w')).
Proof.
  intros Hnow Hint H. unfold _update_snapshot in H.
  apply bind_any in H as [(e & [-> _]%load_any & _) | (old & w1 & [-> _]%load_any & H)];
    [by split; [|left]|].
  apply bind_any in H as [(e & Hloop & _) | (s1 & w1 & Hloop & H)].
  { apply record_targets_meta_inv in Hloop as [-> _]. by split; [|left]. }
  apply record_targets_meta_inv in Hloop as [-> _].
  apply bind_any in H as [(e & [-> _]%bump_expiry_any & _) | (s2 & w2 & Hexp & H)];
    [by split; [|left]|].
  apply bump_expiry_any in Hexp as [-> [[=] | (days & Hdays & [= ->])]].
  apply bind_any in H as [(e & [=] & _) | (s3 & w3 & [= <- <-] & H)].
  rewrite (bind_ok _ _ _ _ _ (sign_run _ _ _)) in H.
  unfold _persist in H. rewrite snapshot_filename in H. injection H as <- <-.
  split; [done|]. right. eexists _, _. split; [reflexivity|]. split.
  - apply (fresh_renewed _ days); [by eapply Hint|].
    rewrite sign_with_signed. simpl. by rewrite (Hnow (ticks w)).
  - right. split; [done|]. by eexists.
Qed.

Lemma update_timestamp_effect (snapshot_version : Z) (w w' : World)
    (r : outcome Metadata) (now : Z) :
  no_time_passes w now -> intervals_exceed_window w ->
  _update_timestamp snapshot_version w = (r, w') ->
  config_of w' = config_of w
  /\ (_storage_backend w' = _storage_backend w
      \/ role_write (timedelta_hours (_hours_before_expire w)) now Timestamp_type
           (_storage_backend w) (_storage_backend w')).
Proof.
  intros Hnow Hint H. unfold _update_timestamp in H.
  apply bind_any in H as [(e & [-> _]%load_any & _) | (old & w1 & [-> _]%load_any & H)];
    [by split; [|left]|].
  apply bind_any in H as [(e & [=] & _) | (s1 & w1 & [= <- <-] & H)].
  apply bind_any in H as [(e & [-> _]%bump_expiry_any & _) | (s2 & w2 & Hexp & H)];
    [by split; [|left]|].
  apply bump_expiry_any in Hexp as [-> [[=] | (days & Hdays & [= ->])]].
  rewrite (bind_ok _ _ _ _ _ (sign_run _ _ _)) in H.
  injection H as <- <-.
  split; [done|]. right. eexists _, _. split; [reflexivity|]. split.
  - apply (fresh_renewed _ days); [by eapply Hint|].
    rewrite sign_with_signed. simpl. by rewrite (Hnow (ticks w)).
  - by left.
Qed.

(** The propagation writes at most a Snapshot and then a Timestamp, both out
    of the window. *)
Lemma propagate_effect (targets_meta : list (string * Z)) (w w' : World)
    (r : outcome unit) (now : Z) :
  no_time_passes w now -> intervals_exceed_window w ->
  (snapshot_version <- _update_snapshot targets_meta ;;
   _update_timestamp snapshot_version ;;; ret tt) w = (r, w') ->
  config_of w' = config_of w
  /\ exists store1,
       (store1 = _storage_backend w
        \/ role_write (timedelta_hours (_hours_before_expire w)) now Snapshot_type
             (_storage_backend w) store1)
       /\ (_storage_backend w' = store1
           \/ role_write (timedelta_hours (_hours_before_expire w)) now Timestamp_type
                store1 (_storage_backend w')).
Proof.
  intros Hnow Hint H.
  apply bind_any in H as [(e & Hs & _) | (v & w1 & Hs & H)].
  { apply (update_snapshot_effect _ _ _ _ now) in Hs as [Hc Hs]; [|done..].
    split; [done|]. exists (_storage_backend w'). split; [|by left].
    destruct Hs as [-> | Hs]; [by left | by right]. }
  apply (update_snapshot_effect _ _ _ _ now) in Hs as [Hc Hs]; [|done..].
  assert (exists rt, _update_timestamp v w1 = (rt, w')) as [rt Ht].
  { apply bind_any in H as [(e & Ht & _) | (t & w2 & Ht & [= <- <-])]; by eexists. }
  apply (update_timestamp_effect _ _ _ _ now) in Ht as [Hc' Ht];
    [|by eapply no_time_passes_config | by eapply intervals_exceed_window_config].
  split; [congruence|]. exists (_storage_backend w1).
  destruct (config_of_inv _ _ Hc) as (_ & _ & Hh & _). rewrite Hh in Ht.
  split; [|done]. destruct Hs as [-> | Hs]; [by left | by right].
Qed.

Lemma bump_bins_roles_bin_cases (bins_name : string) (acc : list (string * Z))
    (w w' : World) (r : outcome (list (string * Z))) :
  bump_bins_roles_bin bins_name acc w = (r, w') ->
  let store := _storage_backend w in
  let threshold := timedelta_hours (_hours_before_expire w) in
  (storage_get store bins_name = None /\ r = Raise StorageError /\ w' = w)
  \/ (exists md, storage_get store bins_name = Some md
        /\ threshold <= expires (signed md) - clock w (ticks w)
        /\ r = Ok acc /\ w' = tick w)
  \/ (exists md, storage_get store bins_name = Some md
        /\ expires (signed md) - clock w (ticks w) < threshold
        /\ ((_settings w "bins_EXPIRATION" = None
             /\ r = Raise TypeError /\ w' = tick (tick w))
            \/ exists days,
                 _settings w "bins_EXPIRATION" = Some days
                 /\ r = Ok (acc ++ [(bins_name, version (signed md) + 1)])%list
                 /\ w' = set_storage (tick (tick w))
                           (<[persist_filename
                                (bumped_bin w md (clock w (S (ticks w))) days) bins_name
                              := bumped_bin w md (clock w (S (ticks w))) days]> store))).
Proof.
  intros H store threshold. subst store threshold.
  destruct (storage_get (_storage_backend w) bins_name) as [md|] eqn:Hload.
  - destruct (Z.lt_ge_cases (expires (signed md) - clock w (ticks w))
                (timedelta_hours (_hours_before_expire w))) as [Hdue | Hfresh].
    + right. right. exists md. split; [done|]. split; [done|].
      destruct (_settings w "bins_EXPIRATION") as [days|] eqn:Hdays.
      * right. exists days. split; [done|].
        rewrite (bump_bins_roles_bin_due _ acc _ _ _ Hload Hdue Hdays) in H.
        by injection H as <- <-.
      * left. split; [done|]. unfold bump_bins_roles_bin in H.
        rewrite (bind_ok _ _ _ _ _ (load_ok _ _ _ Hload)) in H.
        erewrite bind_ok in H by reflexivity.
        erewrite bind_ok in H by reflexivity.
        change (_hours_before_expire (tick w)) with (_hours_before_expire w) in H.
        apply Z.ltb_lt in Hdue. rewrite Hdue in H.
        erewrite bind_raise in H; [by injection H as <- <-|].
        unfold _bump_expiry. erewrite bind_ok by reflexivity.
        apply bind_raise. unfold settings_get_fresh_int.
        change (_settings (tick (tick w))) with (_settings w).
        change (BINS +:+ "_EXPIRATION") with "bins_EXPIRATION". by rewrite Hdays.
    + right. left. exists md. split; [done|]. split; [done|].
      rewrite (bump_bins_roles_bin_fresh _ acc _ _ Hload Hfresh) in H.
      by injection H as <- <-.
  - left. split; [done|]. unfold bump_bins_roles_bin in H.
    rewrite (bind_raise _ _ _ _ _ (load_missing _ _ Hload)) in H.
    by injection H as <- <-.
Qed.

(** The write of a bin that is due, in a store that kept the bin as the
    sweep found it. *)
Lemma due_bin_write (now : Z) (bins_names : list string)
    (store0 : gmap string Metadata) (w : World) (bins_name : string)
    (md : Metadata) (days : Z) :
  no_time_passes w now -> intervals_exceed_window w ->
  bins_stored_by_version store0 bins_names ->
  sweep_invariant (timedelta_hours (_hours_before_expire w)) now bins_names
    store0 (_storage_backend w) ->
  bins_name ∈ bins_names ->
  storage_get (_storage_backend w) bins_name = Some md ->
  expires (signed md) - now < timedelta_hours (_hours_before_expire w) ->
  _settings w "bins_EXPIRATION" = Some days ->
  let bumped := bumped_bin w md now days in
  let store' := <[persist_filename bumped bins_name := bumped]> (_storage_backend w) in
  role_write (timedelta_hours (_hours_before_expire w)) now bins_name
    (_storage_backend w) store'
  /\ storage_get store' bins_name = Some bumped
  /\ fresh (timedelta_hours (_hours_before_expire w)) now bumped.
Proof.
  intros Hnow Hint Hstored Hinv Hin Hload Hdue Hdays bumped store'.
  assert (fresh (timedelta_hours (_hours_before_expire w)) now bumped) as Hfresh.
  { apply (fresh_renewed _ days); [by apply (Hint "bins")|].
    subst bumped. unfold bumped_bin. by rewrite sign_with_signed. }
  assert (version (signed bumped) = version (signed md) + 1) as Hv.
  { subst bumped. unfold bumped_bin. by rewrite sign_with_signed. }
  subst store'. rewrite persist_filename_spec.
  destruct (decide (bins_name = Timestamp_type)) as [-> | Hne].
  - split; [|split; [|done]].
    + eexists _, _. split; [reflexivity|]. split; [done|]. by left.
    + rewrite storage_get_timestamp. apply lookup_insert_eq.
  - destruct (Hinv bins_name Hin) as [Hsettled | [Hget Hlatest]].
    { specialize (Hsettled md Hload). unfold fresh in Hsettled. lia. }
    rewrite Hload in Hget. symmetry in Hget.
    destruct (Hstored bins_name md Hin Hne Hget) as [Hlatest0 Hprefix].
    rewrite Hv, Hprefix. split; [|split; [|done]].
    + eexists _, _. split; [reflexivity|]. split; [done|].
      right. split; [done|]. by eexists.
    + apply storage_get_insert_next; [done|]. by rewrite Hlatest.
Qed.

Lemma bumped_bin_payload (w : World) (md : Metadata) (now days : Z) :
  payload (signed (bumped_bin w md now days)) = payload (signed md).
Proof. unfold bumped_bin. by rewrite sign_with_signed. Qed.

(** The loop of the first sweep. *)
Lemma first_sweep (now days hours : Z) (all_names : list string)
    (store0 : gmap string Metadata) (bins_names : list string) :
  forall (acc : list (string * Z)) (w w' : World) (r : outcome (list (string * Z))),
    _hours_before_expire w = hours ->
    no_time_passes w now -> intervals_exceed_window w ->
    _settings w "bins_EXPIRATION" = Some days ->
    bins_stored_by_version store0 all_names ->
    (forall name, name ∈ bins_names -> name ∈ all_names) ->
    sweep_invariant (timedelta_hours hours) now all_names store0 (_storage_backend w) ->
    for_each bump_bins_roles_bin bins_names acc w = (r, w') ->
    config_of w' = config_of w
    /\ sweep_invariant (timedelta_hours hours) now all_names store0 (_storage_backend w')
    /\ (forall name, settled (timedelta_hours hours) now (_storage_backend w) name ->
                     settled (timedelta_hours hours) now (_storage_backend w') name)
    /\ (forall name p, loads_like (_storage_backend w) name p ->
                       loads_like (_storage_backend w') name p)
    /\ match r with
       | Ok _ => Forall (settled (timedelta_hours hours) now (_storage_backend w')) bins_names
       | Raise _ => quiet (timedelta_hours hours) now (_storage_backend w') bins_names
       end.
Proof.
  induction bins_names as [|bins_name rest IH];
    intros acc w w' r Hh Hnow Hint Hdays Hstored Hsub Hinv Hrun.
  { injection Hrun as <- <-. repeat split; try done. }
  assert (bins_name ∈ all_names) as Hin by (apply Hsub, elem_of_cons; by left).
  assert (forall name, name ∈ rest -> name ∈ all_names) as Hsub'
    by (intros name Hname; apply Hsub, elem_of_cons; by right).
  simpl in Hrun.
  apply bind_any in Hrun as [(e & Hbody & ->) | (acc1 & w1 & Hbody & Hrest)].
  - apply bump_bins_roles_bin_cases in Hbody
      as [(Hnone & _ & ->)
         | [(md & _ & _ & [=] & _)
           | (md & _ & _ & [(Hs & _ & _) | (d & _ & [=] & _)])]];
      [|congruence].
    repeat split; try done. by left.
  - apply bump_bins_roles_bin_cases in Hbody
      as [(_ & [=] & _)
         | [(md & Hload & Hfresh & [= ->] & ->)
           | (md & Hload & Hdue & [(_ & [=] & _) | (d & Hd & [= ->] & ->)])]].
    + (* the bin is out of the window *)
      rewrite (Hnow (ticks w)), Hh in Hfresh.
      assert (settled (timedelta_hours hours) now (_storage_backend w) bins_name) as Hset.
      { intros x Hx. rewrite Hload in Hx. by injection Hx as <-. }
      destruct (IH acc (tick w) w' r Hh Hnow Hint Hdays Hstored Hsub' Hinv Hrest)
        as (Hc & Hinv' & Hpres & Hlike & Hr).
      split; [done|]. split; [done|]. split; [done|]. split; [done|].
      destruct r; [apply Forall_cons; split; [by apply Hpres | done]|].
      right. split; [by apply Hpres | done].
    + (* the bin is bumped and written *)
      rewrite Hd in Hdays. injection Hdays as ->.
      rewrite (Hnow (ticks w)) in Hdue. rewrite (Hnow (S (ticks w))) in Hrest.
      assert (sweep_invariant (timedelta_hours (_hours_before_expire w)) now all_names
                store0 (_storage_backend w)) as Hinv0 by (by rewrite Hh).
      destruct (due_bin_write now all_names store0 w bins_name md days
                  Hnow Hint Hstored Hinv0 Hin Hload Hdue Hd) as (Hw & Hryw & Hfr).
      rewrite Hh in Hw, Hfr.
      set (bumped := bumped_bin w md now days) in *.
      set (store' := <[persist_filename bumped bins_name := bumped]> (_storage_backend w)) in *.
      assert (settled (timedelta_hours hours) now store' bins_name) as Hset.
      { intros x Hx. rewrite Hryw in Hx. by injection Hx as <-. }
      assert (sweep_invariant (timedelta_hours hours) now all_names store0 store') as Hinv1.
      { intros name Hname. destruct (decide (name = bins_name)) as [-> | Hne]; [by left|].
        destruct (Hinv name Hname) as [Hs | [Hg Hl]].
        - left. by eapply role_write_settled.
        - right. destruct (role_write_other _ _ _ name _ _ Hw Hne) as [-> ->]. done. }
      destruct (IH _ (set_storage (tick (tick w)) store') w' r Hh Hnow Hint Hd
                  Hstored Hsub' Hinv1 Hrest)
        as (Hc & Hinv' & Hpres & Hlike & Hr).
      split; [done|]. split; [done|].
      split; [intros name Hname; apply Hpres; by eapply role_write_settled|].
      split.
      { intros name p (x & Hx & Hp). apply Hlike.
        destruct (decide (name = bins_name)) as [-> | Hne].
        - rewrite Hload in Hx. injection Hx as <-.
          exists bumped. split; [done|]. subst bumped. by rewrite bumped_bin_payload.
        - exists x. split; [|done].
          destruct (role_write_other _ _ _ name _ _ Hw Hne) as [Hg _].
          simpl. by rewrite Hg. }
      destruct r; [apply Forall_cons; split; [by apply Hpres | done]|].
      right. split; [by apply Hpres | done].
Qed.

Lemma ticks_later_storage (n : nat) (w : World) :
  _storage_backend (ticks_later n w) = _storage_backend w
  /\ config_of (ticks_later n w) = config_of w.
Proof.
  revert w. induction n as [|n IH]; intros w; [done|].
  simpl. destruct (IH (tick w)) as [-> ->]. done.
Qed.

(** A sweep over bins that are all settled only reads the clock. *)
Lemma quiet_sweep (now hours : Z) (bins_names : list string) :
  forall (acc : list (string * Z)) (w w' : World) (r : outcome (list (string * Z))),
    _hours_before_expire w = hours ->
    no_time_passes w now ->
    quiet (timedelta_hours hours) now (_storage_backend w) bins_names ->
    for_each bump_bins_roles_bin bins_names acc w = (r, w') ->
    (exists n, w' = ticks_later n w)
    /\ forall targets_meta, r = Ok targets_meta -> targets_meta = acc.
Proof.
  induction bins_names as [|bins_name rest IH]; intros acc w w' r Hh Hnow Hq Hrun.
  { injection Hrun as <- <-. split; [by exists 0%nat|]. by intros ? [= <-]. }
  simpl in Hrun.
  assert (forall md, storage_get (_storage_backend w) bins_name = Some md ->
            expires (signed md) - clock w (ticks w)
              < timedelta_hours (_hours_before_expire w) -> False) as Hnotdue.
  { intros md Hload Hdue. rewrite (Hnow (ticks w)), Hh in Hdue.
    destruct Hq as [Hnone | [Hset _]]; [congruence|].
    specialize (Hset md Hload). unfold fresh in Hset. lia. }
  apply bind_any in Hrun as [(e & Hbody & ->) | (acc1 & w1 & Hbody & Hrest)].
  - apply bump_bins_roles_bin_cases in Hbody
      as [(_ & _ & ->) | [(md & _ & _ & [=] & _) | (md & Hload & Hdue & _)]].
    + split; [by exists 0%nat | done].
    + by destruct (Hnotdue md).
  - apply bump_bins_roles_bin_cases in Hbody
      as [(_ & [=] & _)
         | [(md & Hload & _ & [= ->] & ->) | (md & Hload & Hdue & _)]].
    + destruct Hq as [Hnone | [_ Hq]]; [congruence|].
      destruct (IH acc (tick w) w' r Hh Hnow Hq Hrest) as [[n ->] Hacc].
      split; [by exists (S n) | done].
    + by destruct (Hnotdue md).
Qed.

(** Without a configured bins interval no bin is ever written. *)
Lemma sweep_without_interval (bins_names : list string) :
  forall (acc : list (string * Z)) (w w' : World) (r : outcome (list (string * Z))),
    _settings w "bins_EXPIRATION" = None ->
    for_each bump_bins_roles_bin bins_names acc w = (r, w') ->
    (exists n, w' = ticks_later n w)
    /\ forall targets_meta, r = Ok targets_meta -> targets_meta = acc.
Proof.
  induction bins_names as [|bins_name rest IH]; intros acc w w' r Hnone Hrun.
  { injection Hrun as <- <-. split; [by exists 0%nat|]. by intros ? [= <-]. }
  simpl in Hrun.
  apply bind_any in Hrun as [(e & Hbody & ->) | (acc1 & w1 & Hbody & Hrest)].
  - apply bump_bins_roles_bin_cases in Hbody
      as [(_ & _ & ->)
         | [(md & _ & _ & [=] & _)
           | (md & _ & _ & [(_ & _ & ->) | (d & _ & [=] & _)])]].
    + split; [by exists 0%nat | done].
    + split; [by exists 2%nat | done].
  - apply bump_bins_roles_bin_cases in Hbody
      as [(_ & [=] & _)
         | [(md & _ & _ & [= ->] & ->)
           | (md & _ & _ & [(_ & [=] & _) | (d & Hd & _)])]];
      [|congruence].
    destruct (IH acc (tick w) w' r Hnone Hrest) as [[n ->] Hacc].
    split; [by exists (S n) | done].
Qed.

(** The shape of a run of [bump_bins_roles]: it stops before the loop with
    the world as it was, or runs the loop over the bins of the [bin]
    document and then, with a non-empty changed-set, the propagation. *)
Lemma bump_bins_roles_cases (w w' : World) (r : outcome bool) :
  bump_bins_roles w = (r, w') ->
  w' = w
  \/ exists bin targets roles rl wl,
       storage_get (_storage_backend w) BIN = Some bin
       /\ payload (signed bin) = TargetsP targets (Some {| succinct_roles := Some roles |})
       /\ for_each bump_bins_roles_bin (get_roles roles) [] w = (rl, wl)
       /\ ((exists e, rl = Raise e /\ w' = wl)
           \/ (rl = Ok [] /\ w' = wl)
           \/ (exists targets_meta rp,
                 rl = Ok targets_meta /\ targets_meta <> []
                 /\ (snapshot_version <- _update_snapshot targets_meta ;;
                     _update_timestamp snapshot_version ;;; ret tt) wl = (rp, w'))).
Proof.
  intros H. unfold bump_bins_roles in H.
  destruct (storage_get (_storage_backend w) BIN) as [bin|] eqn:Hbin; cycle 1.
  { left. erewrite bind_ok in H; cycle 1.
    { unfold try_except_StorageError.
      by rewrite (bind_raise _ _ _ _ _ (load_missing _ _ Hbin)). }
    by injection H as <- <-. }
  erewrite bind_ok in H; cycle 1.
  { unfold try_except_StorageError.
    by rewrite (bind_ok _ _ _ _ _ (load_ok _ _ _ Hbin)). }
  cbv beta iota in H. unfold get_succinct_roles in H.
  destruct (payload (signed bin)) as [| | |targets [[[roles|]]|]] eqn:Hp;
    try (left; by injection H as <- <-).
  right. exists bin, targets, roles.
  erewrite bind_ok in H by reflexivity.
  erewrite bind_ok in H by reflexivity.
  apply bind_any in H as [(e & Hloop & ->) | (tm & wl & Hloop & H)].
  { exists (Raise e), w'. split; [done|]. split; [done|]. split; [done|].
    left. by exists e. }
  exists (Ok tm), wl. split; [done|]. split; [done|]. split; [done|].
  destruct tm as [|x tm]; simpl in H.
  - right. left. by injection H as <- <-.
  - right. right.
    apply bind_any in H as [(e & H & ->) | ([] & w2 & H & [= <- <-])];
      eexists (x :: tm), _; by repeat split.
Qed.

Lemma settled_quiet (threshold now : Z) (store : gmap string Metadata)
    (bins_names : list string) :
  Forall (settled threshold now store) bins_names -> quiet threshold now store bins_names.
Proof.
  induction 1 as [|name rest Hname _ IH]; [done|]. right. by split.
Qed.

Lemma role_write_step_settled (threshold now : Z) (role_name : string)
    (store store' : gmap string Metadata) (bins_names : list string) :
  store' = store \/ role_write threshold now role_name store store' ->
  Forall (settled threshold now store) bins_names ->
  Forall (settled threshold now store') bins_names.
Proof.
  intros [-> | Hw]; [done|]. intros Hall. eapply Forall_impl; [exact Hall|].
  intros name. by eapply role_write_settled.
Qed.

Lemma role_write_step_loads (threshold now : Z) (role_name other : string)
    (store store' : gmap string Metadata) (p : Payload) :
  store' = store \/ role_write threshold now role_name store store' ->
  other <> role_name ->
  loads_like store other p -> loads_like store' other p.
Proof.
  intros [-> | Hw] Hne; [done|]. intros (md & Hmd & Hp). exists md. split; [|done].
  destruct (role_write_other _ _ _ other _ _ Hw Hne) as [-> _]. done.
Qed.

(** After the first sweep, whatever its outcome, the bins it would visit
    again are settled, and [bin] loads with the same delegation. *)
Lemma after_first_sweep (now days : Z) (w w1 : World) (bin : Metadata)
    (roles : SuccinctRoles) (rl : outcome (list (string * Z))) (wl : World) :
  no_time_passes w now -> intervals_exceed_window w ->
  _settings w "bins_EXPIRATION" = Some days ->
  bins_stored_by_version (_storage_backend w) (get_roles roles) ->
  storage_get (_storage_backend w) BIN = Some bin ->
  for_each bump_bins_roles_bin (get_roles roles) [] w = (rl, wl) ->
  ((exists e, rl = Raise e /\ w1 = wl)
   \/ (rl = Ok [] /\ w1 = wl)
   \/ (exists targets_meta rp,
         rl = Ok targets_meta /\ targets_meta <> []
         /\ (snapshot_version <- _update_snapshot targets_meta ;;
             _update_timestamp snapshot_version ;;; ret tt) wl = (rp, w1))) ->
  config_of w1 = config_of w
  /\ quiet (timedelta_hours (_hours_before_expire w)) now (_storage_backend w1)
       (get_roles roles)
  /\ loads_like (_storage_backend w1) BIN (payload (signed bin)).
Proof.
  intros Hnow Hint Hdays Hstored Hbin Hloop Hend.
  assert (sweep_invariant (timedelta_hours (_hours_before_expire w)) now (get_roles roles)
            (_storage_backend w) (_storage_backend w)) as Hinv.
  { intros name _. by right. }
  destruct (first_sweep now days (_hours_before_expire w) (get_roles roles)
              (_storage_backend w) (get_roles roles) [] w wl rl eq_refl Hnow Hint Hdays
              Hstored (fun _ H => H) Hinv Hloop)
    as (Hc & _ & _ & Hlike & Hr).
  assert (loads_like (_storage_backend wl) BIN (payload (signed bin))) as Hbin'.
  { apply Hlike. by exists bin. }
  destruct Hend as [(e & -> & ->) | [[-> ->] | (tm & rp & -> & _ & Hprop)]].
  - by repeat split.
  - repeat split; [done | by apply settled_quiet | done].
  - apply (propagate_effect _ _ _ _ now) in Hprop
      as (Hc' & store1 & Hs1 & Hs2);
      [|by eapply no_time_passes_config | by eapply intervals_exceed_window_config].
    destruct (config_of_inv _ _ Hc) as (_ & _ & Hh & _). rewrite Hh in Hs1, Hs2.
    split; [congruence|]. split.
    + apply settled_quiet.
      eapply role_write_step_settled; [exact Hs2|].
      eapply role_write_step_settled; [|exact Hr].
      destruct Hs1 as [-> | Hs1]; [by left | by right].
    + eapply role_write_step_loads; [exact Hs2 | done |].
      eapply (role_write_step_loads _ _ Snapshot_type); [|done | exact Hbin'].
      destruct Hs1 as [-> | Hs1]; [by left | by right].
Qed.

(** C7, as the code has it: with no time passing, every configured interval
    above the freshness window, and every bin stored under the version its
    document carries with a filename [<name>.json] that does not start with
    its next version and a dot (so that [_persist] prefixes it at the next
    version), a second [bump_bins_roles] right after a first only reads the
    clock: it writes no document, so the store is as the first run left
    it. *)
Theorem bump_bins_roles_twice (w w1 w2 : World) (r1 r2 : outcome bool) (now : Z) :
  no_time_passes w now ->
  intervals_exceed_window w ->
  (forall bin targets roles,
      storage_get (_storage_backend w) BIN = Some bin ->
      payload (signed bin) = TargetsP targets (Some {| succinct_roles := Some roles |}) ->
      bins_stored_by_version (_storage_backend w) (get_roles roles)) ->
  bump_bins_roles w = (r1, w1) ->
  bump_bins_roles w1 = (r2, w2) ->
  (exists n, w2 = ticks_later n w1)
  /\ _storage_backend w2 = _storage_backend w1.
Proof.
  intros Hnow Hint Hstored Hrun1 Hrun2.
  cut (exists n, w2 = ticks_later n w1).
  { intros [n ->]. split; [by exists n | apply ticks_later_storage]. }
  destruct (bump_bins_roles_cases _ _ _ Hrun1)
    as [-> | (bin & targets & roles & rl & wl & Hbin & Hp & Hloop & Hend)].
  { rewrite Hrun1 in Hrun2. injection Hrun2 as _ <-. by exists 0%nat. }
  specialize (Hstored bin targets roles Hbin Hp).
  (* what the first run leaves *)
  assert (config_of w1 = config_of w
          /\ (_settings w "bins_EXPIRATION" = None
              \/ (quiet (timedelta_hours (_hours_before_expire w)) now (_storage_backend w1)
                    (get_roles roles)
                  /\ loads_like (_storage_backend w1) BIN (payload (signed bin)))))
    as [Hc Hleft].
  { destruct (_settings w "bins_EXPIRATION") as [days|] eqn:Hdays.
    - destruct (after_first_sweep now days w w1 bin roles rl wl
                  Hnow Hint Hdays Hstored Hbin Hloop Hend) as (Hc & Hq & Hl).
      split; [done|]. right. by split.
    - destruct (sweep_without_interval _ _ _ _ _ Hdays Hloop) as ([n ->] & Hacc).
      destruct (ticks_later_storage n w) as [_ Hc].
      split; [|by left].
      destruct Hend as [(e & -> & ->) | [[-> ->] | (tm & rp & -> & Hne & _)]];
        [done | done |].
      by destruct Hne, (Hacc tm eq_refl). }
  destruct (config_of_inv _ _ Hc) as (_ & Hs & Hh & _).
  (* the second run *)
  destruct (bump_bins_roles_cases _ _ _ Hrun2)
    as [-> | (bin' & targets' & roles' & rl' & wl' & Hbin' & Hp' & Hloop' & Hend')];
    [by exists 0%nat|].
  assert ((exists n, wl' = ticks_later n w1)
          /\ forall tm, rl' = Ok tm -> tm = []) as [Hsame Hacc].
  { destruct Hleft as [Hnone | [Hq (md & Hmd & Hpmd)]].
    - rewrite <- Hs in Hnone.
      apply (sweep_without_interval _ _ _ _ _ Hnone Hloop').
    - rewrite Hbin' in Hmd. injection Hmd as <-.
      rewrite Hp, Hp' in Hpmd. injection Hpmd as _ ->.
      apply (quiet_sweep now (_hours_before_expire w) (get_roles roles) [] w1 wl' rl' Hh);
        [|done..].
      by eapply no_time_passes_config. }
  destruct Hend' as [(e & -> & ->) | [[-> ->] | (tm & rp & -> & Hne & _)]];
    [done | done |].
  by destruct Hne, (Hacc tm eq_refl).
Qed.

Lemma Demo_intervals_exceed_window (store : gmap string Metadata) :
  intervals_exceed_window
    (MetadataRepository_init store Demo.keyvault Demo.settings (fun _ => 0)).
Proof.
  intros expiry_id days. simpl. unfold Demo.settings.
  repeat case_decide; intros [= <-]; reflexivity.
Qed.

Lemma Demo_bins_stored_by_version :
  forall bin targets roles,
    storage_get (_storage_backend Demo.world) BIN = Some bin ->
    payload (signed bin) = TargetsP targets (Some {| succinct_roles := Some roles |}) ->
    bins_stored_by_version (_storage_backend Demo.world) (get_roles roles).
Proof.
  intros bin targets roles Hbin Hp.
  vm_compute in Hbin. injection Hbin as <-. injection Hp as _ <-.
  intros bins_name md Hin _ Hmd. simpl in Hin.
  apply elem_of_cons in Hin as [-> | Hin];
    [|apply elem_of_cons in Hin as [-> | Hin]; [|by apply not_elem_of_nil in Hin]].
  - vm_compute in Hmd. injection Hmd as <-. split; vm_compute; reflexivity.
  - vm_compute in Hmd. injection Hmd as <-. split; vm_compute; reflexivity.
Qed.

Lemma bump_bins_roles_twice_witness :
  _storage_backend (snd (bump_bins_roles (snd (bump_bins_roles Demo.world))))
  = _storage_backend (snd (bump_bins_roles Demo.world)).
Proof.
  apply (bump_bins_roles_twice Demo.world
           (snd (bump_bins_roles Demo.world))
           (snd (bump_bins_roles (snd (bump_bins_roles Demo.world))))
           (fst (bump_bins_roles Demo.world))
           (fst (bump_bins_roles (snd (bump_bins_roles Demo.world)))) 0).
  - intros n. reflexivity.
  - apply Demo_intervals_exceed_window.
  - apply Demo_bins_stored_by_version.
  - apply surjective_pairing.
  - apply surjective_pairing.
Defined.

(** C7, as stated, fails: no time passes and every interval (one day) exceeds
    the window (one hour), yet the bin named [2.x-0], written by the first
    sweep to [2.x-0.json], still loads at version 1 from [1.2.x-0.json]; the
    second sweep bumps it again and writes a Snapshot and a Timestamp one
    version further. *)
Lemma bump_bins_roles_twice_bumps_again :
  let w1 := snd (bump_bins_roles Demo.world_2x) in
  let w2 := snd (bump_bins_roles w1) in
  no_time_passes Demo.world_2x 0
  /\ intervals_exceed_window Demo.world_2x
  /\ fst (bump_bins_roles Demo.world_2x) = Ok true
  /\ fst (bump_bins_roles w1) = Ok true
  /\ (version ∘ signed <$> storage_get (_storage_backend w1) "2.x-0") = Some 1
  /\ (version ∘ signed <$> _storage_backend w1 !! "2.x-0.json") = Some 2
  /\ (version ∘ signed <$> _storage_backend w1 !! "timestamp.json") = Some 8
  /\ (version ∘ signed <$> _storage_backend w2 !! "timestamp.json") = Some 9
  /\ _storage_backend w1 !! "7.snapshot.json" = None
  /\ (version ∘ signed <$> _storage_backend w2 !! "7.snapshot.json") = Some 7
  /\ _storage_backend w2 <> _storage_backend w1.
Proof.
  intros w1 w2.
  split; [intros n; reflexivity|].
  split; [apply Demo_intervals_exceed_window|].
  do 8 (split; [vm_compute; reflexivity|]).
  intros H. apply (f_equal (fun store => store !! "7.snapshot.json")) in H.
  vm_compute in H. discriminate.
Qed.

(** The first condition is needed as well: with [bin-0] filed under version
    5 while its document carries version 3, the first sweep writes version 4,
    the second loads version 3 again from [5.bin-0.json] and propagates
    once more. *)
Lemma bump_bins_roles_twice_misfiled_bin :
  let w1 := snd (bump_bins_roles Demo.world_misfiled) in
  let w2 := snd (bump_bins_roles w1) in
  (version ∘ signed <$> storage_get (_storage_backend Demo.world_misfiled) "bin-0") = Some 3
  /\ latest_version (_storage_backend Demo.world_misfiled) "bin-0" = Some 5
  /\ fst (bump_bins_roles Demo.world_misfiled) = Ok true
  /\ fst (bump_bins_roles w1) = Ok true
  /\ _storage_backend w1 !! "7.snapshot.json" = None
  /\ (version ∘ signed <$> _storage_backend w2 !! "7.snapshot.json") = Some 7.
Proof. repeat split; vm_compute; reflexivity. Qed.

(** * Further properties of the methods *)

(** ** The snapshot sweep, its other branches *)

(** X1: when loading Snapshot fails with a storage error, [bump_snapshot]
    returns [False] without raising and leaves the world as it found it. *)
Theorem bump_snapshot_not_found (w : World) :
  fst (_load Snapshot_type w) = Raise StorageError ->
  bump_snapshot w = (Ok false, w).
Proof.
  intros H. unfold bump_snapshot, bind, try_except_StorageError, bind.
  unfold _load, Metadata_from_file in *.
  destruct (storage_get (_storage_backend w) Snapshot_type); [done | reflexivity].
Qed.

Lemma bump_snapshot_not_found_witness :
  bump_snapshot Demo.empty_world = (Ok false, Demo.empty_world).
Proof. apply bump_snapshot_not_found. reflexivity. Defined.

(** X2: when Snapshot is not within the freshness window, that is when
    [expires - now] is the window or more, [bump_snapshot] returns [True]
    having read the clock once and written nothing; neither the intervals
    nor Timestamp are looked at. *)
Theorem bump_snapshot_outside_window (w : World) (snapshot : Metadata) :
  storage_get (_storage_backend w) Snapshot_type = Some snapshot ->
  timedelta_hours (_hours_before_expire w) <= expires (signed snapshot) - clock w (ticks w) ->
  bump_snapshot w = (Ok true, tick w).
Proof.
  intros Hload Hfresh. unfold bump_snapshot.
  erewrite bind_ok; cycle 1.
  { unfold try_except_StorageError.
    by rewrite (bind_ok _ _ _ _ _ (load_ok _ _ _ Hload)). }
  cbv beta iota.
  erewrite bind_ok by reflexivity.
  erewrite bind_ok by reflexivity.
  change (_hours_before_expire (tick w)) with (_hours_before_expire w).
  apply Z.ltb_ge in Hfresh. rewrite Hfresh. reflexivity.
Qed.

Lemma bump_snapshot_outside_window_witness :
  bump_snapshot Scenario.renewed_world = (Ok true, tick Scenario.renewed_world).
Proof.
  apply (bump_snapshot_outside_window Scenario.renewed_world
           (Demo.doc 6 (100 * Demo.hour)
              (SnapshotP (list_to_map [("bin-0.json", MetaFile_of_version 4);
                                       ("bin-1.json", MetaFile_of_version 4)])))).
  - vm_compute. reflexivity.
  - vm_compute. discriminate.
Defined.

(** X3: within the window but with no [timestamp.json] in store,
    [bump_snapshot] raises the storage error of the Timestamp load (only the
    Snapshot load is guarded) after the new Snapshot was written: the store
    keeps the bumped Snapshot and still has no Timestamp. *)
Theorem bump_snapshot_timestamp_missing (w : World) (snapshot : Metadata) (days : Z) :
  storage_get (_storage_backend w) Snapshot_type = Some snapshot ->
  expires (signed snapshot) - clock w (ticks w)
    < timedelta_hours (_hours_before_expire w) ->
  _settings w "snapshot_EXPIRATION" = Some days ->
  _storage_backend w !! "timestamp.json" = None ->
  exists snapshot' w',
    bump_snapshot w = (Raise StorageError, w')
    /\ _storage_backend w'
       = <[versioned_name (version (signed snapshot) + 1) Snapshot_type := snapshot']>
           (_storage_backend w)
    /\ bumped_from snapshot snapshot' (clock w (S (ticks w))) days
    /\ payload (signed snapshot') = payload (signed snapshot)
    /\ _storage_backend w' !! "timestamp.json" = None.
Proof.
  intros Hload Hdue Hdays Hts.
  set (snapshot' := sign_with (_key_storage_backend w Snapshot_type)
                      (bump_pair snapshot (clock w (S (ticks w))) days)).
  set (store1 := <[versioned_name (version (signed snapshot) + 1) Snapshot_type := snapshot']>
                   (_storage_backend w)).
  exists snapshot', (set_storage (tick (tick w)) store1).
  assert (store1 !! "timestamp.json" = None) as Hts1.
  { subst store1. by rewrite lookup_insert_ne by apply versioned_name_not_timestamp. }
  split.
  { unfold bump_snapshot.
    erewrite bind_ok; cycle 1.
    { unfold try_except_StorageError.
      by rewrite (bind_ok _ _ _ _ _ (load_ok _ _ _ Hload)). }
    cbv beta iota.
    erewrite bind_ok by reflexivity.
    erewrite bind_ok by reflexivity.
    change (_hours_before_expire (tick w)) with (_hours_before_expire w).
    apply Z.ltb_lt in Hdue. rewrite Hdue.
    apply bind_raise.
    erewrite bind_ok; cycle 1.
    { by apply (update_snapshot_nil_run (tick w) snapshot days). }
    apply bind_raise. unfold _update_timestamp. apply bind_raise.
    apply load_missing. by rewrite storage_get_timestamp. }
  split; [done|].
  split; [by apply bumped_from_sign_bump|].
  split; [subst snapshot'; by rewrite sign_with_signed | done].
Qed.

Lemma bump_snapshot_timestamp_missing_witness :
  exists snapshot' w',
    bump_snapshot Scenario.world_without_timestamp = (Raise StorageError, w')
    /\ _storage_backend w' !! "6.snapshot.json" = Some snapshot'
    /\ version (signed snapshot') = 6
    /\ _storage_backend w' !! "timestamp.json" = None.
Proof.
  assert (versioned_name (version (signed Demo.snapshot_doc) + 1) Snapshot_type
          = "6.snapshot.json") as Hname by (vm_compute; reflexivity).
  destruct (bump_snapshot_timestamp_missing Scenario.world_without_timestamp
              Demo.snapshot_doc 1)
    as (s' & w' & Hrun & Hstore & [Hv _] & _ & Hts).
  - vm_compute. reflexivity.
  - vm_compute. reflexivity.
  - vm_compute. reflexivity.
  - vm_compute. reflexivity.
  - exists s', w'. split; [exact Hrun|]. split; [|split; [exact Hv | exact Hts]].
    rewrite Hstore, Hname. apply lookup_insert_eq.
Defined.

(** ** Publishing: the empty list, the failures, the success *)

(** X4: with an empty list [publish_targets_metas] writes nothing and reads
    no clock: it returns when Snapshot loads and raises the storage error
    when it does not (here the load is not guarded). *)
Theorem publish_targets_metas_nil (w : World) :
  publish_targets_metas [] w
  = match storage_get (_storage_backend w) Snapshot_type with
    | Some _ => (Ok tt, w)
    | None => (Raise StorageError, w)
    end.
Proof.
  unfold publish_targets_metas.
  destruct (storage_get (_storage_backend w) Snapshot_type) as [snapshot|] eqn:Hload.
  - by rewrite (bind_ok _ _ _ _ _ (load_ok _ _ _ Hload)).
  - by rewrite (bind_raise _ _ _ _ _ (load_missing _ _ Hload)).
Qed.

(** The loop of [publish_targets_metas] over bins that all load and are
    all recorded. *)
Lemma publish_loop_run (snapshot : Metadata) (meta : gmap string MetaFile)
    (bins_names : list string) (acc : list (string * Z)) (w : World) :
  payload (signed snapshot) = SnapshotP meta ->
  Forall (fun name => is_Some (storage_get (_storage_backend w) name)
                      /\ is_Some (meta !! (name +:+ ".json"))) bins_names ->
  exists versions,
    for_each (publish_targets_metas_bin snapshot) bins_names acc w
    = (Ok (acc ++ zip bins_names versions)%list, w)
    /\ Forall2 (fun name v => stored_version (_storage_backend w) name = Some v)
               bins_names versions.
Proof.
  intros Hp Hall. revert acc. induction Hall as [|name names [[md Hmd] [m Hm]] _ IH];
    intros acc.
  - exists []. split; [|constructor]. simpl. by rewrite app_nil_r.
  - destruct (IH (acc ++ [(name, version (signed md))])%list) as (versions & Hrun & Hvs).
    exists (version (signed md) :: versions). split.
    + simpl. erewrite bind_ok by (by eapply publish_targets_metas_bin_included).
      rewrite Hrun. by rewrite <- app_assoc.
    + constructor; [|done]. unfold stored_version. by rewrite Hmd.
Qed.

(** X5: when a listed bin does not load, or loads but has no entry in
    Snapshot's [meta], [publish_targets_metas] raises (the storage error,
    or [KeyError] on the entry's key) and the world is as it was, whatever
    came before that bin in the list. *)
Theorem publish_targets_metas_failing_bin (w : World) (snapshot : Metadata)
    (meta : gmap string MetaFile) (before after : list string) (bins_name : string) :
  storage_get (_storage_backend w) Snapshot_type = Some snapshot ->
  payload (signed snapshot) = SnapshotP meta ->
  Forall (fun name => is_Some (storage_get (_storage_backend w) name)
                      /\ is_Some (meta !! (name +:+ ".json"))) before ->
  (storage_get (_storage_backend w) bins_name = None ->
   publish_targets_metas (before ++ bins_name :: after) w = (Raise StorageError, w))
  /\ (is_Some (storage_get (_storage_backend w) bins_name) ->
      meta !! (bins_name +:+ ".json") = None ->
      publish_targets_metas (before ++ bins_name :: after) w
      = (Raise (KeyError (bins_name +:+ ".json")), w)).
Proof.
  intros Hload Hp Hbefore.
  destruct (publish_loop_run snapshot meta before [] w Hp Hbefore) as (versions & Hrun & _).
  split.
  - intros Hnone. unfold publish_targets_metas.
    rewrite (bind_ok _ _ _ _ _ (load_ok _ _ _ Hload)).
    apply bind_raise. rewrite for_each_app, (bind_ok _ _ _ _ _ Hrun).
    simpl. apply bind_raise. unfold publish_targets_metas_bin.
    apply bind_raise. by apply load_missing.
  - intros [md Hmd] Hnone. unfold publish_targets_metas.
    rewrite (bind_ok _ _ _ _ _ (load_ok _ _ _ Hload)).
    apply bind_raise. rewrite for_each_app, (bind_ok _ _ _ _ _ Hrun).
    simpl. apply bind_raise. unfold publish_targets_metas_bin.
    rewrite (bind_ok _ _ _ _ _ (load_ok _ _ _ Hmd)).
    apply bind_raise. unfold meta_getitem, get_meta. rewrite Hp.
    unfold bind, ret, raise. by rewrite Hnone.
Qed.


Lemma publish_targets_metas_failing_bin_witness :
  publish_targets_metas ["bin-0"; "bin-9"; "bin-1"] Demo.world
  = (Raise StorageError, Demo.world)
  /\ publish_targets_metas ["bin-0"; "bin"; "bin-1"] Demo.world
     = (Raise (KeyError "bin.json"), Demo.world).
Proof.
  assert (storage_get (_storage_backend Demo.world) Snapshot_type = Some Demo.snapshot_doc)
    as Hload by (vm_compute; reflexivity).
  assert (Forall (fun name => is_Some (storage_get (_storage_backend Demo.world) name)
            /\ is_Some ((list_to_map [("bin-0.json", MetaFile_of_version 3);
                                      ("bin-1.json", MetaFile_of_version 3)]
                          : gmap string MetaFile) !! (name +:+ ".json"))) ["bin-0"])
    as Hbefore.
  { repeat constructor; eexists; vm_compute; reflexivity. }
  split.
  - apply (proj1 (publish_targets_metas_failing_bin Demo.world Demo.snapshot_doc _
                    ["bin-0"] ["bin-1"] "bin-9" Hload eq_refl Hbefore)).
    vm_compute. reflexivity.
  - apply (proj2 (publish_targets_metas_failing_bin Demo.world Demo.snapshot_doc _
                    ["bin-0"] ["bin-1"] "bin" Hload eq_refl Hbefore)).
    + eexists. vm_compute. reflexivity.
    + vm_compute. reflexivity.
Defined.

(** ** What Snapshot records *)

Lemma record_targets_meta_snoc (targets_meta : list (string * Z)) (name : string) (v : Z)
    (meta : gmap string MetaFile) :
  record_targets_meta (targets_meta ++ [(name, v)])%list meta
  = <[name +:+ ".json" := MetaFile_of_version v]> (record_targets_meta targets_meta meta).
Proof. unfold record_targets_meta. by rewrite fold_left_app. Qed.

Lemma last_recorded_snoc (key : string) (targets_meta : list (string * Z))
    (name : string) (v : Z) :
  last_recorded key (targets_meta ++ [(name, v)])%list
  = if decide (name +:+ ".json" = key) then Some v else last_recorded key targets_meta.
Proof. unfold last_recorded. by rewrite fold_left_app. Qed.

Lemma record_targets_meta_lookup (targets_meta : list (string * Z))
    (meta : gmap string MetaFile) (key : string) :
  record_targets_meta targets_meta meta !! key
  = match last_recorded key targets_meta with
    | Some v => Some (MetaFile_of_version v)
    | None => meta !! key
    end.
Proof.
  induction targets_meta as [|[name v] tm IH] using rev_ind; [done|].
  rewrite record_targets_meta_snoc, last_recorded_snoc.
  destruct (decide (name +:+ ".json" = key)) as [<- | Hne].
  - apply lookup_insert_eq.
  - by rewrite lookup_insert_ne.
Qed.



(** X6: [_update_snapshot] sets, for each pair [(name, version)] it is
    given, the entry [<name>.json] of [meta] to a [MetaFile] that holds that
    version and nothing else (the length and hashes the entry had are
    gone; the last version given for a name wins) and keeps every other
    entry as it was. *)
Theorem update_snapshot_records (targets_meta : list (string * Z)) (w : World)
    (snapshot : Metadata) (meta : gmap string MetaFile) (days : Z) :
  storage_get (_storage_backend w) Snapshot_type = Some snapshot ->
  payload (signed snapshot) = SnapshotP meta ->
  _settings w "snapshot_EXPIRATION" = Some days ->
  exists snapshot' meta' w',
    _update_snapshot targets_meta w = (Ok (version (signed snapshot) + 1), w')
    /\ _storage_backend w' !! versioned_name (version (signed snapshot) + 1) Snapshot_type
       = Some snapshot'
    /\ payload (signed snapshot') = SnapshotP meta'
    /\ forall key,
         meta' !! key
         = match last_recorded key targets_meta with
           | Some v => Some {| mf_version := v; mf_length := None; mf_hashes := None |}
           | None => meta !! key
           end.
Proof.
  intros Hload Hp Hdays.
  exists (bumped_snapshot w snapshot meta targets_meta days),
         (record_targets_meta targets_meta meta). eexists.
  split; [by apply update_snapshot_run|].
  split; [apply lookup_insert_eq|].
  split; [unfold bumped_snapshot; by rewrite sign_with_signed|].
  apply record_targets_meta_lookup.
Qed.

Lemma update_snapshot_records_witness :
  exists snapshot' meta' w',
    _update_snapshot [("bin-0", 9); ("bin-2", 1); ("bin-0", 4)] Demo.world = (Ok 6, w')
    /\ _storage_backend w' !! "6.snapshot.json" = Some snapshot'
    /\ payload (signed snapshot') = SnapshotP meta'
    /\ meta' !! "bin-0.json" = Some (MetaFile_of_version 4)
    /\ meta' !! "bin-1.json" = Some (MetaFile_of_version 3)
    /\ meta' !! "bin-2.json" = Some (MetaFile_of_version 1).
Proof.
  assert (versioned_name (version (signed Demo.snapshot_doc) + 1) Snapshot_type
          = "6.snapshot.json") as Hname by (vm_compute; reflexivity).
  destruct (update_snapshot_records [("bin-0", 9); ("bin-2", 1); ("bin-0", 4)] Demo.world
              Demo.snapshot_doc
              (list_to_map [("bin-0.json", MetaFile_of_version 3);
                            ("bin-1.json", MetaFile_of_version 3)]) 1)
    as (s' & meta' & w' & Hrun & Hstore & Hp & Hmeta).
  - vm_compute. reflexivity.
  - reflexivity.
  - vm_compute. reflexivity.
  - exists s', meta', w'. split; [exact Hrun|]. rewrite Hname in Hstore.
    split; [exact Hstore|]. split; [exact Hp|].
    rewrite !Hmeta. repeat split; vm_compute; reflexivity.
Defined.




(** ** The bins sweep, its other runs *)

Lemma sweep_all_fresh (bins_names : list string) :
  forall (acc : list (string * Z)) (w : World),
    Forall (fun name =>
              exists md, storage_get (_storage_backend w) name = Some md
                /\ forall n, timedelta_hours (_hours_before_expire w)
                             <= expires (signed md) - clock w n) bins_names ->
    for_each bump_bins_roles_bin bins_names acc w
    = (Ok acc, ticks_later (length bins_names) w).
Proof.
  induction bins_names as [|name names IH]; intros acc w Hall; [done|].
  apply Forall_cons in Hall as [(md & Hmd & Hfresh) Hall].
  simpl. erewrite bind_ok by (by apply (bump_bins_roles_bin_fresh _ _ _ md)).
  by apply (IH acc (tick w)).
Qed.

(** X8: when the [bin] document loads and every delegated bin loads with
    an expiry out of the freshness window at every reading of the clock,
    [bump_bins_roles] returns [True] having read the clock once per bin
    and written nothing: no bin is bumped and Snapshot and Timestamp are not
    even loaded. *)
Theorem bump_bins_roles_nothing_due (w : World) (bin : Metadata)
    (targets : gmap string TargetFile) (roles : SuccinctRoles) :
  storage_get (_storage_backend w) BIN = Some bin ->
  payload (signed bin) = TargetsP targets (Some {| succinct_roles := Some roles |}) ->
  Forall (fun name =>
            exists md, storage_get (_storage_backend w) name = Some md
              /\ forall n, timedelta_hours (_hours_before_expire w)
                           <= expires (signed md) - clock w n) (get_roles roles) ->
  bump_bins_roles w = (Ok true, ticks_later (length (get_roles roles)) w).
Proof.
  intros Hbin Hp Hall. unfold bump_bins_roles.
  erewrite bind_ok; cycle 1.
  { unfold try_except_StorageError.
    by rewrite (bind_ok _ _ _ _ _ (load_ok _ _ _ Hbin)). }
  cbv beta iota. unfold get_succinct_roles. rewrite Hp.
  erewrite bind_ok by reflexivity.
  erewrite bind_ok by reflexivity.
  erewrite bind_ok by (by apply sweep_all_fresh).
  reflexivity.
Qed.

Lemma bump_bins_roles_nothing_due_witness :
  bump_bins_roles Scenario.renewed_world
  = (Ok true, ticks_later 2 Scenario.renewed_world).
Proof.
  apply (bump_bins_roles_nothing_due Scenario.renewed_world Demo.bin_doc ∅
           {| get_role_for_target := Demo.pick; get_roles := ["bin-0"; "bin-1"] |}).
  - vm_compute. reflexivity.
  - reflexivity.
  - repeat constructor.
    + eexists. split; [vm_compute; reflexivity|]. intros n. vm_compute. discriminate.
    + eexists. split; [vm_compute; reflexivity|]. intros n. vm_compute. discriminate.
Defined.

(** X9: when a delegated bin does not load, [bump_bins_roles] raises the
    storage error (only the load of [bin] is guarded): the bins that come
    before it were already bumped and written where they were due, and
    Snapshot and Timestamp are not updated for them. *)
Theorem bump_bins_roles_stops_at_failing_bin (w w1 : World) (bin : Metadata)
    (targets : gmap string TargetFile) (roles : SuccinctRoles)
    (before after : list string) (bins_name : string) (targets_meta : list (string * Z)) :
  storage_get (_storage_backend w) BIN = Some bin ->
  payload (signed bin) = TargetsP targets (Some {| succinct_roles := Some roles |}) ->
  get_roles roles = (before ++ bins_name :: after)%list ->
  for_each bump_bins_roles_bin before [] w = (Ok targets_meta, w1) ->
  storage_get (_storage_backend w1) bins_name = None ->
  bump_bins_roles w = (Raise StorageError, w1).
Proof.
  intros Hbin Hp Hroles Hbefore Hnone. unfold bump_bins_roles.
  erewrite bind_ok; cycle 1.
  { unfold try_except_StorageError.
    by rewrite (bind_ok _ _ _ _ _ (load_ok _ _ _ Hbin)). }
  cbv beta iota. unfold get_succinct_roles. rewrite Hp.
  erewrite bind_ok by reflexivity.
  erewrite bind_ok by reflexivity.
  apply bind_raise. rewrite Hroles, for_each_app, (bind_ok _ _ _ _ _ Hbefore).
  simpl. apply bind_raise. unfold bump_bins_roles_bin.
  apply bind_raise. by apply load_missing.
Qed.

Lemma bump_bins_roles_stops_at_failing_bin_witness :
  exists w1,
    bump_bins_roles Scenario.world_without_bin_1 = (Raise StorageError, w1)
    /\ (version ∘ signed <$> _storage_backend w1 !! "4.bin-0.json") = Some 4
    /\ _storage_backend w1 !! "6.snapshot.json" = None
    /\ (version ∘ signed <$> _storage_backend w1 !! "timestamp.json") = Some 7.
Proof.
  exists (snd (for_each bump_bins_roles_bin ["bin-0"] [] Scenario.world_without_bin_1)).
  split.
  - apply (bump_bins_roles_stops_at_failing_bin Scenario.world_without_bin_1 _ Demo.bin_doc ∅
             {| get_role_for_target := Demo.pick; get_roles := ["bin-0"; "bin-1"] |}
             ["bin-0"] [] "bin-1" [("bin-0", 4)]).
    + vm_compute. reflexivity.
    + reflexivity.
    + reflexivity.
    + vm_compute. reflexivity.
    + vm_compute. reflexivity.
  - repeat split; vm_compute; reflexivity.
Defined.

(** X10: with no [bins] expiration interval configured, [bump_bins_roles]
    never writes: whatever its outcome, the world it leaves differs from the
    one it found by readings of the clock only (a bin that is due stops the
    sweep with the [TypeError] of [int(None)] before anything is bumped). *)
Theorem bump_bins_roles_without_interval (w w' : World) (r : outcome bool) :
  _settings w "bins_EXPIRATION" = None ->
  bump_bins_roles w = (r, w') ->
  (exists n, w' = ticks_later n w)
  /\ _storage_backend w' = _storage_backend w.
Proof.
  intros Hnone Hrun.
  cut (exists n, w' = ticks_later n w).
  { intros [n ->]. split; [by exists n | apply ticks_later_storage]. }
  destruct (bump_bins_roles_cases _ _ _ Hrun)
    as [-> | (bin & targets & roles & rl & wl & _ & _ & Hloop & Hend)];
    [by exists 0%nat|].
  destruct (sweep_without_interval _ _ _ _ _ Hnone Hloop) as [Hn Hacc].
  destruct Hend as [(e & -> & ->) | [[-> ->] | (tm & rp & -> & Hne & _)]];
    [done | done |].
  by destruct Hne, (Hacc tm eq_refl).
Qed.

Lemma bump_bins_roles_without_interval_witness :
  fst (bump_bins_roles Scenario.world_without_intervals) = Raise TypeError
  /\ _storage_backend (snd (bump_bins_roles Scenario.world_without_intervals))
     = _storage_backend Scenario.world_without_intervals.
Proof.
  split; [vm_compute; reflexivity|].
  apply (bump_bins_roles_without_interval Scenario.world_without_intervals _
           (fst (bump_bins_roles Scenario.world_without_intervals))).
  - reflexivity.
  - apply surjective_pairing.
Defined.

(** ** Adding targets: the groups, the cycles, the empty batch *)

Lemma group_step_get (roles : SuccinctRoles) (groups : list (string * list TargetFile))
    (target : Target) (bins_name : string) :
  odict_get bins_name (group_step roles groups target)
  = if decide (get_role_for_target roles (target_path target) = bins_name)
    then Some (default [] (odict_get bins_name groups)
               ++ [target_file_of target])%list
    else odict_get bins_name groups.
Proof.
  unfold group_step.
  destruct (decide (get_role_for_target roles (target_path target) = bins_name))
    as [<- | Hne].
  - rewrite odict_get_set_eq.
    destruct (odict_get _ groups) eqn:Hget; [by rewrite Hget|].
    by rewrite odict_get_set_eq.
  - rewrite odict_get_set_ne by done.
    destruct (odict_get (get_role_for_target roles (target_path target)) groups); [done|].
    by rewrite odict_get_set_ne.
Qed.

Lemma group_step_NoDup (roles : SuccinctRoles) (groups : list (string * list TargetFile))
    (target : Target) :
  NoDup groups.*1 -> NoDup (group_step roles groups target).*1.
Proof.
  intros Hd. unfold group_step. apply odict_set_NoDup.
  destruct (odict_get _ groups); [done | by apply odict_set_NoDup].
Qed.

Lemma targets_of_bin_snoc (roles : SuccinctRoles) (bins_name : string)
    (targets : list Target) (target : Target) :
  targets_of_bin roles bins_name (targets ++ [target])
  = (targets_of_bin roles bins_name targets
     ++ if decide (get_role_for_target roles (target_path target) = bins_name)
        then [target_file_of target]
        else [])%list.
Proof.
  unfold targets_of_bin. rewrite filter_app, fmap_app. f_equal.
  destruct (decide (get_role_for_target roles (target_path target) = bins_name)).
  - by rewrite filter_cons_True.
  - by rewrite filter_cons_False.
Qed.

Lemma group_targets_get (roles : SuccinctRoles) (targets : list Target)
    (bins_name : string) :
  odict_get bins_name (group_targets roles targets)
  = match targets_of_bin roles bins_name targets with
    | [] => None
    | target_files => Some target_files
    end.
Proof.
  induction targets as [|target targets IH] using rev_ind; [done|].
  unfold group_targets in *. rewrite fold_left_app. simpl.
  rewrite group_step_get, IH, targets_of_bin_snoc.
  destruct (decide (get_role_for_target roles (target_path target) = bins_name)).
  - by destruct (targets_of_bin roles bins_name targets).
  - by rewrite app_nil_r.
Qed.

Lemma group_targets_NoDup (roles : SuccinctRoles) (targets : list Target) :
  NoDup (group_targets roles targets).*1.
Proof.
  induction targets as [|target targets IH] using rev_ind; [apply NoDup_nil_2|].
  unfold group_targets in *. rewrite fold_left_app. simpl. by apply group_step_NoDup.
Qed.

Lemma odict_get_elem {V : Type} (k : string) (v : V) (d : list (string * V)) :
  NoDup d.*1 -> (k, v) ∈ d <-> odict_get k d = Some v.
Proof.
  induction d as [|[k' v'] d IH]; simpl.
  - intros _. split; [by intros ?%not_elem_of_nil | done].
  - intros [Hnin Hd]%NoDup_cons. rewrite elem_of_cons.
    destruct (decide (k = k')) as [<- | Hne].
    + split.
      * intros [[= ->] | Hin]; [done|].
        destruct Hnin. apply list_elem_of_fmap. by exists (k, v).
      * intros [= ->]. by left.
    + rewrite <- IH by done. split; [|by right].
      by intros [[= -> ->] | Hin].
Qed.

Lemma group_targets_spec (roles : SuccinctRoles) (targets : list Target) :
  NoDup (group_targets roles targets).*1
  /\ (forall bins_name target_files,
        (bins_name, target_files) ∈ group_targets roles targets
        <-> target_files <> [] /\ target_files = targets_of_bin roles bins_name targets)
  /\ (forall target, target ∈ targets ->
        exists target_files,
          (get_role_for_target roles (target_path target), target_files)
            ∈ group_targets roles targets
          /\ target_file_of target ∈ target_files).
Proof.
  pose proof (group_targets_NoDup roles targets) as Hd.
  assert (forall bins_name target_files,
            (bins_name, target_files) ∈ group_targets roles targets
            <-> target_files <> [] /\ target_files = targets_of_bin roles bins_name targets)
    as Hgroups.
  { intros bins_name target_files.
    rewrite (odict_get_elem _ _ _ Hd), group_targets_get.
    destruct (targets_of_bin roles bins_name targets) as [|tf tfs].
    - split; [done | by intros [? ->]].
    - split; [by intros [= <-] | by intros [_ ->]]. }
  split; [done|]. split; [done|].
  intros target Hin.
  assert (target_file_of target
            ∈ targets_of_bin roles (get_role_for_target roles (target_path target)) targets)
    as Htf.
  { unfold targets_of_bin. apply list_elem_of_fmap. exists target. split; [done|].
    by apply list_elem_of_filter. }
  eexists. split; [|exact Htf]. apply Hgroups. split; [|done].
  intros Hnil. rewrite Hnil in Htf. by apply not_elem_of_nil in Htf.
Qed.

(** X11: on a batch whose entries [TargetFile] accepts (positive length,
    some hash), the first loop of [add_targets] returns a dictionary that
    partitions the batch by bin: every bin name is a key once, the group of
    a bin holds exactly the targets the succinct roles assign to it, as
    target files in the order of the batch, no group is empty, and every
    target of the batch is in the group of its bin. *)
Theorem group_targets_partition (roles : SuccinctRoles) (targets : list Target)
    (w : World) :
  Forall valid_target targets ->
  exists bin_target_groups,
    for_each (group_target (Some roles)) targets [] w = (Ok bin_target_groups, w)
    /\ NoDup bin_target_groups.*1
    /\ (forall bins_name target_files,
          (bins_name, target_files) ∈ bin_target_groups
          <-> target_files <> []
              /\ target_files
                 = (fun target =>
                      {| tf_path := target_path target;
                         tf_length := info_length (target_info target);
                         tf_hashes := info_hashes (target_info target) |})
                   <$> filter (fun target =>
                                 get_role_for_target roles (target_path target) = bins_name)
                              targets)
    /\ (forall target, target ∈ targets ->
          exists target_files,
            (get_role_for_target roles (target_path target), target_files)
              ∈ bin_target_groups
            /\ {| tf_path := target_path target;
                  tf_length := info_length (target_info target);
                  tf_hashes := info_hashes (target_info target) |} ∈ target_files).
Proof.
  intros Hvalid. exists (group_targets roles targets).
  split; [by apply group_targets_run|]. apply group_targets_spec.
Qed.

Lemma group_targets_partition_witness :
  for_each (group_target (Some {| get_role_for_target := Demo.pick;
                                  get_roles := ["bin-0"; "bin-1"] |}))
           Demo.batch [] Demo.world
  = (Ok [("bin-0", [{| tf_path := "a1"; tf_length := 1; tf_hashes := [("sha256", "0a")] |}]);
         ("bin-1", [{| tf_path := "b1"; tf_length := 2; tf_hashes := [("sha256", "0b")] |}])],
     Demo.world).
Proof.
  destruct (group_targets_partition
              {| get_role_for_target := Demo.pick; get_roles := ["bin-0"; "bin-1"] |}
              Demo.batch Demo.world) as (groups & Hrun & _).
  - repeat constructor; simpl; (lia || discriminate).
  - rewrite Hrun. f_equal.
    apply (f_equal fst) in Hrun. vm_compute in Hrun. by injection Hrun as <-.
Defined.









(** X20: when [bin] loads with succinct roles and an entry of the batch has
    a length that is not positive or no hash, [add_targets] raises the
    [ValueError] of [TargetFile] while it groups the batch: no bin is
    loaded and nothing is written, whatever the entries before it. *)
Theorem add_targets_invalid_target (before after : list Target) (target : Target)
    (w : World) (bin : Metadata) (bin_targets : gmap string TargetFile)
    (roles : SuccinctRoles) :
  storage_get (_storage_backend w) BIN = Some bin ->
  payload (signed bin) = TargetsP bin_targets (Some {| succinct_roles := Some roles |}) ->
  Forall valid_target before ->
  info_length (target_info target) <= 0 \/ info_hashes (target_info target) = [] ->
  add_targets (before ++ target :: after) w = (Raise ValueError, w).
Proof.
  intros Hbin Hp Hbefore Hinvalid. unfold add_targets.
  erewrite bind_ok by (by apply load_ok).
  unfold get_succinct_roles. rewrite Hp.
  erewrite bind_ok by reflexivity.
  apply bind_raise, group_targets_raise; [done|].
  intros [Hlength Hhashes]. destruct Hinvalid; [lia | done].
Qed.

Lemma add_targets_invalid_target_witness :
  add_targets Scenario.batch_without_hashes Demo.world = (Raise ValueError, Demo.world).
Proof.
  assert (storage_get (_storage_backend Demo.world) BIN = Some Demo.bin_doc) as Hbin
    by (vm_compute; reflexivity).
  apply (add_targets_invalid_target
           [ {| target_path := "a1";
                target_info := {| info_length := 1; info_hashes := [("sha256", "0a")] |} |} ]
           [ {| target_path := "a2";
                target_info := {| info_length := 3; info_hashes := [("sha256", "0c")] |} |} ]
           {| target_path := "b1"; target_info := {| info_length := 2; info_hashes := [] |} |}
           Demo.world Demo.bin_doc ∅
           {| get_role_for_target := Demo.pick; get_roles := ["bin-0"; "bin-1"] |}
           Hbin eq_refl).
  - repeat constructor; simpl; (lia || discriminate).
  - by right.
Defined.

(** X13: on an empty batch [add_targets] loads [bin], reads its
    delegations and returns the empty list without writing anything, even
    when the delegations carry no succinct roles; it raises the storage
    error when [bin] does not load and [AttributeError] when the document
    has no delegations. *)
Theorem add_targets_nil (w : World) :
  add_targets [] w
  = match storage_get (_storage_backend w) BIN with
    | None => (Raise StorageError, w)
    | Some bin =>
        match payload (signed bin) with
        | TargetsP _ (Some _) => (Ok [], w)
        | _ => (Raise AttributeError, w)
        end
    end.
Proof.
  unfold add_targets, bind, _load, Metadata_from_file, get_succinct_roles.
  destruct (storage_get (_storage_backend w) BIN) as [bin|]; [|done].
  by destruct (payload (signed bin)) as [| | |ts [ds|]].
Qed.

(** X14: when the delegations of [bin] carry no succinct roles, a
    non-empty batch makes [add_targets] raise [AttributeError] at the first
    target, and [bump_bins_roles] raises it too, its handler covering the
    storage error of the load only; nothing is written. *)
Theorem succinct_roles_missing (w : World) (bin : Metadata)
    (bin_targets : gmap string TargetFile) (targets : list Target) :
  storage_get (_storage_backend w) BIN = Some bin ->
  payload (signed bin) = TargetsP bin_targets (Some {| succinct_roles := None |}) ->
  (targets <> [] -> add_targets targets w = (Raise AttributeError, w))
  /\ bump_bins_roles w = (Raise AttributeError, w).
Proof.
  intros Hbin Hp. split.
  - intros Hne. destruct targets as [|target targets]; [done|].
    unfold add_targets.
    erewrite bind_ok by (by apply load_ok).
    unfold get_succinct_roles. rewrite Hp.
    erewrite bind_ok by reflexivity.
    apply bind_raise. simpl. by apply bind_raise.
  - unfold bump_bins_roles.
    erewrite bind_ok; cycle 1.
    { unfold try_except_StorageError.
      by rewrite (bind_ok _ _ _ _ _ (load_ok _ _ _ Hbin)). }
    cbv beta iota. unfold get_succinct_roles. rewrite Hp.
    erewrite bind_ok by reflexivity.
    by apply bind_raise.
Qed.

Lemma succinct_roles_missing_witness :
  let w := MetadataRepository_init
             (<["1.bin.json" := Demo.doc 1 0 (TargetsP ∅ (Some {| succinct_roles := None |}))]>
                Demo.store)
             Demo.keyvault Demo.settings (fun _ => 0) in
  add_targets Demo.batch w = (Raise AttributeError, w)
  /\ bump_bins_roles w = (Raise AttributeError, w).
Proof.
  intros w.
  assert (storage_get (_storage_backend w) BIN
          = Some (Demo.doc 1 0 (TargetsP ∅ (Some {| succinct_roles := None |})))) as Hbin
    by (vm_compute; reflexivity).
  destruct (succinct_roles_missing w _ ∅ Demo.batch Hbin eq_refl) as [Hadd Hbump].
  split; [|exact Hbump]. apply Hadd. discriminate.
Defined.

(** ** Bootstrapping *)





(** ** Writing, then loading *)

(** X16: a document persisted under a role is what loading that role gives
    next, for Timestamp always, and for any other role when no stored
    version of the role is above the document's and [_persist] adds the
    version prefix. *)
Theorem persist_then_load (role : Metadata) (role_name : string) (w : World) :
  role_name = "timestamp"
  \/ (String.prefix (pretty (version (signed role)) +:+ ".") (role_name +:+ ".json") = false
      /\ forall u, is_Some (_storage_backend w !! versioned_name u role_name) ->
                   u <= version (signed role)) ->
  (_persist role role_name ;;; _load role_name) w
  = (Ok role,
     set_storage w (<[persist_filename role role_name := role]> (_storage_backend w))).
Proof.
  intros Hcase. unfold _persist.
  erewrite bind_ok by reflexivity.
  apply load_ok. simpl. rewrite persist_filename_spec.
  destruct (decide (role_name = Timestamp_type)) as [-> | Hne].
  - rewrite storage_get_timestamp. apply lookup_insert_eq.
  - destruct Hcase as [-> | [Hprefix Hmax]]; [done|]. rewrite Hprefix.
    unfold storage_get. rewrite decide_False by done.
    assert (latest_version
              (<[versioned_name (version (signed role)) role_name := role]>
                 (_storage_backend w)) role_name
            = Some (version (signed role))) as ->.
    { apply latest_version_Some. split.
      - rewrite lookup_insert_eq. by eexists.
      - intros u Hu.
        destruct (decide (versioned_name (version (signed role)) role_name
                          = versioned_name u role_name)) as [Heq | Hneq].
        + apply versioned_name_inj in Heq as [<- _]. lia.
        + rewrite lookup_insert_ne in Hu by done. by apply Hmax. }
    apply lookup_insert_eq.
Qed.

Lemma persist_then_load_witness :
  fst ((_persist (Demo.doc 6 0 (SnapshotP ∅)) Snapshot_type ;;; _load Snapshot_type)
         Demo.world)
  = Ok (Demo.doc 6 0 (SnapshotP ∅)).
Proof.
  erewrite (persist_then_load (Demo.doc 6 0 (SnapshotP ∅)) Snapshot_type Demo.world);
    [reflexivity|].
  right. split; [vm_compute; reflexivity|].
  intros u [md Hu].
  assert (latest_version (_storage_backend Demo.world) Snapshot_type = Some 5) as Hlatest
    by (vm_compute; reflexivity).
  apply latest_version_Some in Hlatest as [_ Hmax].
  assert (u <= 5) by (apply Hmax; by exists md). simpl. lia.
Defined.

(** X17: a document persisted at a version below the latest stored one of
    its role is written, but loading the role still gives the latest one:
    the write does not show. *)
Theorem persist_below_latest (role latest : Metadata) (role_name : string) (w : World)
    (v : Z) :
  role_name <> "timestamp" ->
  String.prefix (pretty (version (signed role)) +:+ ".") (role_name +:+ ".json") = false ->
  latest_version (_storage_backend w) role_name = Some v ->
  storage_get (_storage_backend w) role_name = Some latest ->
  version (signed role) < v ->
  (_persist role role_name ;;; _load role_name) w
  = (Ok latest,
     set_storage w
       (<[versioned_name (version (signed role)) role_name := role]> (_storage_backend w))).
Proof.
  intros Hne Hprefix Hlatest Hget Hlt. unfold _persist.
  erewrite bind_ok by reflexivity.
  rewrite persist_filename_spec, decide_False, Hprefix by done.
  apply load_ok. simpl.
  unfold storage_get in *. rewrite decide_False in * by done.
  assert (latest_version
            (<[versioned_name (version (signed role)) role_name := role]>
               (_storage_backend w)) role_name = Some v) as ->.
  { apply latest_version_Some in Hlatest as [Hv Hmax]. apply latest_version_Some. split.
    - rewrite lookup_insert_ne; [done|].
      intros [Heq _]%versioned_name_inj. lia.
    - intros u Hu.
      destruct (decide (versioned_name (version (signed role)) role_name
                        = versioned_name u role_name)) as [Heq | Hneq].
      + apply versioned_name_inj in Heq as [<- _]. lia.
      + rewrite lookup_insert_ne in Hu by done. by apply Hmax. }
  rewrite Hlatest in Hget. rewrite lookup_insert_ne; [done|].
  intros [Heq _]%versioned_name_inj. lia.
Qed.

Lemma persist_below_latest_witness :
  fst ((_persist (Demo.doc 2 0 (SnapshotP ∅)) Snapshot_type ;;; _load Snapshot_type)
         Demo.world)
  = Ok Demo.snapshot_doc.
Proof.
  erewrite (persist_below_latest (Demo.doc 2 0 (SnapshotP ∅)) Demo.snapshot_doc
              Snapshot_type Demo.world 5); [reflexivity|..].
  - discriminate.
  - vm_compute. reflexivity.
  - vm_compute. reflexivity.
  - vm_compute. reflexivity.
  - simpl. lia.
Defined.

(** ** What no method does: delete a file, change the configuration *)

Lemma keeps_files_refl (w : World) : keeps_files w w.
Proof. by repeat split. Qed.

Lemma keeps_files_trans (w1 w2 w3 : World) :
  keeps_files w1 w2 -> keeps_files w2 w3 -> keeps_files w1 w3.
Proof.
  intros (Hc1 & Ht1 & Hf1) (Hc2 & Ht2 & Hf2). split; [congruence|].
  split; [lia|]. intros filename Hw. by apply Hf2, Hf1.
Qed.

Lemma file_keeping_ret {A} (a : A) : file_keeping (ret a).
Proof. intros w r w' [= <- <-]. apply keeps_files_refl. Qed.

Lemma file_keeping_raise {A} (e : exn) : file_keeping (raise e : M A).
Proof. intros w r w' [= <- <-]. apply keeps_files_refl. Qed.

Lemma file_keeping_bind {A B} (m : M A) (f : A -> M B) :
  file_keeping m -> (forall a, file_keeping (f a)) -> file_keeping (bind m f).
Proof.
  intros Hm Hf w r w' [(e & He & _) | (a & w1 & Ha & Hk)]%bind_any.
  - by apply (Hm _ _ _ He).
  - apply (keeps_files_trans _ w1); [by apply (Hm _ _ _ Ha) | by apply (Hf a _ _ _ Hk)].
Qed.

Lemma file_keeping_for_each {A B} (body : A -> B -> M B) (xs : list A) (acc : B) :
  (forall x acc, file_keeping (body x acc)) -> file_keeping (for_each body xs acc).
Proof.
  intros Hbody. revert acc. induction xs as [|x xs IH]; intros acc.
  - apply file_keeping_ret.
  - simpl. by apply file_keeping_bind.
Qed.

Lemma file_keeping_try {A} (m h : M A) :
  file_keeping m -> file_keeping h -> file_keeping (try_except_StorageError m h).
Proof.
  intros Hm Hh w r w'. unfold try_except_StorageError.
  destruct (m w) as [[a|e] w1] eqn:Hrun.
  - intros [= <- <-]. by apply (Hm _ _ _ Hrun).
  - destruct e; try (intros [= <- <-]; by apply (Hm _ _ _ Hrun)).
    intros Hh'. apply (keeps_files_trans _ w1);
      [by apply (Hm _ _ _ Hrun) | by apply (Hh _ _ _ Hh')].
Qed.

Lemma file_keeping_load (role_name : string) : file_keeping (_load role_name).
Proof.
  intros w r w'. unfold _load, Metadata_from_file.
  destruct (storage_get _ _); intros [= <- <-]; apply keeps_files_refl.
Qed.

Lemma file_keeping_to_file (role : Metadata) (filename : string) :
  file_keeping (Metadata_to_file role filename).
Proof.
  intros w r w' [= <- <-]. split; [done|]. split; [done|].
  intros name Hname. simpl.
  destruct (decide (filename = name)) as [-> | Hne].
  - rewrite lookup_insert_eq. by eexists.
  - by rewrite lookup_insert_ne.
Qed.

Lemma file_keeping_now : file_keeping datetime_now.
Proof.
  intros w r w' [= <- <-]. split; [done|]. split; [simpl; lia | done].
Qed.

Lemma file_keeping_settings (name : string) : file_keeping (settings_get_fresh_int name).
Proof.
  intros w r w'. unfold settings_get_fresh_int.
  destruct (_settings w name); intros [= <- <-]; apply keeps_files_refl.
Qed.

Lemma file_keeping_hours : file_keeping self_hours_before_expire.
Proof. intros w r w' [= <- <-]. apply keeps_files_refl. Qed.

Lemma file_keeping_keys (role_name : string) : file_keeping (key_storage_get role_name).
Proof. intros w r w' [= <- <-]. apply keeps_files_refl. Qed.

(** X18: no method of the repository deletes a file or changes the keys,
    the settings, the freshness window or the clock: whatever the outcome,
    an exception included, every file stored before is still stored after
    the call, possibly with new content. *)
Theorem methods_keep_files (metadata : list (string * Metadata)) (targets : list Target)
    (bins_names : list string) :
  file_keeping (add_initial_metadata metadata)
  /\ file_keeping (add_targets targets)
  /\ file_keeping (publish_targets_metas bins_names)
  /\ file_keeping bump_bins_roles
  /\ file_keeping bump_snapshot.
Proof.
  split; [|split; [|split; [|split]]];
    unfold add_initial_metadata, add_targets, add_targets_bin, group_target,
      publish_targets_metas, publish_targets_metas_bin, bump_bins_roles,
      bump_bins_roles_bin, bump_snapshot;
    repeat first
      [ apply file_keeping_ret | apply file_keeping_raise
      | apply file_keeping_load | apply file_keeping_to_file
      | apply file_keeping_now | apply file_keeping_settings
      | apply file_keeping_hours | apply file_keeping_keys
      | apply file_keeping_try
      | apply file_keeping_bind; [|intros ?]
      | apply file_keeping_for_each; intros ? ?
      | match goal with
        | |- file_keeping (match ?x with _ => _ end) => destruct x
        | |- file_keeping ((match ?x with _ => _ end) _) => destruct x
        | |- file_keeping (if ?x then _ else _) => destruct x
        end
      | progress unfold get_meta, meta_getitem, meta_setitem, get_succinct_roles,
          call_succinct, targets_setitem, TargetFile_from_dict, TargetFile_init,
          _bump_version, _persist ].
Qed.

Lemma methods_keep_files_witness :
  keeps_files Demo.world (snd (bump_bins_roles Demo.world))
  /\ keeps_files Scenario.world_without_timestamp
       (snd (bump_snapshot Scenario.world_without_timestamp)).
Proof.
  destruct (methods_keep_files [] [] []) as (_ & _ & _ & Hbins & Hsnapshot).
  split.
  - apply (Hbins Demo.world (fst (bump_bins_roles Demo.world))). apply surjective_pairing.
  - apply (Hsnapshot Scenario.world_without_timestamp
             (fst (bump_snapshot Scenario.world_without_timestamp))).
    apply surjective_pairing.
Defined.

(** ** The bins sweep that bumps *)



